(** * FarmMind dashboard: sensor history, analytics, CSV export, charts

    A shallow embedding of the client-side sensor pipeline of the
    FarmMind front end:

    - [Dashboard]    (Dashboard component: history buffer, analytics,
                      polling, CSV export, history reload),
    - [SensorPanel]  (per-value colour helper [getStatusColor]),
    - [SensorChart]  (SVG coordinate computation),
    - [PlantHealth]  (bounded analysis history),
    - [ChatBot]      (chat messages, their store and the send cycle),
    - [CropPlanner]  (saved plans, crop selection, requests).

    Modelling conventions.

    - A JavaScript number is a finite double, modelled by the rational
      it denotes ([Q]). Comparisons of finite doubles are exact, so
      every threshold test and every [>] of the source is rendered
      faithfully. The sums and the quotient of [calculateAnalytics]
      are rounded to the nearest double, ties to even ([RN]), as
      IEEE 754 prescribes; the text of a number is the shortest decimal
      that reads back to it, as ECMA-262 prescribes. [NaN], the
      infinities and overflow are outside the model, and the
      coordinates of [SensorChart] are computed without rounding.
      Module [Binary64] repeats the arithmetic of [calculateAnalytics]
      on primitive floats, to check [RN] against the hardware
      arithmetic on concrete columns.
    - A JavaScript [Date] is its epoch value in milliseconds ([Z]).
    - A JavaScript string is a [string] of bytes (UTF-8).
    - [localStorage] is a finite map from keys to strings.
    - An exception is an explicit [Throw] outcome. *)

From Stdlib Require Import QArith Qround Qminmax Qabs Qpower Lqa.
From Stdlib Require Import Ascii String DecimalString.
From Stdlib Require PrimFloat FloatOps SpecFloat Uint63.
From stdpp Require Import gmap strings list fin_maps.

Local Open Scope Z_scope.
Local Open Scope string_scope.
Local Open Scope list_scope.

(** ** Outcomes of fallible JavaScript code *)

Inductive Exc (A : Type) : Type :=
| Ok (a : A)
| Throw (message : string).
Arguments Ok {A} a.
Arguments Throw {A} message.

#[global] Instance Exc_ret : MRet Exc := fun A a => Ok a.
#[global] Instance Exc_bind : MBind Exc := fun A B k m =>
  match m with
  | Ok a => k a
  | Throw e => Throw e
  end.

(** [try { body } catch (err) { handler(err.message) }] *)
Definition try_catch {A} (body : Exc A) (handler : string -> A) : A :=
  match body with
  | Ok a => a
  | Throw e => handler e
  end.

(** ** Arrays *)

(** [Array.prototype.slice(-n)] for a positive [n]: the last [n]
    elements, or the whole array when it is shorter. *)
Definition slice_last {A} (n : nat) (l : list A) : list A :=
  drop (length l - n)%nat l.


(** ** Numbers *)

(** JavaScript's [<] and [>] on numbers. *)
Definition num_lt (x y : Q) : bool := negb (Qle_bool y x).
Definition num_gt (x y : Q) : bool := num_lt y x.

(** [Math.min(a, ...rest)] and [Math.max(a, ...rest)] with at least one
    argument. *)
Definition Math_min (a : Q) (rest : list Q) : Q := fold_left Qmin rest a.
Definition Math_max (a : Q) (rest : list Q) : Q := fold_left Qmax rest a.

(** *** Arithmetic on doubles

    [ilog2 a] is the binary exponent of a positive [a]: the [e] with
    [2^e <= a < 2^(e+1)]. The difference of the bit lengths of the
    numerator and the denominator is [e] or [e + 1]. *)
Definition ilog2 (a : Q) : Z :=
  let k := Z.log2 (Qnum a) - Z.log2 (Zpos (Qden a)) in
  if Qle_bool (2 ^ k) a then k else k - 1.

(** The integer nearest to [q], the even one on a tie. *)
Definition round_half_even (q : Q) : Z :=
  let f := Qfloor q in
  match (q - inject_Z f ?= 1 # 2)%Q with
  | Lt => f
  | Gt => f + 1
  | Eq => if Z.even f then f else f + 1
  end.

(** Rounding to the nearest double, ties to even: a double is an
    integer of at most 53 bits times a power of two not below
    [2^-1074]. *)
Definition RN (x : Q) : Q :=
  let x := Qred x in
  if Qeq_bool x 0 then 0%Q
  else
    let a := Qabs x in
    let c := Z.max (ilog2 a - 52) (-1074) in
    let v := Qred (inject_Z (round_half_even (a / 2 ^ c)) * 2 ^ c) in
    if num_lt x 0 then (- v)%Q else v.

(** The rationals that are doubles. *)
Definition is_double (x : Q) : Prop := (RN x == x)%Q.

(** JavaScript's [+] and [/] on numbers. *)
Definition num_add (x y : Q) : Q := RN (x + y).
Definition num_div (x y : Q) : Q := RN (x / y).

(** [xs.reduce((a, b) => a + b, 0)] *)
Definition sum (xs : list Q) : Q := fold_left num_add xs 0%Q.

(** *** [Number.prototype.toFixed]

    The result of [x.toFixed(f)] is a decimal numeral; it is kept as its
    sign, its digits read as an integer and the number of fraction
    digits, and [Fixed_to_string] writes the text JavaScript returns.
    Following ECMA-262: a negative [x] contributes the sign ["-"] and is
    replaced by [-x]; then [n] is the integer for which [n / 10^f - x] is
    closest to zero, the larger one on a tie. *)
Record Fixed : Type := {
  fx_negative : bool;
  fx_n : Z;
  fx_digits : nat
}.

Definition pow10 (f : nat) : Q := inject_Z (10 ^ Z.of_nat f).

Definition toFixed (f : nat) (x : Q) : Fixed :=
  let negative := num_lt x 0 in
  let ax := if negative then (- x)%Q else x in
  {| fx_negative := negative;
     fx_n := Qfloor (ax * pow10 f + (1 # 2))%Q;
     fx_digits := f |}.

(** The number a numeral denotes. *)
Definition Fixed_value (d : Fixed) : Q :=
  ((if fx_negative d then - inject_Z (fx_n d) else inject_Z (fx_n d))
   / pow10 (fx_digits d))%Q.

(** The digits of [x.toFixed(f)] read as a signed integer. *)
Definition signed_n (d : Fixed) : Z :=
  if fx_negative d then - fx_n d else fx_n d.

Fixpoint zeros (k : nat) : string :=
  match k with
  | O => EmptyString
  | S k' => String "0" (zeros k')
  end.

Definition decimal_digits (n : Z) : string :=
  NilZero.string_of_uint (N.to_uint (Z.to_N n)).

Definition Fixed_to_string (d : Fixed) : string :=
  let s := if fx_negative d then "-" else EmptyString in
  let m := decimal_digits (fx_n d) in
  let f := fx_digits d in
  let m :=
    match f with
    | O => m
    | _ =>
      let m := if decide (String.length m <= f)%nat
               then zeros (f + 1 - String.length m) +:+ m else m in
      let k := String.length m in
      substring 0 (k - f) m +:+ "." +:+ substring (k - f) f m
    end in
  s +:+ m.

(** ** Readings *)

(** The [status] string of a sensor response. *)
Inductive Status : Type := optimal | warning | critical.

Definition Status_to_string (s : Status) : string :=
  match s with
  | optimal => "optimal"
  | warning => "warning"
  | critical => "critical"
  end.

(** One sensor response, [timestamp] already turned into a [Date]. *)
Record Reading : Type := {
  timestamp : Z;
  temperature : Q;
  humidity : Q;
  soil_moisture : Q;
  sunlight_intensity : Q;
  status : Status
}.

Inductive Metric : Type :=
| Temperature | Humidity | SoilMoisture | SunlightIntensity.

Definition metric_value (m : Metric) (d : Reading) : Q :=
  match m with
  | Temperature => temperature d
  | Humidity => humidity d
  | SoilMoisture => soil_moisture d
  | SunlightIntensity => sunlight_intensity d
  end.

(** Digits kept by [toFixed] for each metric in [calculateAnalytics]. *)
Definition metric_digits (m : Metric) : nat :=
  match m with
  | SunlightIntensity => 0
  | _ => 1
  end.

(** ** Dashboard: analytics *)

Module Dashboard.

(** The arrows ['↑'], ['↓'] and ['→'] of the [trend] field. *)
Inductive Trend : Type := rising | falling | flat.

Definition Trend_symbol (t : Trend) : string :=
  match t with
  | rising => "↑"
  | falling => "↓"
  | flat => "→"
  end.

Record MetricStats : Type := {
  avg : Fixed;
  min : Fixed;
  max : Fixed;
  trend : Trend
}.

Record Analytics : Type := {
  an_temperature : MetricStats;
  an_humidity : MetricStats;
  an_soil_moisture : MetricStats;
  an_sunlight_intensity : MetricStats
}.

Definition analytics_of (m : Metric) (a : Analytics) : MetricStats :=
  match m with
  | Temperature => an_temperature a
  | Humidity => an_humidity a
  | SoilMoisture => an_soil_moisture a
  | SunlightIntensity => an_sunlight_intensity a
  end.

(** [xs.reduce((a, b) => a + b, 0) / xs.length] *)
Definition mean (xs : list Q) : Q :=
  num_div (sum xs) (inject_Z (Z.of_nat (length xs))).

(** [xs.length > 1 ? (xs[xs.length - 1] > xs[0] ? '↑' : '↓') : '→'];
    an index out of range reads [undefined], and [undefined > x] is
    [false]. *)
Definition trend_of (xs : list Q) : Trend :=
  if (1 <? length xs)%nat then
    match xs !! (length xs - 1)%nat, xs !! 0%nat with
    | Some newest, Some oldest =>
        if num_gt newest oldest then rising else falling
    | _, _ => falling
    end
  else flat.

(** One of the four object literals passed to [setAnalytics]; [xs] is
    the non-empty column [x0 :: rest]. *)
Definition metric_stats (f : nat) (x0 : Q) (rest : list Q) : MetricStats :=
  let xs := x0 :: rest in
  {| avg := toFixed f (mean xs);
     min := toFixed f (Math_min x0 rest);
     max := toFixed f (Math_max x0 rest);
     trend := trend_of xs |}.

(** The argument [calculateAnalytics] passes to [setAnalytics], or
    [None] when it returns early on an empty array. *)
Definition computeAnalytics (data : list Reading) : option Analytics :=
  match data with
  | [] => None
  | d0 :: ds =>
      let column m := metric_stats (metric_digits m)
                        (metric_value m d0) (map (metric_value m) ds) in
      Some {| an_temperature := column Temperature;
              an_humidity := column Humidity;
              an_soil_moisture := column SoilMoisture;
              an_sunlight_intensity := column SunlightIntensity |}
  end.

(** *** Component state *)

Record State : Type := {
  sensorData : option Reading;
  loading : bool;
  error : option string;
  history : list Reading;
  analytics : option Analytics
}.

(** The [useState] initial values. *)
Definition initial : State :=
  {| sensorData := None; loading := true; error := None;
     history := []; analytics := None |}.

Definition setSensorData (v : option Reading) (st : State) : State :=
  {| sensorData := v; loading := loading st; error := error st;
     history := history st; analytics := analytics st |}.
Definition setLoading (v : bool) (st : State) : State :=
  {| sensorData := sensorData st; loading := v; error := error st;
     history := history st; analytics := analytics st |}.
Definition setError (v : option string) (st : State) : State :=
  {| sensorData := sensorData st; loading := loading st; error := v;
     history := history st; analytics := analytics st |}.
Definition setHistory (v : list Reading) (st : State) : State :=
  {| sensorData := sensorData st; loading := loading st; error := error st;
     history := v; analytics := analytics st |}.
Definition setAnalytics (v : option Analytics) (st : State) : State :=
  {| sensorData := sensorData st; loading := loading st; error := error st;
     history := history st; analytics := v |}.

Definition calculateAnalytics (data : list Reading) (st : State) : State :=
  match computeAnalytics data with
  | None => st
  | Some a => setAnalytics (Some a) st
  end.

(** *** Fetching and the history buffer *)

(** A [fetch] response: its [ok] flag and the outcome of [json()]. *)
Record Response : Type := {
  ok : bool;
  json : Exc Reading
}.

(** The component's state together with the page's [localStorage]. *)
Record World : Type := {
  state : State;
  localStorage : gmap string string
}.

(** [[...prevHistory, {...data, timestamp: new Date(data.timestamp)}].slice(-50)] *)
Definition newHistory (prevHistory : list Reading) (data : Reading)
  : list Reading :=
  slice_last 50 (prevHistory ++ [data]).

Section Effects.
(** [JSON.stringify] and [JSON.parse] on the history array; a
    [SyntaxError] of [JSON.parse] is a [Throw]. *)
Variable JSON_stringify : list Reading -> string.
Variable JSON_parse : string -> Exc (list Reading).

(** The [try] block of [fetchSensorData] after [response.json()]
    resolved to [data]. *)
Definition fetchSucceeded (data : Reading) (w : World) : World :=
  let st := setError None (setLoading false
              (setSensorData (Some data) (state w))) in
  let newHistory := newHistory (history st) data in
  {| state := setHistory newHistory (calculateAnalytics newHistory st);
     localStorage :=
       <["sensorHistory" := JSON_stringify newHistory]> (localStorage w) |}.

(** The [catch (err)] block of [fetchSensorData]. *)
Definition fetchFailed (message : string) (w : World) : World :=
  {| state := setLoading false (setError (Some message) (state w));
     localStorage := localStorage w |}.

(** One call of [fetchSensorData]; [fetched] is what
    [await fetch(...)] gave: a response, or a rejection. *)
Definition fetchSensorData (fetched : Exc Response) (w : World) : World :=
  try_catch
    (response ← fetched;
     if negb (ok response) then Throw "Failed to fetch sensor data"
     else
       data ← json response;
       mret (fetchSucceeded data w))
    (fun message => fetchFailed message w).

(** The polling effect: the initial call and then one call per tick of
    [setInterval(fetchSensorData, 5000)], each with its own fetch. *)
Definition poll (fetches : list (Exc Response)) (w : World) : World :=
  fold_left (fun w fetched => fetchSensorData fetched w) fetches w.

(** The history-load effect, run once after the first render. A
    missing key reads [null] and an empty string is falsy. The [Ok]
    outcome of [JSON_parse] stands for a text that parses to an array
    of readings; a text that parses to any other value (["[null]"],
    ["{}"]) leaves the component with a history that is no list of
    readings, and is outside the model. *)
Definition loadHistory (w : World) : World :=
  match localStorage w !! "sensorHistory" with
  | None => w
  | Some savedHistory =>
      if String.eqb savedHistory EmptyString then w
      else
        try_catch
          (parsed ← JSON_parse savedHistory;
           mret {| state := calculateAnalytics parsed
                              (setHistory parsed (state w));
                   localStorage := localStorage w |})
          (fun _ => w)
  end.
End Effects.

(** *** CSV export *)

Definition comma : ascii := ",".
Definition newline : ascii := ascii_of_nat 10.

(** [cells.join(sep)] with a one-character separator. *)
Fixpoint join (sep : ascii) (cells : list string) : string :=
  match cells with
  | [] => EmptyString
  | [cell] => cell
  | cell :: rest => cell +:+ String sep (join sep rest)
  end.

Definition headers : list string :=
  ["Timestamp"; "Temperature (°C)"; "Humidity (%)"; "Soil Moisture (%)";
   "Sunlight (lux)"; "Status"].

Section ExportCsv.
(** [Date.prototype.toLocaleString] in the browser's locale and time
    zone, and the text of a number inside [Array.prototype.join]. *)
Variable toLocaleString : Z -> string.
Variable Number_toString : Q -> string.

Definition row (h : Reading) : list string :=
  [toLocaleString (timestamp h);
   Number_toString (temperature h);
   Number_toString (humidity h);
   Number_toString (soil_moisture h);
   Number_toString (sunlight_intensity h);
   Status_to_string (status h)].

Definition rows (history : list Reading) : list (list string) :=
  map row history.

(** The text handed to [new Blob([csv], ...)], or [None] when
    [exportData] returns early. *)
Definition exportData (history : list Reading) : option string :=
  match history with
  | [] => None
  | _ => Some (join newline (map (join comma) (headers :: rows history)))
  end.
End ExportCsv.

(** *** Alert banner *)

(** The banner is rendered when the status is ['warning'] or
    ['critical']; inside it one line per condition below. *)
Definition showsBanner (sensorData : option Reading) : bool :=
  match sensorData with
  | None => false
  | Some d =>
      match status d with
      | warning | critical => true
      | optimal => false
      end
  end.

Definition temperatureLine (d : Reading) : bool :=
  num_lt (temperature d) 10 || num_gt (temperature d) 35.
Definition moistureLowLine (d : Reading) : bool :=
  num_lt (soil_moisture d) 30.
Definition moistureHighLine (d : Reading) : bool :=
  num_gt (soil_moisture d) 80.

End Dashboard.

(** ** SensorPanel *)

Module SensorPanel.

(** The colour class of one displayed value; [type] is the metric name
    the caller passes. *)
Definition getStatusColor (value : Q) (type : string) : string :=
  if String.eqb type "temperature" then
    if num_lt value 10 || num_gt value 35 then "text-red-600"
    else if num_lt value 15 || num_gt value 30 then "text-yellow-600"
    else "text-green-600"
  else if String.eqb type "humidity" then
    if num_lt value 20 || num_gt value 90 then "text-yellow-600"
    else "text-green-600"
  else if String.eqb type "soil_moisture" then
    if num_lt value 30 || num_gt value 80 then "text-yellow-600"
    else "text-green-600"
  else if String.eqb type "sunlight" then
    if num_lt value 10000 then "text-yellow-600"
    else "text-green-600"
  else "text-gray-600".

End SensorPanel.

(** ** Status classification *)

Module Classifier.

(** Modelled from the spec: the sensor service that computes the
    [status] field of a response is not part of the front end; the
    front end only reads the field. The thresholds are those of the
    specification's [classify]: independent per metric, combined by
    worst case. *)
Definition classify_temperature (t : Q) : Status :=
  if num_lt t 5 || num_gt t 40 then critical
  else if num_lt t 10 || num_gt t 35 then warning
  else optimal.

(** Modelled from the spec: soil moisture is a warning below 30 or
    above 80, and never critical. *)
Definition classify_soil_moisture (m : Q) : Status :=
  if num_lt m 30 || num_gt m 80 then warning else optimal.

(** Modelled from the spec: worst-case precedence,
    critical > warning > optimal. *)
Definition worst (a b : Status) : Status :=
  match a, b with
  | critical, _ | _, critical => critical
  | warning, _ | _, warning => warning
  | optimal, optimal => optimal
  end.

(** Modelled from the spec: [classify(reading)]; humidity and sunlight
    do not affect the status. *)
Definition classify (d : Reading) : Status :=
  worst (classify_temperature (temperature d))
        (classify_soil_moisture (soil_moisture d)).

End Classifier.

(** ** SensorChart *)

Module SensorChart.

Record DataPoint : Type := {
  value : Q;
  timestamp : Z
}.

Record OptimalRange : Type := {
  min : Q;
  max : Q;
  optimal : Q
}.

(** [a || b] on numbers: [0] is the only falsy rational. *)
Definition or_else (a b : Q) : Q := if Qeq_bool a 0 then b else a.

(** What the rendered SVG is computed from. *)
Record Chart : Type := {
  maxValue : Q;
  minValue : Q;
  range : Q;
  points : list (Q * Q);
  optimalY : Q
}.

(** [data.length - 1 || 1] *)
Definition xDivisor (data : list DataPoint) : Q :=
  or_else (inject_Z (Z.of_nat (length data)) - 1)%Q 1.

Definition chart_range (maxValue minValue : Q) : Q :=
  or_else (maxValue - minValue)%Q 1.

(** The callback of [data.map((point, index) => ...)]. *)
Definition point_xy (data : list DataPoint) (minValue range : Q)
    (index : nat) (point : DataPoint) : Q * Q :=
  ((inject_Z (Z.of_nat index) / xDivisor data * 100)%Q,
   (100 - (value point - minValue) / range * 80)%Q).

(** [None] is the [return null] for missing or empty data. *)
Definition SensorChart (data : list DataPoint) (optimalRange : OptimalRange)
  : option Chart :=
  match data with
  | [] => None
  | d0 :: ds =>
      let maxValue :=
        Math_max (value d0) (map value ds ++ [max optimalRange]) in
      let minValue :=
        Math_min (value d0) (map value ds ++ [min optimalRange]) in
      let range := chart_range maxValue minValue in
      Some {| maxValue := maxValue;
              minValue := minValue;
              range := range;
              points := imap (point_xy data minValue range) data;
              optimalY :=
                (100 - (optimal optimalRange - minValue) / range * 80)%Q |}
  end.

End SensorChart.

(** ** PlantHealth *)

Module PlantHealth.

Section PlantHealth.
(** The JSON body of a plant-health response and an uploaded file. *)
Variable Analysis : Type.
Variable File : Type.

Record HistoryRecord : Type := {
  id : Z;
  image : option string;
  analysis_of : Analysis;
  timestamp : string
}.

Record State : Type := {
  selectedFile : option File;
  preview : option string;
  analysis : option Analysis;
  loading : bool;
  error : option string;
  history : list HistoryRecord
}.

Record World : Type := {
  state : State;
  localStorage : gmap string string
}.

Record Response : Type := {
  ok : bool;
  json : Exc Analysis
}.

Variable JSON_stringify : list HistoryRecord -> string.
(** The browser's storage quota: whether the store may hold a content,
    and the message of the exception [setItem] throws when it may
    not. *)
Variable fits : gmap string string -> bool.
Variable quota_message : string.

(** [localStorage.setItem(key, value)] *)
Definition setItem (key value : string) (storage : gmap string string)
  : Exc (gmap string string) :=
  let storage' := <[key := value]> storage in
  if fits storage' then Ok storage' else Throw quota_message.

Definition setAnalysis (v : option Analysis) (st : State) : State :=
  {| selectedFile := selectedFile st; preview := preview st;
     analysis := v; loading := loading st; error := error st;
     history := history st |}.
Definition setLoading (v : bool) (st : State) : State :=
  {| selectedFile := selectedFile st; preview := preview st;
     analysis := analysis st; loading := v; error := error st;
     history := history st |}.
Definition setError (v : option string) (st : State) : State :=
  {| selectedFile := selectedFile st; preview := preview st;
     analysis := analysis st; loading := loading st; error := v;
     history := history st |}.
Definition setHistory (v : list HistoryRecord) (st : State) : State :=
  {| selectedFile := selectedFile st; preview := preview st;
     analysis := analysis st; loading := loading st; error := error st;
     history := v |}.

(** [[...history, newRecord].slice(-20)] *)
Definition updatedHistory (history : list HistoryRecord)
    (newRecord : HistoryRecord) : list HistoryRecord :=
  slice_last 20 (history ++ [newRecord]).

(** The [try] block after [response.json()] resolved to [data]: the
    world it leaves, and the message of the exception that ended it if
    [setItem] threw; [setAnalysis] and [setHistory] have run by then.
    [now] is [Date.now()] and [iso] is [new Date().toISOString()]. *)
Definition analysisSucceeded (now : Z) (iso : string) (data : Analysis)
    (w : World) : World * option string :=
  let st := setAnalysis (Some data) (state w) in
  let newRecord := {| id := now; image := preview st;
                      analysis_of := data; timestamp := iso |} in
  let updatedHistory := updatedHistory (history st) newRecord in
  let st := setHistory updatedHistory st in
  match setItem "plantHealthHistory" (JSON_stringify updatedHistory)
          (localStorage w) with
  | Ok storage => ({| state := st; localStorage := storage |}, None)
  | Throw message =>
      ({| state := st; localStorage := localStorage w |}, Some message)
  end.

Definition analysisFailed (message : string) (w : World) : World :=
  {| state := setError (Some message) (state w);
     localStorage := localStorage w |}.

(** [handleAnalyze]: nothing without a selected file; otherwise the
    [try]/[catch]/[finally] around the request. *)
Definition handleAnalyze (now : Z) (iso : string)
    (fetched : Exc Response) (w : World) : World :=
  match selectedFile (state w) with
  | None => w
  | Some _ =>
      let w0 := {| state := setError None (setLoading true (state w));
                   localStorage := localStorage w |} in
      let w1 :=
        match (response ← fetched;
               if negb (ok response) then Throw "Failed to analyze image"
               else json response) with
        | Throw message => analysisFailed message w0
        | Ok data =>
            let '(w', thrown) := analysisSucceeded now iso data w0 in
            match thrown with
            | None => w'
            | Some message => analysisFailed message w'
            end
        end in
      {| state := setLoading false (state w1);
         localStorage := localStorage w1 |}
  end.
End PlantHealth.

End PlantHealth.

(** ** Reading a CSV text back *)

Module CsvReader.

(** [s.split(sep)] with a one-character separator. *)
Fixpoint split_on (sep : ascii) (s : string) : list string :=
  match s with
  | EmptyString => [EmptyString]
  | String c s' =>
      if Ascii.eqb c sep then EmptyString :: split_on sep s'
      else
        match split_on sep s' with
        | [] => [String c EmptyString]
        | cell :: cells => String c cell :: cells
        end
  end.

(** The four numeric columns of one reading, in header order. *)
Definition Numbers : Type := Q * Q * Q * Q.

Definition numbers_of (h : Reading) : Numbers :=
  (temperature h, humidity h, soil_moisture h, sunlight_intensity h).

Definition Numbers_eq (a b : Numbers) : Prop :=
  let '(t1, h1, m1, s1) := a in
  let '(t2, h2, m2, s2) := b in
  (t1 == t2 /\ h1 == h2 /\ m1 == m2 /\ s1 == s2)%Q.

Section Reader.
(** The reader of one numeric cell. *)
Variable parseFloat : string -> option Q.

(** Modelled from the spec: the front end has no CSV reader, and the
    specification's round trip speaks of "parsing the produced CSV".
    With no quoting in the format, the reader cuts the text at line
    breaks and every line at commas, and reads the columns by their
    position under the header (Temperature, Humidity, Soil Moisture,
    Sunlight at positions 1 to 4). *)
Definition parseRow (cells : list string) : option Numbers :=
  t ← cells !! 1%nat ≫= parseFloat;
  h ← cells !! 2%nat ≫= parseFloat;
  m ← cells !! 3%nat ≫= parseFloat;
  s ← cells !! 4%nat ≫= parseFloat;
  Some (t, h, m, s).

(** Modelled from the spec: the reader of a whole export; the first
    line is the header, every further line is one reading. *)
Definition parseCsv (csv : string) : option (list Numbers) :=
  match split_on Dashboard.newline csv with
  | [] => None
  | _header :: lines =>
      mapM (fun line => parseRow (split_on Dashboard.comma line)) lines
  end.
End Reader.

End CsvReader.

(** ** The JavaScript runtime: dates and number texts

    Concrete locale formats and number texts, used to run the export on
    concrete buffers. Dates are formatted in UTC. *)

Module Runtime.

Record Civil : Type := {
  year : Z; month : Z; day : Z;
  hours : Z; minutes : Z; seconds : Z
}.

(** Calendar fields of an epoch value in milliseconds (proleptic
    Gregorian calendar, days counted from 1970-01-01). *)
Definition civil_of_epoch (ms : Z) : Civil :=
  let secs := ms / 1000 in
  let days := secs / 86400 in
  let sod := secs mod 86400 in
  let z := days + 719468 in
  let era := z / 146097 in
  let doe := z - era * 146097 in
  let yoe := (doe - doe / 1460 + doe / 36524 - doe / 146096) / 365 in
  let doy := doe - (365 * yoe + yoe / 4 - yoe / 100) in
  let mp := (5 * doy + 2) / 153 in
  let d := doy - (153 * mp + 2) / 5 + 1 in
  let m := if (mp <? 10)%Z then mp + 3 else mp - 9 in
  let y := yoe + era * 400 + (if (m <=? 2)%Z then 1 else 0) in
  {| year := y; month := m; day := d;
     hours := sod / 3600; minutes := (sod mod 3600) / 60;
     seconds := sod mod 60 |}.

Definition two_digits (n : Z) : string :=
  if (n <? 10)%Z then "0" +:+ decimal_digits n else decimal_digits n.

(** The [en-US] format: ["M/D/YYYY, h:mm:ss AM"]. *)
Definition toLocaleString_en_US (ms : Z) : string :=
  let c := civil_of_epoch ms in
  let h12 := if (hours c mod 12 =? 0)%Z then 12 else hours c mod 12 in
  decimal_digits (month c) +:+ "/" +:+ decimal_digits (day c) +:+ "/"
  +:+ decimal_digits (year c) +:+ ", "
  +:+ decimal_digits h12 +:+ ":" +:+ two_digits (minutes c) +:+ ":"
  +:+ two_digits (seconds c) +:+ (if (hours c <? 12)%Z then " AM" else " PM").

(** The [sv-SE] format: ["YYYY-MM-DD HH:mm:ss"]. *)
Definition toLocaleString_sv_SE (ms : Z) : string :=
  let c := civil_of_epoch ms in
  decimal_digits (year c) +:+ "-" +:+ two_digits (month c) +:+ "-"
  +:+ two_digits (day c) +:+ " "
  +:+ two_digits (hours c) +:+ ":" +:+ two_digits (minutes c) +:+ ":"
  +:+ two_digits (seconds c).

(** *** The text of a number

    [Number::toString] of ECMA-262: for a positive [x] take integers
    [n], [k] and [s] with [k >= 1], [10^(k-1) <= s < 10^k], so that
    [s * 10^(n-k)] denotes [x] (it rounds to [x]), [k] as small as
    possible and then [s * 10^(n-k)] as close to [x] as possible. The
    digits of [s] are written plainly when [-6 < n <= 21], and as
    [d.ddde+x] otherwise. *)

Definition digit (d : Z) : ascii := ascii_of_nat (48 + Z.to_nat d).

(** The last [w] decimal digits of [n], zeros included. *)
Fixpoint fixed_width (w : nat) (n : Z) : string :=
  match w with
  | O => EmptyString
  | S w' => fixed_width w' (n / 10) +:+ String (digit (n mod 10)) EmptyString
  end.

Fixpoint count_digits_from (fuel w : nat) (n : Z) : nat :=
  match fuel with
  | O => w
  | S fuel' =>
      if (n <? 10 ^ Z.of_nat w)%Z then w
      else count_digits_from fuel' (S w) n
  end.

(** The number of decimal digits of [n]; one for [0]. *)
Definition count_digits (n : Z) : nat :=
  count_digits_from (Z.to_nat (Z.log2 n) + 1) 1 n.

(** The decimal digits of a natural number. *)
Definition print_nat (n : Z) : string := fixed_width (count_digits n) n.

(** The value of the decimal [s * 10^e]. *)
Definition decimal (s e : Z) : Q := (inject_Z s * 10 ^ e)%Q.

Fixpoint adjust_down (fuel : nat) (k : Z) (a : Q) : Z :=
  match fuel with
  | O => k
  | S fuel' => if Qle_bool (10 ^ k) a then k else adjust_down fuel' (k - 1) a
  end.

Fixpoint adjust_up (fuel : nat) (k : Z) (a : Q) : Z :=
  match fuel with
  | O => k
  | S fuel' =>
      if Qle_bool (10 ^ (k + 1)) a then adjust_up fuel' (k + 1) a else k
  end.

(** The decimal exponent of a positive [a]: the [e] with
    [10^e <= a < 10^(e+1)], found from the binary exponent. *)
Definition ilog10 (a : Q) : Z :=
  let k0 := ilog2 a * 30103 / 100000 in
  adjust_up 3 (adjust_down 3 k0 a) a.

(** The [k]-digit decimal next to [a] that denotes [a], if one does:
    one of the two that enclose [a], the closer one if both do. *)
Definition candidate (a : Q) (n : Z) (k : nat) : option (Z * Z) :=
  let e := n - Z.of_nat k in
  let lo := Qfloor (a / 10 ^ e) in
  let hi := lo + 1 in
  let ok s := Qeq_bool (RN (decimal s e)) a in
  match ok lo, ok hi with
  | true, true =>
      match (a - decimal lo e ?= decimal hi e - a)%Q with
      | Lt => Some (lo, e)
      | Gt => Some (hi, e)
      | Eq => Some (if Z.even lo then lo else hi, e)
      end
  | true, false => Some (lo, e)
  | false, true => Some (hi, e)
  | false, false => None
  end.

Fixpoint first_candidate (a : Q) (n : Z) (fuel : nat) (k : nat)
  : option (Z * Z) :=
  match fuel with
  | O => None
  | S fuel' =>
      match candidate a n k with
      | Some se => Some se
      | None => first_candidate a n fuel' (S k)
      end
  end.

(** Trailing zeros of [s] moved into the exponent. *)
Fixpoint strip (fuel : nat) (s e : Z) : Z * Z :=
  match fuel with
  | O => (s, e)
  | S fuel' =>
      if (s mod 10 =? 0)%Z then strip fuel' (s / 10) (e + 1) else (s, e)
  end.

(** The digits [s] and the exponent [e = n - k] of a positive double.
    Seventeen digits are enough for every double; should the search
    find none, the exact expansion, which has at most 1074 fraction
    digits, is written. *)
Definition shortest (a : Q) : Z * Z :=
  match first_candidate a (ilog10 a + 1) 17 1 with
  | Some (s, e) => strip 17 s e
  | None => strip 1100 (Qfloor (a * 10 ^ 1074)) (-1074)
  end.

(** The digits with the decimal point in its place, and no point for
    an integer. *)
Definition plain_format (s e : Z) : string :=
  if (0 <=? e)%Z then print_nat (s * 10 ^ e)
  else
    let w := Z.to_nat (- e) in
    print_nat (s / 10 ^ Z.of_nat w) +:+ "."
    +:+ fixed_width w (s mod 10 ^ Z.of_nat w).

(** The digits with the point after the first one, then the
    exponent [n - 1] with its sign. *)
Definition exponent_format (s : Z) (k : nat) (n : Z) : string :=
  plain_format s (- Z.of_nat (k - 1))
  +:+ "e" +:+ (if (0 <=? n - 1)%Z then "+" else "-")
  +:+ print_nat (Z.abs (n - 1)).

Definition number_body (s e : Z) : string :=
  let k := count_digits s in
  let n := Z.of_nat k + e in
  if ((-6 <? n)%Z && (n <=? 21)%Z)%bool then plain_format s e
  else exponent_format s k n.

(** The text of a number: ["22.5"], ["-0.25"], ["48000"], ["1e+21"]. *)
Definition Number_toString (x : Q) : string :=
  if Qeq_bool x 0 then "0"
  else
    (if num_lt x 0 then "-" else EmptyString)
    +:+ number_body (fst (shortest (Qabs x))) (snd (shortest (Qabs x))).

Definition three_digits (n : Z) : string :=
  if (n <? 10)%Z then "00" +:+ decimal_digits n
  else if (n <? 100)%Z then "0" +:+ decimal_digits n
  else decimal_digits n.

(** [Date.prototype.toISOString]: ["YYYY-MM-DDTHH:mm:ss.sssZ"]. *)
Definition toISOString (ms : Z) : string :=
  let c := civil_of_epoch ms in
  decimal_digits (year c) +:+ "-" +:+ two_digits (month c) +:+ "-"
  +:+ two_digits (day c) +:+ "T"
  +:+ two_digits (hours c) +:+ ":" +:+ two_digits (minutes c) +:+ ":"
  +:+ two_digits (seconds c) +:+ "." +:+ three_digits (ms mod 1000)
  +:+ "Z".

Definition quote : string := String (ascii_of_nat 34) EmptyString.
Definition quoted (s : string) : string := quote +:+ s +:+ quote.
Definition member (key value : string) : string :=
  quoted key +:+ ":" +:+ value.

(** [JSON.stringify] of one buffered reading and of the buffer. *)
Definition JSON_stringify_reading (h : Reading) : string :=
  "{" +:+ Dashboard.join ","
    [member "temperature" (Number_toString (temperature h));
     member "humidity" (Number_toString (humidity h));
     member "soil_moisture" (Number_toString (soil_moisture h));
     member "sunlight_intensity"
       (Number_toString (sunlight_intensity h));
     member "status" (quoted (Status_to_string (status h)));
     member "timestamp" (quoted (toISOString (timestamp h)))]
  +:+ "}".

Definition JSON_stringify (history : list Reading) : string :=
  "[" +:+ Dashboard.join "," (map JSON_stringify_reading history) +:+ "]".

(** A [JSON.parse] cut down to the empty array: it reads ["[]"] and
    raises a [SyntaxError] on every other text. It stands for the
    parser where only a text that does not parse is at stake. *)
Definition JSON_parse (text : string) : Exc (list Reading) :=
  if String.eqb text "[]" then Ok []
  else Throw "Unexpected token in JSON".

Definition digit_value (c : ascii) : option Z :=
  let n := Z.of_nat (nat_of_ascii c) in
  if (48 <=? n)%Z && (n <=? 57)%Z then Some (n - 48) else None.

Fixpoint digits_value (acc : Z) (s : string) : option Z :=
  match s with
  | EmptyString => Some acc
  | String c s' =>
      d ← digit_value c; digits_value (10 * acc + d) s'
  end.

Definition parse_unsigned (s : string) : option Q :=
  match CsvReader.split_on "." s with
  | [i] =>
      if String.eqb i EmptyString then None
      else n ← digits_value 0 i; Some (inject_Z n)
  | [i; f] =>
      if String.eqb i EmptyString || String.eqb f EmptyString then None
      else
        n ← digits_value 0 i;
        m ← digits_value 0 f;
        let scale := 10 ^ Z.of_nat (String.length f) in
        Some (Qmake (n * scale + m) (Z.to_pos scale))
  | _ => None
  end.

Definition parse_exponent (s : string) : option Z :=
  match s with
  | String "+" d =>
      if String.eqb d EmptyString then None else digits_value 0 d
  | String "-" d =>
      if String.eqb d EmptyString then None else Z.opp <$> digits_value 0 d
  | _ => None
  end.

(** The decimal a text denotes: digits, an optional fraction and an
    optional exponent. *)
Definition parse_decimal (s : string) : option Q :=
  match CsvReader.split_on "e" s with
  | [m] => parse_unsigned m
  | [m; x] =>
      v ← parse_unsigned m; k ← parse_exponent x; Some (v * 10 ^ k)%Q
  | _ => None
  end.

(** A strict reader of decimal texts: an optional sign, digits, an
    optional fraction and an optional exponent; anything else is
    rejected. The number read is the double nearest to the decimal. *)
Definition parseFloat (s : string) : option Q :=
  match s with
  | String "-" s' => (fun v => - RN v)%Q <$> parse_decimal s'
  | _ => RN <$> parse_decimal s
  end.

End Runtime.

(** ** The arithmetic of [calculateAnalytics] on primitive floats *)

Module Binary64.

(** The rational a finite primitive float denotes; [None] for [NaN]
    and the infinities. *)
Definition exact (x : PrimFloat.float) : option Q :=
  match FloatOps.Prim2SF x with
  | SpecFloat.S754_zero _ => Some 0%Q
  | SpecFloat.S754_finite s m e =>
      let v := if (0 <=? e)%Z
               then (inject_Z (Zpos m) * inject_Z (2 ^ e))%Q
               else (inject_Z (Zpos m) / inject_Z (2 ^ (- e)))%Q in
      Some (if s then (- v)%Q else v)
  | _ => None
  end.

Definition of_nat (n : nat) : PrimFloat.float :=
  PrimFloat.of_uint63 (Uint63.of_Z (Z.of_nat n)).

(** [xs.reduce((a, b) => a + b, 0)] *)
Definition sum (xs : list PrimFloat.float) : PrimFloat.float :=
  fold_left PrimFloat.add xs PrimFloat.zero.

(** [xs.reduce((a, b) => a + b, 0) / xs.length] *)
Definition mean (xs : list PrimFloat.float) : PrimFloat.float :=
  PrimFloat.div (sum xs) (of_nat (length xs)).

(** [Math.min] and [Math.max] on numbers none of which is [NaN]. *)
Definition Math_min (a : PrimFloat.float) (rest : list PrimFloat.float)
  : PrimFloat.float :=
  fold_left (fun x y => if PrimFloat.ltb y x then y else x) rest a.
Definition Math_max (a : PrimFloat.float) (rest : list PrimFloat.float)
  : PrimFloat.float :=
  fold_left (fun x y => if PrimFloat.ltb x y then y else x) rest a.

(** [x.toFixed(f)] of a finite double: the rounding of [toFixed] is
    defined on the exact value of [x]. *)
Definition toFixed (f : nat) (x : PrimFloat.float) : option Fixed :=
  toFixed f <$> exact x.

(** [avg], [min] and [max] of one object literal of
    [calculateAnalytics] for the non-empty column [x0 :: rest]. *)
Record MetricStats : Type := {
  avg : option Fixed;
  min : option Fixed;
  max : option Fixed
}.

Definition metric_stats (f : nat) (x0 : PrimFloat.float)
    (rest : list PrimFloat.float) : MetricStats :=
  {| avg := toFixed f (mean (x0 :: rest));
     min := toFixed f (Math_min x0 rest);
     max := toFixed f (Math_max x0 rest) |}.

Import PrimFloat.

(** Six readings of 11.05 degrees; the literal is the double nearest
    to 11.05. *)
Definition d11_05 : float := 0x1.619999999999ap+3%float.
Definition six_of_11_05 : MetricStats :=
  metric_stats 1 d11_05 (repeat d11_05 5).

(** Readings of 20, 22 and 25 degrees. *)
Definition of_20_22_25 : MetricStats :=
  metric_stats 1 20%float [22; 25]%float.

(** Whether a primitive operation and its model agree on two operands;
    a result that is not finite is outside the model. *)
Definition agrees (op : float -> float -> float) (num_op : Q -> Q -> Q)
    (a b : float) : bool :=
  match exact a, exact b, exact (op a b) with
  | Some x, Some y, Some z => Qeq_bool (num_op x y) z
  | _, _, _ => true
  end.

(** Operands across the range of the doubles: integers, fractions,
    values near the overflow threshold and subnormal ones. *)
Definition samples : list float :=
  [0x1.619999999999ap+3; 1; 3; 0x1.999999999999ap-4; 0x1.999999999999ap-3;
   0x1.3333333333333p-2; 0x0.00000000007e8p-1022; 0x0.0000000000001p-1022;
   0x1.e42d130773b76p+1023; 0x1.0f0cf064dd592p+73; 0x1.d6f34547df3b6p+26;
   -0x1.6666666666666p-1; -0x0.0126c8b5a2c2bp-1022; 0x1.1f9f1c9a0c0b4p-1022;
   0x1p+53; 0x1.1666666666666p+2; 100; 0x1.4f8b588e368f1p-17; 0x1p-1022;
   0x1.fffffffffffffp+52; 48000; 22.5]%float.

End Binary64.

(** ** Scenarios and statements *)

(** A fetch that resolves to [data]. *)
Definition resolved (data : Reading) : Exc Dashboard.Response :=
  Ok {| Dashboard.ok := true; Dashboard.json := Ok data |}.

(** A reading taken at tick [i] of the 5 second poll. *)
Definition reading_at (i : nat) : Reading :=
  {| timestamp := 5000 * Z.of_nat i;
     temperature := 22; humidity := 60; soil_moisture := 50;
     sunlight_intensity := 48000; status := optimal |}.

(** The endpoints of the non-empty column [d0 :: ds] of a metric:
    [xs[0]] and [xs[xs.length - 1]]. *)
Definition oldest_value (m : Metric) (d0 : Reading) (ds : list Reading) : Q :=
  metric_value m d0.
Definition newest_value (m : Metric) (d0 : Reading) (ds : list Reading) : Q :=
  metric_value m (List.last ds d0).

(** The trend law in the specification's words: rising iff the newest
    value is greater than the oldest, falling iff it is less, flat iff
    the two are equal or the buffer has at most one reading. *)
Definition endpoint_trend_law (oldest newest : Q) (len : nat)
    (t : Dashboard.Trend) : Prop :=
  (t = Dashboard.rising <-> (oldest < newest)%Q)
  /\ (t = Dashboard.falling <-> (newest < oldest)%Q)
  /\ (t = Dashboard.flat <-> ((newest == oldest)%Q \/ (len <= 1)%nat)).

(** A reading with the given temperature. *)
Definition reading_with_temperature (t : Q) : Reading :=
  {| timestamp := 0; temperature := t; humidity := 60;
     soil_moisture := 50; sunlight_intensity := 48000;
     status := optimal |}.

(** A reading with the given temperature and soil moisture. *)
Definition reading_with (t m : Q) : Reading :=
  {| timestamp := 0; temperature := t; humidity := 60;
     soil_moisture := m; sunlight_intensity := 48000;
     status := optimal |}.

(** *** The mean on doubles and the exact mean *)

(** The sum and the mean of a column without rounding. *)
Definition exact_sum (xs : list Q) : Q := fold_left Qplus xs 0%Q.
Definition exact_mean (xs : list Q) : Q :=
  (exact_sum xs / inject_Z (Z.of_nat (length xs)))%Q.

(** The unit roundoff of a double, [2^-53], and half the least positive
    double, [2^-1075]: rounding a rational [x] to the nearest double
    moves it by at most [unit_roundoff * |x| + underflow_unit]. *)
Definition unit_roundoff : Q := (2 ^ (-53))%Q.
Definition underflow_unit : Q := (2 ^ (-1075))%Q.

(** [(1 + unit_roundoff)^n] *)
Fixpoint growth (n : nat) : Q :=
  match n with
  | O => 1%Q
  | S n' => ((1 + unit_roundoff) * growth n')%Q
  end.

(** How far the mean of [n] doubles of magnitude at most [M], summed
    from the left and divided with rounding, can lie from their exact
    mean. *)
Definition rounding_slack (n : nat) (M : Q) : Q :=
  (growth (S n)
   * (unit_roundoff * (inject_Z (Z.of_nat n) * M) + underflow_unit)
   + unit_roundoff * M + underflow_unit)%Q.

(** The double nearest to 11.05, which is what the literal [11.05]
    denotes, and six buffered readings of it. *)
Definition eleven_05 : Q := RN (1105 # 100).
Definition six_readings_of_11_05 : list Reading :=
  repeat (reading_with_temperature eleven_05) 6.

(** A character that is no decimal digit. *)
Definition no_digit (c : ascii) : Prop :=
  forall d, 0 <= d < 10 -> Ascii.eqb (Runtime.digit d) c = false.

(** [s.includes(c)] for a character [c]. *)
Fixpoint contains (c : ascii) (s : string) : bool :=
  match s with
  | EmptyString => false
  | String a s' => Ascii.eqb a c || contains c s'
  end.

(** A cell that needs no quoting: no comma and no line break in it. *)
Definition plain (cell : string) : bool :=
  negb (contains Dashboard.comma cell)
  && negb (contains Dashboard.newline cell).


(** Two buffered readings, five seconds apart. *)
Definition two_readings : list Reading :=
  [ {| timestamp := 1700000000000; temperature := 225 # 10;
       humidity := 61; soil_moisture := 455 # 10;
       sunlight_intensity := 48000; status := optimal |};
    {| timestamp := 1700000005000; temperature := 2275 # 100;
       humidity := 605 # 10; soil_moisture := 28;
       sunlight_intensity := 51200; status := warning |} ].



(** A number whose text needs no quoting and reads back to it. *)
Definition reads_back (Number_toString : Q -> string)
    (parseFloat : string -> option Q) (x : Q) : Prop :=
  plain (Number_toString x) = true
  /\ exists y, parseFloat (Number_toString x) = Some y /\ (y == x)%Q.

(** A reading as the sensor service sends it: its four numbers are
    doubles. *)
Definition numbers_are_doubles (h : Reading) : Prop :=
  is_double (temperature h) /\ is_double (humidity h)
  /\ is_double (soil_moisture h) /\ is_double (sunlight_intensity h).

(** A reading whose date text needs no quoting. *)
Definition date_is_plain (toLocaleString : Z -> string) (h : Reading)
  : Prop :=
  plain (toLocaleString (timestamp h)) = true.

(** The round trip in the specification's words: parsing the exported
    CSV recovers the numeric values of every buffered reading. *)
Definition round_trip (toLocaleString : Z -> string)
    (Number_toString : Q -> string) (parseFloat : string -> option Q)
    (history : list Reading) : Prop :=
  forall csv,
    Dashboard.exportData toLocaleString Number_toString history = Some csv ->
    exists parsed,
      CsvReader.parseCsv parseFloat csv = Some parsed
      /\ Forall2 CsvReader.Numbers_eq parsed
           (map CsvReader.numbers_of history).

(** The message a fetch fails with, if it fails: a rejected [fetch], a
    response that is not [ok], or a rejected [response.json()]. *)
Definition failure_of (fetched : Exc Dashboard.Response) : option string :=
  match fetched with
  | Throw message => Some message
  | Ok response =>
      if negb (Dashboard.ok response)
      then Some "Failed to fetch sensor data"
      else match Dashboard.json response with
           | Throw message => Some message
           | Ok _ => None
           end
  end.

(** A dashboard that has shown and buffered two readings. *)
Definition after_two_readings : Dashboard.World :=
  Dashboard.poll Runtime.JSON_stringify (map resolved two_readings)
    {| Dashboard.state := Dashboard.initial;
       Dashboard.localStorage := ∅ |}.

(** A plant-health history record, the analysis kept as the text of the
    response body. *)
Definition plant_record (i : nat) : PlantHealth.HistoryRecord string :=
  {| PlantHealth.id := 1700000000000 + Z.of_nat i;
     PlantHealth.image := None;
     PlantHealth.analysis_of := "{}";
     PlantHealth.timestamp :=
       Runtime.toISOString (1700000000000 + Z.of_nat i) |}.

(** [JSON.stringify] of such a history. *)
Definition stringify_plant_history
    (records : list (PlantHealth.HistoryRecord string)) : string :=
  "[" +:+ Dashboard.join ","
    (map (fun r =>
            "{" +:+ Dashboard.join ","
              [Runtime.member "id" (decimal_digits (PlantHealth.id _ r));
               Runtime.member "image"
                 (match PlantHealth.image _ r with
                  | Some url => Runtime.quoted url
                  | None => "null"
                  end);
               Runtime.member "analysis" (PlantHealth.analysis_of _ r);
               Runtime.member "timestamp"
                 (Runtime.quoted (PlantHealth.timestamp _ r))]
            +:+ "}") records)
  +:+ "]".

(** A storage quota counted in characters: the keys and the values of
    the store together may take up to [limit] characters. *)
Definition store_size (storage : gmap string string) : Z :=
  map_fold (fun key value size =>
              Z.of_nat (String.length key) + Z.of_nat (String.length value)
              + size) 0 storage.
Definition within (limit : Z) (storage : gmap string string) : bool :=
  (store_size storage <=? limit)%Z.

(** The message of the browser's [QuotaExceededError]. *)
Definition quota_exceeded : string :=
  "Failed to execute 'setItem' on 'Storage': Setting the value of 'plantHealthHistory' exceeded the quota.".

(** A plant-health view with a selected file and a full history. *)
Definition full_plant_history : PlantHealth.World string string :=
  {| PlantHealth.state :=
       {| PlantHealth.selectedFile := Some "leaf.jpg";
          PlantHealth.preview := None;
          PlantHealth.analysis := None;
          PlantHealth.loading := false;
          PlantHealth.error := None;
          PlantHealth.history := map plant_record (seq 0 20) |};
     PlantHealth.localStorage := ∅ |}.

(** The frame of a failed fetch in the specification's words: only the
    error indicator changes. *)
Definition only_error_changes (w w' : Dashboard.World) : Prop :=
  Dashboard.state w'
  = Dashboard.setError (Dashboard.error (Dashboard.state w'))
      (Dashboard.state w)
  /\ Dashboard.localStorage w' = Dashboard.localStorage w.

(** The dashboard as mounted, before the first fetch completes. *)
Definition mounted : Dashboard.World :=
  {| Dashboard.state := Dashboard.initial;
     Dashboard.localStorage := ∅ |}.

(** ** Dashboard: a session and what it renders *)

Module DashboardSession.

(** The component right after mount: the [useState] initial values and
    the page's store. *)
Definition mount (storage : gmap string string) : Dashboard.World :=
  {| Dashboard.state := Dashboard.initial;
     Dashboard.localStorage := storage |}.

(** One visit of the dashboard: the history-load effect, then the
    polling effect with the given fetches. *)
Definition session (JSON_stringify : list Reading -> string)
    (JSON_parse : string -> Exc (list Reading))
    (storage : gmap string string)
    (fetches : list (Exc Dashboard.Response)) : Dashboard.World :=
  Dashboard.poll JSON_stringify fetches
    (Dashboard.loadHistory JSON_parse (mount storage)).

(** [{analytics && history.length > 0 && (...)}]: the analytics section
    with its Export CSV button. *)
Definition analyticsShown (st : Dashboard.State) : bool :=
  match Dashboard.analytics st with
  | Some _ => (0 <? length (Dashboard.history st))%nat
  | None => false
  end.

(** [{history.length > 1 && (...)}] inside the analytics section: the
    four charts. *)
Definition chartsShown (st : Dashboard.State) : bool :=
  analyticsShown st && (1 <? length (Dashboard.history st))%nat.

(** The [data] prop of the chart of a metric:
    [history.map(h => ({ value: h.<metric>, timestamp: h.timestamp }))],
    the sunlight divided by 1000. *)
Definition chartData (m : Metric) (history : list Reading)
  : list SensorChart.DataPoint :=
  map (fun h =>
         {| SensorChart.value :=
              match m with
              | SunlightIntensity => (sunlight_intensity h / 1000)%Q
              | _ => metric_value m h
              end;
            SensorChart.timestamp := timestamp h |}) history.

(** The store holds the text of the buffer. *)
Definition mirrored (JSON_stringify : list Reading -> string)
    (w : Dashboard.World) : Prop :=
  Dashboard.localStorage w !! "sensorHistory"
  = Some (JSON_stringify (Dashboard.history (Dashboard.state w))).

(** The snapshot is the one computed from the buffer. *)
Definition consistent (w : Dashboard.World) : Prop :=
  Dashboard.analytics (Dashboard.state w)
  = Dashboard.computeAnalytics (Dashboard.history (Dashboard.state w)).

End DashboardSession.

(** ** SensorPanel: what is rendered *)

Module SensorPanelView.

Inductive View : Type :=
| LoadingBox
| ErrorBox (message : string)
| Nothing
| Panel (sensorData : Reading).

(** A string is truthy when it is not empty; [null] is falsy. *)
Definition truthy (s : option string) : bool :=
  match s with
  | Some text => negb (String.eqb text EmptyString)
  | None => false
  end.

(** The early returns of [SensorPanel], in order. *)
Definition SensorPanel (sensorData : option Reading) (loading : bool)
    (error : option string) : View :=
  if loading && negb (bool_decide (is_Some sensorData)) then LoadingBox
  else if truthy error then ErrorBox (default EmptyString error)
  else
    match sensorData with
    | None => Nothing
    | Some d => Panel d
    end.

(** [<SensorPanel sensorData={sensorData} loading={loading}
    error={error} />] in the dashboard. *)
Definition of_state (st : Dashboard.State) : View :=
  SensorPanel (Dashboard.sensorData st) (Dashboard.loading st)
    (Dashboard.error st).

End SensorPanelView.

(** A [JSON.parse] by table: it reads the text of each of the given
    buffers back to that buffer and raises a [SyntaxError] on any other
    text. *)
Definition JSON_parse_among (candidates : list (list Reading))
    (text : string) : Exc (list Reading) :=
  match List.find (fun h => String.eqb (Runtime.JSON_stringify h) text)
          candidates with
  | Some h => Ok h
  | None => Throw "Unexpected token in JSON"
  end.

(** ** SensorChart: the optimal band *)

Module SensorChartBand.

(** The [y] and [height] attributes of the [<rect>] drawn behind the
    line: [100 - ((optimalRange.max - minValue) / range) * 80] and
    [((optimalRange.max - optimalRange.min) / range) * 80]. *)
Definition rectY (chart : SensorChart.Chart)
    (optimalRange : SensorChart.OptimalRange) : Q :=
  (100 - (SensorChart.max optimalRange - SensorChart.minValue chart)
         / SensorChart.range chart * 80)%Q.

Definition rectHeight (chart : SensorChart.Chart)
    (optimalRange : SensorChart.OptimalRange) : Q :=
  ((SensorChart.max optimalRange - SensorChart.min optimalRange)
   / SensorChart.range chart * 80)%Q.

(** A point of the [0 0 100 100] view box that the chart leaves for
    data: the lower 80 units. *)
Definition in_plot (p : Q * Q) : Prop :=
  (0 <= fst p <= 100)%Q /\ (20 <= snd p <= 100)%Q.

(** The range the dashboard passes for the temperature chart. *)
Definition temperatureRange : SensorChart.OptimalRange :=
  {| SensorChart.min := 10; SensorChart.max := 35;
     SensorChart.optimal := 22 |}.

End SensorChartBand.

(** ** PlantHealth: mounting *)

Module PlantHealthMount.

Section Mount.
Context {Analysis File : Type}.
Variable JSON_parse : string -> Exc (list (PlantHealth.HistoryRecord Analysis)).

(** The initializer of the [history] state:
    [saved ? JSON.parse(saved) : []], outside any [try]. *)
Definition initialHistory (storage : gmap string string)
  : Exc (list (PlantHealth.HistoryRecord Analysis)) :=
  match storage !! "plantHealthHistory" with
  | None => Ok []
  | Some saved =>
      if String.eqb saved EmptyString then Ok [] else JSON_parse saved
  end.

(** The [useState] initial values, given the initial history. *)
Definition initial (history : list (PlantHealth.HistoryRecord Analysis))
  : PlantHealth.State Analysis File :=
  {| PlantHealth.selectedFile := None;
     PlantHealth.preview := None;
     PlantHealth.analysis := None;
     PlantHealth.loading := false;
     PlantHealth.error := None;
     PlantHealth.history := history |}.

(** The effect run after the first render: the same read, inside
    [try]/[catch]. *)
Definition loadEffect (w : PlantHealth.World Analysis File)
  : PlantHealth.World Analysis File :=
  match PlantHealth.localStorage _ _ w !! "plantHealthHistory" with
  | None => w
  | Some saved =>
      if String.eqb saved EmptyString then w
      else
        try_catch
          (parsed ← JSON_parse saved;
           mret {| PlantHealth.state :=
                     PlantHealth.setHistory _ _ parsed
                       (PlantHealth.state _ _ w);
                   PlantHealth.localStorage :=
                     PlantHealth.localStorage _ _ w |})
          (fun _ => w)
  end.

(** The first render and then the effect; an exception of the
    initializer escapes the render. *)
Definition mount (storage : gmap string string)
  : Exc (PlantHealth.World Analysis File) :=
  history ← initialHistory storage;
  mret (loadEffect {| PlantHealth.state := initial history;
                      PlantHealth.localStorage := storage |}).

(** [handleFileChange] with the file of the event, if any. *)
Definition handleFileChange (file : option File)
    (st : PlantHealth.State Analysis File)
  : PlantHealth.State Analysis File :=
  match file with
  | None => st
  | Some f =>
      {| PlantHealth.selectedFile := Some f;
         PlantHealth.preview := PlantHealth.preview _ _ st;
         PlantHealth.analysis := None;
         PlantHealth.loading := PlantHealth.loading _ _ st;
         PlantHealth.error := None;
         PlantHealth.history := PlantHealth.history _ _ st |}
  end.

(** The message an analysis request fails with, if it fails. *)
Definition failure_of (fetched : Exc (PlantHealth.Response Analysis))
  : option string :=
  match fetched with
  | Throw message => Some message
  | Ok response =>
      if negb (PlantHealth.ok _ response)
      then Some "Failed to analyze image"
      else match PlantHealth.json _ response with
           | Throw message => Some message
           | Ok _ => None
           end
  end.
End Mount.

End PlantHealthMount.

(** A [JSON.parse] by table for plant-health histories. *)
Definition plant_parse_among
    (candidates : list (list (PlantHealth.HistoryRecord string)))
    (text : string) : Exc (list (PlantHealth.HistoryRecord string)) :=
  match List.find (fun h => String.eqb (stringify_plant_history h) text)
          candidates with
  | Some h => Ok h
  | None => Throw "Unexpected token in JSON"
  end.

(** ** ChatBot *)

Module ChatBot.

Record Message : Type := {
  role : string;
  content : string
}.

(** The first message of a fresh chat. *)
Definition greeting : Message :=
  {| role := "assistant";
     content := "Hello! I'm FarmGPT, your rooftop farming assistant. Ask me anything about urban farming, crop care, or plant health! 🌱" |}.

(** The assistant's message when the request fails. *)
Definition apology : string :=
  "Sorry, I encountered an error. Please try again or check your API connection.".

Record State : Type := {
  messages : list Message;
  inputMessage : string;
  loading : bool
}.

Record World : Type := {
  state : State;
  localStorage : gmap string string
}.

(** A [fetch] response: its [ok] flag and the [response] member of the
    body [json()] resolves to. *)
Record Response : Type := {
  ok : bool;
  json : Exc string
}.

(** [parts.join(sep)] *)
Fixpoint joinWith (sep : string) (parts : list string) : string :=
  match parts with
  | [] => EmptyString
  | [part] => part
  | part :: rest => part +:+ sep +:+ joinWith sep rest
  end.

Definition paragraph_break : string :=
  String (ascii_of_nat 10) (String (ascii_of_nat 10) EmptyString).

(** The callback of [messages.map] in [exportChat]. *)
Definition exportLine (msg : Message) : string :=
  (if String.eqb (role msg) "user" then "You" else "FarmGPT")
  +:+ ": " +:+ content msg.

(** The text [exportChat] hands to [new Blob]. *)
Definition exportChat (messages : list Message) : string :=
  joinWith paragraph_break (map exportLine messages).

Section ChatBot.
Variable JSON_stringify : list Message -> string.
Variable JSON_parse : string -> Exc (list Message).
(** [String.prototype.trim] *)
Variable trim : string -> string.

(** The initializer of the [messages] state. *)
Definition initialMessages (storage : gmap string string) : list Message :=
  match storage !! "chatHistory" with
  | None => [greeting]
  | Some saved =>
      if String.eqb saved EmptyString then [greeting]
      else
        try_catch
          (parsed ← JSON_parse saved;
           mret (if (0 <? length parsed)%nat then parsed else [greeting]))
          (fun _ => [greeting])
  end.

(** The effect on [[messages]]: it runs after the first render and
    after every render that changed the messages. *)
Definition persist (w : World) : World :=
  if (0 <? length (messages (state w)))%nat then
    {| state := state w;
       localStorage :=
         <["chatHistory" := JSON_stringify (messages (state w))]>
           (localStorage w) |}
  else w.

(** [setMessages(update)], the render and the effect that follow. *)
Definition setMessages (update : list Message -> list Message)
    (w : World) : World :=
  persist {| state := {| messages := update (messages (state w));
                         inputMessage := inputMessage (state w);
                         loading := loading (state w) |};
             localStorage := localStorage w |}.

Definition setInputMessage (text : string) (w : World) : World :=
  {| state := {| messages := messages (state w);
                 inputMessage := text;
                 loading := loading (state w) |};
     localStorage := localStorage w |}.

Definition setLoading (v : bool) (w : World) : World :=
  {| state := {| messages := messages (state w);
                 inputMessage := inputMessage (state w);
                 loading := v |};
     localStorage := localStorage w |}.

(** The component after its first render and effect. *)
Definition mount (storage : gmap string string) : World :=
  persist {| state := {| messages := initialMessages storage;
                         inputMessage := EmptyString;
                         loading := false |};
             localStorage := storage |}.

Definition clearChat (w : World) : World :=
  let defaultMessage := [greeting] in
  let w1 := setMessages (fun _ => defaultMessage) w in
  {| state := state w1;
     localStorage :=
       <["chatHistory" := JSON_stringify defaultMessage]>
         (localStorage w1) |}.

(** [!inputMessage.trim() || loading]: the early return of
    [handleSend]. *)
Definition refused (st : State) : bool :=
  String.eqb (trim (inputMessage st)) EmptyString || loading st.

(** [handleSend] up to its [await]: the user's message is shown and
    the request leaves. *)
Definition submit (w : World) : World :=
  if refused (state w) then w
  else
    let userMessage := trim (inputMessage (state w)) in
    setMessages
      (fun prev => prev ++ [{| role := "user"; content := userMessage |}])
      (setLoading true (setInputMessage EmptyString w)).

(** [handleSend] from its [await] on: the [try] continues, or the
    [catch] runs, and then the [finally]. *)
Definition settle (fetched : Exc Response) (w : World) : World :=
  let assistant :=
    try_catch
      (response ← fetched;
       if negb (ok response) then Throw "Failed to get response"
       else
         text ← json response;
         mret {| role := "assistant"; content := text |})
      (fun _ => {| role := "assistant"; content := apology |}) in
  setLoading false (setMessages (fun prev => prev ++ [assistant]) w).

(** One call of [handleSend] that nothing interrupts. *)
Definition handleSend (fetched : Exc Response) (w : World) : World :=
  if refused (state w) then w else settle fetched (submit w).

(** What can happen to a mounted chat. A response can only settle a
    request that left, which is the case exactly while [loading] is
    set. *)
Inductive Event : Type :=
| Typed (text : string)
| Submitted
| Settled (fetched : Exc Response)
| Cleared.

Definition step (w : World) (e : Event) : World :=
  match e with
  | Typed text => setInputMessage text w
  | Submitted => submit w
  | Settled fetched => if loading (state w) then settle fetched w else w
  | Cleared => clearChat w
  end.

Definition run (events : list Event) (w : World) : World :=
  fold_left step events w.
End ChatBot.

(** A chat request that failed: the fetch was rejected, the response
    was not [ok], or reading its body was rejected. *)
Definition failed (fetched : Exc Response) : Prop :=
  (exists message, fetched = Throw message)
  \/ (exists response,
        fetched = Ok response
        /\ (ok response = false
            \/ exists message, json response = Throw message)).

End ChatBot.


(** [String.prototype.trim] on texts whose white space is ASCII: tab,
    line feed, vertical tab, form feed, carriage return and space. *)
Definition is_space (c : ascii) : bool :=
  let n := nat_of_ascii c in
  ((9 <=? n) && (n <=? 13))%nat || (n =? 32)%nat.

Fixpoint trimStart (s : string) : string :=
  match s with
  | EmptyString => EmptyString
  | String c s' => if is_space c then trimStart s' else s
  end.

Fixpoint trimEnd (s : string) : string :=
  match s with
  | EmptyString => EmptyString
  | String c s' =>
      match trimEnd s' with
      | EmptyString => if is_space c then EmptyString else String c EmptyString
      | rest => String c rest
      end
  end.

Definition trim (s : string) : string := trimEnd (trimStart s).

(** [JSON.stringify] of a chat, and a [JSON.parse] by table for it. *)
Definition stringify_chat (messages : list ChatBot.Message) : string :=
  "[" +:+ Dashboard.join ","
    (map (fun m =>
            "{" +:+ Runtime.member "role" (Runtime.quoted (ChatBot.role m))
            +:+ "," +:+ Runtime.member "content"
                          (Runtime.quoted (ChatBot.content m))
            +:+ "}") messages)
  +:+ "]".

Definition chat_parse_among (candidates : list (list ChatBot.Message))
    (text : string) : Exc (list ChatBot.Message) :=
  match List.find (fun h => String.eqb (stringify_chat h) text)
          candidates with
  | Some h => Ok h
  | None => Throw "Unexpected token in JSON"
  end.

(** A chat with a question typed in. *)
Definition chat_with_question : ChatBot.World :=
  ChatBot.setInputMessage "  How often should I water?  "
    (ChatBot.mount stringify_chat (chat_parse_among []) ∅).

(** The answer of the chat service. *)
Definition chat_answer : Exc ChatBot.Response :=
  Ok {| ChatBot.ok := true; ChatBot.json := Ok "Every morning." |}.

(** The chat after the question was answered. *)
Definition chat_after_answer : list ChatBot.Message :=
  [ChatBot.greeting;
   {| ChatBot.role := "user";
      ChatBot.content := "How often should I water?" |};
   {| ChatBot.role := "assistant"; ChatBot.content := "Every morning." |}].

(** ** CropPlanner *)

Module CropPlanner.

(** One suggested crop of a crop-designer response. *)
Record Crop : Type := {
  crop_name : string;
  suitability_score : Q;
  planting_season : string;
  estimated_yield : string;
  care_tips : string
}.

(** The form: the three inputs hold texts. *)
Record FormData : Type := {
  city : string;
  rooftop_area : string;
  sunlight_hours : string
}.

Section CropPlanner.
(** The [planting_plan] and [location_analysis] members of a
    crop-designer response, and the body of a growth prediction. *)
Context {PlantingPlan LocationAnalysis Growth : Type}.
(** The [crop] member of the body of a growth prediction, when the
    body has one. *)
Variable crop_member : Growth -> option string.

(** The members of a crop-designer response that the planner reads. *)
Record Suggestions : Type := {
  suggestions : list Crop;
  planting_plan : PlantingPlan;
  location_analysis : LocationAnalysis
}.

(** A saved plan: [id], [city], [area], [sunlight], [suggestions],
    [plantingPlan], [locationAnalysis], [createdAt]. *)
Record Plan : Type := {
  plan_id : Z;
  plan_city : string;
  plan_area : string;
  plan_sunlight : string;
  plan_suggestions : list Crop;
  plan_plantingPlan : PlantingPlan;
  plan_locationAnalysis : LocationAnalysis;
  plan_createdAt : string
}.

Record State : Type := {
  formData : FormData;
  shown : option Suggestions;          (* the [suggestions] state *)
  loading : bool;
  error : option string;
  growthPrediction : option (string * Growth);  (* [crop] and the rest *)
  savedPlans : list Plan;
  selectedCrops : list Crop;
  showComparison : bool
}.

(** The state, the store and the texts passed to [alert] so far. *)
Record World : Type := {
  state : State;
  localStorage : gmap string string;
  alerts : list string
}.

Record Response (Body : Type) : Type := {
  ok : bool;
  json : Exc Body
}.

Variable JSON_stringify : list Plan -> string.
Variable JSON_parse : string -> Exc (list Plan).

Definition setFormData (v : FormData) (st : State) : State :=
  {| formData := v; shown := shown st; loading := loading st;
     error := error st; growthPrediction := growthPrediction st;
     savedPlans := savedPlans st; selectedCrops := selectedCrops st;
     showComparison := showComparison st |}.
Definition setSuggestions (v : option Suggestions) (st : State) : State :=
  {| formData := formData st; shown := v; loading := loading st;
     error := error st; growthPrediction := growthPrediction st;
     savedPlans := savedPlans st; selectedCrops := selectedCrops st;
     showComparison := showComparison st |}.
Definition setLoading (v : bool) (st : State) : State :=
  {| formData := formData st; shown := shown st; loading := v;
     error := error st; growthPrediction := growthPrediction st;
     savedPlans := savedPlans st; selectedCrops := selectedCrops st;
     showComparison := showComparison st |}.
Definition setError (v : option string) (st : State) : State :=
  {| formData := formData st; shown := shown st; loading := loading st;
     error := v; growthPrediction := growthPrediction st;
     savedPlans := savedPlans st; selectedCrops := selectedCrops st;
     showComparison := showComparison st |}.
Definition setGrowthPrediction (v : option (string * Growth)) (st : State)
  : State :=
  {| formData := formData st; shown := shown st; loading := loading st;
     error := error st; growthPrediction := v;
     savedPlans := savedPlans st; selectedCrops := selectedCrops st;
     showComparison := showComparison st |}.
Definition setSavedPlans (v : list Plan) (st : State) : State :=
  {| formData := formData st; shown := shown st; loading := loading st;
     error := error st; growthPrediction := growthPrediction st;
     savedPlans := v; selectedCrops := selectedCrops st;
     showComparison := showComparison st |}.
Definition setSelectedCrops (v : list Crop) (st : State) : State :=
  {| formData := formData st; shown := shown st; loading := loading st;
     error := error st; growthPrediction := growthPrediction st;
     savedPlans := savedPlans st; selectedCrops := v;
     showComparison := showComparison st |}.
Definition setShowComparison (v : bool) (st : State) : State :=
  {| formData := formData st; shown := shown st; loading := loading st;
     error := error st; growthPrediction := growthPrediction st;
     savedPlans := savedPlans st; selectedCrops := selectedCrops st;
     showComparison := v |}.

(** The [newPlan] of [savePlan]; [now] is [Date.now()] and [iso] is
    [new Date().toISOString()]. *)
Definition newPlan (now : Z) (iso : string) (fd : FormData)
    (s : Suggestions) : Plan :=
  {| plan_id := now;
     plan_city := city fd;
     plan_area := rooftop_area fd;
     plan_sunlight := sunlight_hours fd;
     plan_suggestions := suggestions s;
     plan_plantingPlan := planting_plan s;
     plan_locationAnalysis := location_analysis s;
     plan_createdAt := iso |}.

(** [savePlan]: nothing without suggestions or with an empty city;
    otherwise the last 10 plans are kept and stored. *)
Definition savePlan (now : Z) (iso : string) (w : World) : World :=
  match shown (state w) with
  | None => w
  | Some s =>
      if String.eqb (city (formData (state w))) EmptyString then w
      else
        let updated :=
          slice_last 10
            (savedPlans (state w)
             ++ [newPlan now iso (formData (state w)) s]) in
        {| state := setSavedPlans updated (state w);
           localStorage :=
             <["savedCropPlans" := JSON_stringify updated]>
               (localStorage w);
           alerts := alerts w ++ ["Plan saved successfully!"] |}
  end.

Definition loadPlan (plan : Plan) (st : State) : State :=
  setSuggestions
    (Some {| suggestions := plan_suggestions plan;
             planting_plan := plan_plantingPlan plan;
             location_analysis := plan_locationAnalysis plan |})
    (setFormData {| city := plan_city plan;
                    rooftop_area := plan_area plan;
                    sunlight_hours := plan_sunlight plan |} st).

Definition compareCrops (w : World) : World :=
  if (length (selectedCrops (state w)) <? 2)%nat then
    {| state := state w; localStorage := localStorage w;
       alerts := alerts w ++ ["Please select at least 2 crops to compare"] |}
  else
    {| state := setShowComparison true (state w);
       localStorage := localStorage w; alerts := alerts w |}.

(** The updater of [toggleCropSelection]: [prev.find] by name, then
    [prev.filter], or the crop appended. *)
Definition toggleCropSelection (crop : Crop) (prev : list Crop) : list Crop :=
  match List.find (fun c => String.eqb (crop_name c) (crop_name crop)) prev
  with
  | Some _ =>
      List.filter
        (fun c => negb (String.eqb (crop_name c) (crop_name crop))) prev
  | None => prev ++ [crop]
  end.

(** [handleSubmit] once the request has settled. *)
Definition handleSubmit (fetched : Exc (Response Suggestions))
    (st : State) : State :=
  let st0 := setError None (setLoading true st) in
  let st1 :=
    try_catch
      (response ← fetched;
       if negb (ok _ response) then Throw "Failed to get crop suggestions"
       else
         data ← json _ response;
         mret (setSuggestions (Some data) st0))
      (fun message => setError (Some message) st0) in
  setLoading false st1.

(** [{ crop, ...data }]: the members of [data] come after [crop], so a
    [crop] member of [data] takes the place of the crop asked for. The
    object is kept as its [crop] member and the body. *)
Definition withCrop (crop : string) (data : Growth) : string * Growth :=
  (default crop (crop_member data), data).

(** [handlePredictGrowth(crop)] once the request has settled. *)
Definition handlePredictGrowth (crop : string)
    (fetched : Exc (Response Growth)) (st : State) : State :=
  try_catch
    (response ← fetched;
     if negb (ok _ response) then Throw "Failed to predict growth"
     else
       data ← json _ response;
       mret (setGrowthPrediction (Some (withCrop crop data)) st))
    (fun message => setError (Some message) st).

(** The message a request fails with, if it fails. *)
Definition failure_of {Body} (default_message : string)
    (fetched : Exc (Response Body)) : option string :=
  match fetched with
  | Throw message => Some message
  | Ok response =>
      if negb (ok _ response) then Some default_message
      else match json _ response with
           | Throw message => Some message
           | Ok _ => None
           end
  end.
End CropPlanner.

End CropPlanner.

(** Two suggested crops. *)
Definition tomato : CropPlanner.Crop :=
  {| CropPlanner.crop_name := "Tomato";
     CropPlanner.suitability_score := 9 # 10;
     CropPlanner.planting_season := "Spring";
     CropPlanner.estimated_yield := "5 kg";
     CropPlanner.care_tips := "Water daily" |}.

Definition basil : CropPlanner.Crop :=
  {| CropPlanner.crop_name := "Basil";
     CropPlanner.suitability_score := 8 # 10;
     CropPlanner.planting_season := "Summer";
     CropPlanner.estimated_yield := "1 kg";
     CropPlanner.care_tips := "Pinch the tips" |}.

(** A planner that shows suggestions for a filled-in form; the plans
    and analyses are kept as texts. *)
Definition planner_with_suggestions
  : @CropPlanner.World string string string :=
  {| CropPlanner.state :=
       {| CropPlanner.formData :=
            {| CropPlanner.city := "Pune";
               CropPlanner.rooftop_area := "50";
               CropPlanner.sunlight_hours := "6" |};
          CropPlanner.shown :=
            Some {| CropPlanner.suggestions := [tomato; basil];
                    CropPlanner.planting_plan := "Sow in trays";
                    CropPlanner.location_analysis := "Warm and dry" |};
          CropPlanner.loading := false;
          CropPlanner.error := None;
          CropPlanner.growthPrediction := None;
          CropPlanner.savedPlans := [];
          CropPlanner.selectedCrops := [];
          CropPlanner.showComparison := false |};
     CropPlanner.localStorage := ∅;
     CropPlanner.alerts := [] |}.

(** The body of a growth prediction, cut down to its [crop] and
    [harvest_days] members, and a planner that shows nothing yet. *)
Record GrowthBody : Type := {
  body_crop : option string;
  harvest_days : Z
}.

Definition empty_planner : @CropPlanner.State string string GrowthBody :=
  {| CropPlanner.formData :=
       {| CropPlanner.city := "Pune";
          CropPlanner.rooftop_area := "50";
          CropPlanner.sunlight_hours := "6" |};
     CropPlanner.shown := None;
     CropPlanner.loading := false;
     CropPlanner.error := None;
     CropPlanner.growthPrediction := None;
     CropPlanner.savedPlans := [];
     CropPlanner.selectedCrops := [];
     CropPlanner.showComparison := false |}.

(** The text of saved plans, cut down to the identifying members
    [id], [city] and [createdAt]. *)
Definition stringify_plans
    (plans : list (@CropPlanner.Plan string string)) : string :=
  "[" +:+ Dashboard.join ","
    (map (fun p =>
            "{" +:+ Dashboard.join ","
              [Runtime.member "id" (decimal_digits (CropPlanner.plan_id p));
               Runtime.member "city"
                 (Runtime.quoted (CropPlanner.plan_city p));
               Runtime.member "createdAt"
                 (Runtime.quoted (CropPlanner.plan_createdAt p))]
            +:+ "}") plans)
  +:+ "]".

(** * Properties *)

(** ** Arrays *)

Section slice_last.
Context {A : Type}.
Implicit Types l : list A.

Lemma length_slice_last n l : length (slice_last n l) = (length l `min` n)%nat.
Proof. unfold slice_last. rewrite length_drop. lia. Qed.

Lemma slice_last_le n l : (length (slice_last n l) <= n)%nat.
Proof. rewrite length_slice_last. lia. Qed.

Lemma slice_last_short n l : (length l <= n)%nat -> slice_last n l = l.
Proof.
  intros Hl. unfold slice_last.
  replace (length l - n)%nat with 0%nat by lia. reflexivity.
Qed.


(** Taking the last [n] after appending forgets an earlier cut at [n]. *)
Lemma slice_last_app_slice_last n l l' :
  slice_last n (slice_last n l ++ l') = slice_last n (l ++ l').
Proof.
  unfold slice_last. rewrite !length_app, length_drop.
  destruct (decide (length l <= n)%nat) as [Hs|Hs].
  - replace (length l - n)%nat with 0%nat by lia.
    rewrite drop_0. f_equal. lia.
  - replace (length l + length l' - n)%nat
      with ((length l - n) + length l')%nat by lia.
    rewrite <- drop_drop, (drop_app_le l) by lia.
    f_equal. lia.
Qed.

Lemma slice_last_snoc_last n l x :
  (0 < n)%nat -> last (slice_last n (l ++ [x])) = Some x.
Proof.
  intros Hn. unfold slice_last. rewrite length_app. simpl.
  rewrite drop_app_le by lia.
  apply last_snoc.
Qed.
End slice_last.

(** ** Numbers *)

Lemma num_lt_spec x y : num_lt x y = true <-> (x < y)%Q.
Proof.
  unfold num_lt. rewrite negb_true_iff, <- not_true_iff_false, Qle_bool_iff.
  split; [apply Qnot_le_lt | apply Qlt_not_le].
Qed.

Lemma num_lt_false x y : num_lt x y = false <-> (y <= x)%Q.
Proof.
  unfold num_lt. rewrite negb_false_iff. apply Qle_bool_iff.
Qed.

Lemma num_gt_spec x y : num_gt x y = true <-> (y < x)%Q.
Proof. apply num_lt_spec. Qed.

Lemma num_gt_false x y : num_gt x y = false <-> (x <= y)%Q.
Proof. apply num_lt_false. Qed.

Example toFixed_22_35 : Fixed_to_string (toFixed 1 (2235 # 100)) = "22.4".
Proof. reflexivity. Qed.
Example toFixed_neg_small : Fixed_to_string (toFixed 1 (- 4 # 100)) = "-0.0".
Proof. reflexivity. Qed.
Example toFixed_0_digits : Fixed_to_string (toFixed 0 (45678 # 10)) = "4568".
Proof. reflexivity. Qed.
Example toFixed_lt_one : Fixed_to_string (toFixed 2 (5 # 1000)) = "0.01".
Proof. reflexivity. Qed.


Example en_US_epoch : Runtime.toLocaleString_en_US 0 = "1/1/1970, 12:00:00 AM".
Proof. reflexivity. Qed.
Example en_US_2023 :
  Runtime.toLocaleString_en_US 1700000000000 = "11/14/2023, 10:13:20 PM".
Proof. vm_compute. reflexivity. Qed.
Example sv_SE_2023 :
  Runtime.toLocaleString_sv_SE 1700000000000 = "2023-11-14 22:13:20".
Proof. vm_compute. reflexivity. Qed.
Example sv_SE_leap :
  Runtime.toLocaleString_sv_SE 1709164800000 = "2024-02-29 00:00:00".
Proof. vm_compute. reflexivity. Qed.
Example Number_toString_22_5 : Runtime.Number_toString (225 # 10) = "22.5".
Proof. vm_compute. reflexivity. Qed.
Example Number_toString_neg : Runtime.Number_toString (- 25 # 100) = "-0.25".
Proof. vm_compute. reflexivity. Qed.
Example Number_toString_int : Runtime.Number_toString 48000 = "48000".
Proof. vm_compute. reflexivity. Qed.
Example Number_toString_11_05 : Runtime.Number_toString eleven_05 = "11.05".
Proof. vm_compute. reflexivity. Qed.
Example Number_toString_sum :
  Runtime.Number_toString (num_add (RN (1 # 10)) (RN (2 # 10)))
  = "0.30000000000000004".
Proof. vm_compute. reflexivity. Qed.
Example Number_toString_large :
  Runtime.Number_toString (RN (inject_Z (10 ^ 21))) = "1e+21".
Proof. vm_compute. reflexivity. Qed.
Example Number_toString_small :
  Runtime.Number_toString (RN (15 # 100000000)) = "1.5e-7".
Proof. vm_compute. reflexivity. Qed.
Example parseFloat_22_5 : Runtime.parseFloat "22.5" = Some (45 # 2)%Q.
Proof. vm_compute. reflexivity. Qed.
Example parseFloat_11_05 : Runtime.parseFloat "11.05" = Some eleven_05.
Proof. vm_compute. reflexivity. Qed.
Example parseFloat_exponent :
  Runtime.parseFloat "1.5e-7" = Some (RN (15 # 100000000)).
Proof. vm_compute. reflexivity. Qed.
Example parseFloat_time : Runtime.parseFloat " 10:13:20 PM" = None.
Proof. vm_compute. reflexivity. Qed.

(** ** Dashboard: the history buffer *)

Section HistoryBuffer.
Import Dashboard.
Variable JSON_stringify : list Reading -> string.

Lemma length_newHistory prev data :
  (length (newHistory prev data) <= 50)%nat.
Proof. apply slice_last_le. Qed.

Lemma newHistory_all prev data rest :
  fold_left newHistory (data :: rest) prev
  = slice_last 50 (prev ++ data :: rest).
Proof.
  revert prev data. induction rest as [|r rest IH]; intros prev data.
  - reflexivity.
  - change (fold_left newHistory (data :: r :: rest) prev)
      with (fold_left newHistory (r :: rest) (newHistory prev data)).
    rewrite IH. unfold newHistory.
    rewrite slice_last_app_slice_last, <- app_assoc. reflexivity.
Qed.

Lemma history_fetchSucceeded data w :
  history (state (fetchSucceeded JSON_stringify data w))
  = newHistory (history (state w)) data.
Proof. reflexivity. Qed.

Lemma fetchSensorData_resolved data w :
  fetchSensorData JSON_stringify (resolved data) w
  = fetchSucceeded JSON_stringify data w.
Proof. reflexivity. Qed.

Lemma poll_cons fetched fetches w :
  poll JSON_stringify (fetched :: fetches) w
  = poll JSON_stringify fetches (fetchSensorData JSON_stringify fetched w).
Proof. reflexivity. Qed.

Lemma history_poll_resolved datas w :
  history (state (poll JSON_stringify (map resolved datas) w))
  = fold_left newHistory datas (history (state w)).
Proof.
  revert w. induction datas as [|d datas IH]; intros w; [reflexivity|].
  cbn [map]. rewrite poll_cons, IH, fetchSensorData_resolved.
  reflexivity.
Qed.

(** C1. Whatever was buffered before, the buffer holds at most 50
    readings after each ingest; after any non-empty run of ingests it
    is exactly the last 50 of everything buffered and ingested, in
    arrival order, so the oldest go first; and 51 readings ingested
    into the empty buffer, the first of which does not come again,
    leave the last 50: length 50, the 1st gone, the 51st present. *)
Theorem history_buffer_bounded_fifo :
  (forall w data,
      (length (history (state (fetchSucceeded JSON_stringify data w)))
       <= 50)%nat)
  /\ (forall w data rest,
      history (state (poll JSON_stringify
                        (map resolved (data :: rest)) w))
      = slice_last 50 (history (state w) ++ data :: rest))
  /\ (forall storage first rest newest,
      length rest = 50%nat ->
      first ∉ rest ->
      last rest = Some newest ->
      let buffer :=
        history (state (poll JSON_stringify
                          (map resolved (first :: rest))
                          {| state := initial;
                             localStorage := storage |})) in
      length buffer = 50%nat /\ (first ∉ buffer) /\ (newest ∈ buffer)).
Proof.
  split; [|split].
  - intros w data. rewrite history_fetchSucceeded.
    apply length_newHistory.
  - intros w data rest.
    rewrite history_poll_resolved. apply newHistory_all.
  - intros storage first rest newest Hlen Hfirst Hlast buffer.
    assert (Hb : buffer = rest).
    { unfold buffer. rewrite history_poll_resolved, newHistory_all.
      simpl. unfold slice_last. simpl. rewrite Hlen. reflexivity. }
    rewrite Hb. split; [exact Hlen|]. split; [exact Hfirst|].
    apply last_Some_elem_of. exact Hlast.
Qed.
End HistoryBuffer.

Lemma reading_at_fresh i js :
  i ∉ js -> reading_at i ∉ map reading_at js.
Proof.
  intros Hi Hin. apply list_elem_of_fmap in Hin as (j & Heq & Hj).
  assert (i = j) as ->; [|contradiction].
  apply (f_equal timestamp) in Heq. simpl in Heq. lia.
Qed.

Lemma history_buffer_bounded_fifo_witness :
  let buffer :=
    Dashboard.history (Dashboard.state
      (Dashboard.poll Runtime.JSON_stringify
         (map resolved (map reading_at (seq 0 51)))
         {| Dashboard.state := Dashboard.initial;
            Dashboard.localStorage := ∅ |})) in
  length buffer = 50%nat
  /\ (reading_at 0 ∉ buffer) /\ (reading_at 50 ∈ buffer).
Proof.
  destruct (history_buffer_bounded_fifo Runtime.JSON_stringify)
    as (_ & _ & H).
  apply (H ∅ (reading_at 0) (map reading_at (seq 1 50)) (reading_at 50)).
  - reflexivity.
  - apply reading_at_fresh. rewrite elem_of_seq. lia.
  - reflexivity.
Defined.

(** ** Dashboard: trend *)

Section Trend.
Import Dashboard.

Lemma last_cons_default {A} (x y : A) (l : list A) :
  List.last (y :: l) x = List.last l y.
Proof.
  revert x y. induction l as [|z l IH]; intros x y; [reflexivity|].
  change (List.last (y :: z :: l) x) with (List.last (z :: l) x).
  rewrite !IH. reflexivity.
Qed.

Lemma lookup_last_cons (x0 : Q) (rest : list Q) :
  (x0 :: rest) !! length rest = Some (List.last rest x0).
Proof.
  revert x0. induction rest as [|y rest IH]; intros x0; [reflexivity|].
  cbn [length lookup list_lookup]. rewrite IH, last_cons_default.
  reflexivity.
Qed.

Lemma trend_of_cons (x0 : Q) (rest : list Q) :
  trend_of (x0 :: rest)
  = match rest with
    | [] => flat
    | _ => if num_gt (List.last rest x0) x0 then rising else falling
    end.
Proof.
  unfold trend_of. destruct rest as [|y rest]; [reflexivity|].
  replace (length (x0 :: y :: rest) - 1)%nat with (length (y :: rest))
    by (simpl; lia).
  rewrite lookup_last_cons. reflexivity.
Qed.

Lemma last_map_metric m (ds : list Reading) d0 :
  List.last (map (metric_value m) ds) (metric_value m d0)
  = metric_value m (List.last ds d0).
Proof.
  revert d0. induction ds as [|d ds IH]; intros d0; [reflexivity|].
  cbn [map]. rewrite !last_cons_default. apply IH.
Qed.

Lemma trend_computeAnalytics m d0 ds a :
  computeAnalytics (d0 :: ds) = Some a ->
  trend (analytics_of m a)
  = trend_of (map (metric_value m) (d0 :: ds)).
Proof. intros [= <-]. destruct m; reflexivity. Qed.
End Trend.

(** Closes the directions of the trend equivalences once the
    comparison of the endpoints is known. *)
Ltac trend_cases :=
  repeat split; intros;
  repeat match goal with H : _ /\ _ |- _ => destruct H end;
  try discriminate; try lia; try assumption; try reflexivity;
  try (exfalso;
       match goal with
       | H : (?x < ?x)%Q |- _ => exact (Qlt_irrefl _ H)
       | H1 : (?x < ?y)%Q, H2 : (?y <= ?x)%Q |- _ =>
           exact (Qlt_not_le _ _ H1 H2)
       end).

(** C2 (as amended). For a non-empty buffer and every metric, the trend
    is rising iff the newest value is greater than the oldest; falling
    iff the buffer holds more than one reading and the newest value is
    less than or equal to the oldest; flat iff the buffer holds exactly
    one reading. *)
Theorem trend_by_endpoints (m : Metric) (d0 : Reading) (ds : list Reading) :
  exists a,
    Dashboard.computeAnalytics (d0 :: ds) = Some a
    /\ let t := Dashboard.trend (Dashboard.analytics_of m a) in
       let oldest := oldest_value m d0 ds in
       let newest := newest_value m d0 ds in
       let len := length (d0 :: ds) in
       (t = Dashboard.rising <-> (oldest < newest)%Q)
       /\ (t = Dashboard.falling
           <-> ((1 < len)%nat /\ (newest <= oldest)%Q))
       /\ (t = Dashboard.flat <-> (len <= 1)%nat).
Proof.
  destruct (Dashboard.computeAnalytics (d0 :: ds)) as [a|] eqn:Ha;
    [|discriminate].
  exists a. split; [reflexivity|].
  rewrite (trend_computeAnalytics m d0 ds a Ha).
  cbn [map]. rewrite trend_of_cons, last_map_metric.
  unfold oldest_value, newest_value.
  destruct ds as [|d1 ds].
  - cbn [map List.last length]. trend_cases.
  - cbn [map length].
    destruct (num_gt (metric_value m (List.last (d1 :: ds) d0))
                (metric_value m d0)) eqn:Hgt.
    + apply num_gt_spec in Hgt. trend_cases.
    + apply num_gt_false in Hgt. trend_cases.
Qed.

(** C2 (as stated) fails: two buffered readings of 20 degrees give the
    falling arrow although the newest value equals the oldest. *)
Lemma trend_equal_endpoints_is_falling :
  let d := reading_with_temperature 20 in
  exists a,
    Dashboard.computeAnalytics [d; d] = Some a
    /\ Dashboard.trend (Dashboard.an_temperature a) = Dashboard.falling
    /\ ~ endpoint_trend_law
           (oldest_value Temperature d [d]) (newest_value Temperature d [d])
           (length [d; d])
           (Dashboard.trend (Dashboard.an_temperature a)).
Proof.
  eexists. split; [reflexivity|]. split; [reflexivity|].
  intros (_ & Hfalling & _).
  destruct Hfalling as [Hlt _].
  specialize (Hlt eq_refl). vm_compute in Hlt. discriminate.
Qed.

(** ** Numbers: rounding, extrema and sums *)

Lemma pow10_pos f : (0 < pow10 f)%Q.
Proof.
  unfold pow10. change 0%Q with (inject_Z 0). rewrite <- Zlt_Qlt.
  apply Z.pow_pos_nonneg; lia.
Qed.

Lemma Fixed_value_signed d :
  Fixed_value d = (inject_Z (signed_n d) / pow10 (fx_digits d))%Q.
Proof.
  unfold Fixed_value, signed_n. destruct (fx_negative d); [|reflexivity].
  rewrite inject_Z_opp. reflexivity.
Qed.

Lemma Qfloor_nonneg q : (0 <= q)%Q -> 0 <= Qfloor q.
Proof. intros H. apply Qfloor_resp_le in H. exact H. Qed.

Lemma signed_n_toFixed_mono f x y :
  (x <= y)%Q -> signed_n (toFixed f x) <= signed_n (toFixed f y).
Proof.
  intros Hxy. pose proof (pow10_pos f) as Hp.
  unfold signed_n, toFixed. cbn [fx_negative fx_n].
  destruct (num_lt x 0) eqn:Hx, (num_lt y 0) eqn:Hy.
  - apply num_lt_spec in Hx, Hy.
    apply Z.opp_le_mono. rewrite !Z.opp_involutive.
    apply Qfloor_resp_le. apply Qplus_le_l.
    apply Qmult_le_compat_r; [lra | apply Qlt_le_weak, Hp].
  - apply num_lt_spec in Hx. apply num_lt_false in Hy.
    transitivity 0.
    + apply Z.opp_nonpos_nonneg. apply Qfloor_nonneg.
      assert (0 <= - x * pow10 f)%Q
        by (apply Qmult_le_0_compat; [lra | apply Qlt_le_weak, Hp]).
      lra.
    + apply Qfloor_nonneg.
      assert (0 <= y * pow10 f)%Q
        by (apply Qmult_le_0_compat; [lra | apply Qlt_le_weak, Hp]).
      lra.
  - apply num_lt_false in Hx. apply num_lt_spec in Hy. lra.
  - apply Qfloor_resp_le. apply Qplus_le_l.
    apply Qmult_le_compat_r; [exact Hxy | apply Qlt_le_weak, Hp].
Qed.

(** Rounding to [f] digits keeps the order. *)
Lemma toFixed_mono f x y :
  (x <= y)%Q ->
  (Fixed_value (toFixed f x) <= Fixed_value (toFixed f y))%Q.
Proof.
  intros Hxy. rewrite !Fixed_value_signed. cbn [toFixed fx_digits].
  apply Qmult_le_compat_r.
  - rewrite <- Zle_Qle. apply signed_n_toFixed_mono, Hxy.
  - apply Qlt_le_weak, Qinv_lt_0_compat, pow10_pos.
Qed.

Lemma Math_min_spec a rest :
  Math_min a rest ∈ a :: rest
  /\ forall x, x ∈ a :: rest -> (Math_min a rest <= x)%Q.
Proof.
  unfold Math_min. revert a.
  induction rest as [|y rest IH]; intros a; cbn [fold_left].
  - split; [left|]. intros x ->%list_elem_of_singleton. apply Qle_refl.
  - destruct (IH (Qmin a y)) as [Hin Hle]. split.
    + apply elem_of_cons in Hin as [Heq|Hin].
      * rewrite Heq. unfold Qmin, GenericMinMax.gmin.
        destruct (a ?= y)%Q; [left | left | right; left].
      * right; right; exact Hin.
    + intros x Hx.
      assert (Hm : (fold_left Qmin rest (Qmin a y) <= Qmin a y)%Q)
        by (apply Hle; left).
      apply elem_of_cons in Hx as [-> | Hx].
      * eapply Qle_trans; [exact Hm | apply Q.le_min_l].
      * apply elem_of_cons in Hx as [-> | Hx].
        -- eapply Qle_trans; [exact Hm | apply Q.le_min_r].
        -- apply Hle. right; exact Hx.
Qed.

Lemma Math_max_spec a rest :
  Math_max a rest ∈ a :: rest
  /\ forall x, x ∈ a :: rest -> (x <= Math_max a rest)%Q.
Proof.
  unfold Math_max. revert a.
  induction rest as [|y rest IH]; intros a; cbn [fold_left].
  - split; [left|]. intros x ->%list_elem_of_singleton. apply Qle_refl.
  - destruct (IH (Qmax a y)) as [Hin Hle]. split.
    + apply elem_of_cons in Hin as [Heq|Hin].
      * rewrite Heq. unfold Qmax, GenericMinMax.gmax.
        destruct (a ?= y)%Q; [left | right; left | left].
      * right; right; exact Hin.
    + intros x Hx.
      assert (Hm : (Qmax a y <= fold_left Qmax rest (Qmax a y))%Q)
        by (apply Hle; left).
      apply elem_of_cons in Hx as [-> | Hx].
      * eapply Qle_trans; [apply Q.le_max_l | exact Hm].
      * apply elem_of_cons in Hx as [-> | Hx].
        -- eapply Qle_trans; [apply Q.le_max_r | exact Hm].
        -- apply Hle. right; exact Hx.
Qed.

Lemma inject_length_cons {A} (x : A) (xs : list A) :
  (inject_Z (Z.of_nat (length (x :: xs)))
   == inject_Z (Z.of_nat (length xs)) + 1)%Q.
Proof.
  cbn [length]. rewrite Nat2Z.inj_succ, <- Z.add_1_r, inject_Z_plus.
  reflexivity.
Qed.

Lemma inject_length_nonneg {A} (xs : list A) :
  (0 <= inject_Z (Z.of_nat (length xs)))%Q.
Proof. change 0%Q with (inject_Z 0). rewrite <- Zle_Qle. lia. Qed.

Lemma fold_sum_bounds lo hi xs acc :
  (forall x, x ∈ xs -> (lo <= x <= hi)%Q) ->
  (acc + inject_Z (Z.of_nat (length xs)) * lo <= fold_left Qplus xs acc
   /\ fold_left Qplus xs acc
      <= acc + inject_Z (Z.of_nat (length xs)) * hi)%Q.
Proof.
  revert acc. induction xs as [|x xs IH]; intros acc Hb.
  - cbn [fold_left length]. change (inject_Z (Z.of_nat 0)) with 0%Q.
    split; lra.
  - cbn [fold_left]. rewrite inject_length_cons.
    destruct (IH (acc + x)%Q) as [Hlo Hhi].
    { intros z Hz. apply Hb. right; exact Hz. }
    destruct (Hb x) as [Hx1 Hx2]; [left|].
    split; lra.
Qed.

Lemma Qmult_le_compat_l' z x y :
  (0 <= z)%Q -> (x <= y)%Q -> (z * x <= z * y)%Q.
Proof.
  intros Hz Hxy. rewrite !(Qmult_comm z).
  apply Qmult_le_compat_r; assumption.
Qed.

Lemma Qdiv_bounds n lo hi x :
  (0 < n)%Q -> (n * lo <= x <= n * hi)%Q -> (lo <= x / n <= hi)%Q.
Proof.
  intros Hn [H1 H2]. split.
  - apply Qle_shift_div_l; [exact Hn|]. lra.
  - apply Qle_shift_div_r; [exact Hn|]. lra.
Qed.

(** The exact mean of a non-empty column lies between any bounds of its
    values. *)
Lemma mean_bounds lo hi x0 rest :
  (forall x, x ∈ x0 :: rest -> (lo <= x <= hi)%Q) ->
  (lo <= exact_mean (x0 :: rest) <= hi)%Q.
Proof.
  intros Hb. unfold exact_mean, exact_sum.
  destruct (fold_sum_bounds lo hi (x0 :: rest) 0%Q Hb) as [Hlo Hhi].
  assert (Hn : (0 < inject_Z (Z.of_nat (length (x0 :: rest))))%Q).
  { change 0%Q with (inject_Z 0). rewrite <- Zlt_Qlt. cbn [length]. lia. }
  apply Qdiv_bounds; [exact Hn|]. lra.
Qed.

(** ** Numbers: rounding to the nearest double *)

Lemma round_half_even_error q :
  (Qabs (inject_Z (round_half_even q) - q) <= 1 # 2)%Q.
Proof.
  unfold round_half_even.
  pose proof (Qfloor_le q) as Hlo. pose proof (Qlt_floor q) as Hhi.
  rewrite inject_Z_plus in Hhi. change (inject_Z 1) with 1%Q in Hhi.
  apply Qabs_Qle_condition.
  destruct (q - inject_Z (Qfloor q) ?= 1 # 2)%Q eqn:Hc.
  - apply Qeq_alt in Hc.
    destruct (Z.even (Qfloor q));
      [|rewrite inject_Z_plus; change (inject_Z 1) with 1%Q]; split; lra.
  - apply Qlt_alt in Hc. split; lra.
  - apply Qgt_alt in Hc. rewrite inject_Z_plus.
    change (inject_Z 1) with 1%Q. split; lra.
Qed.

Lemma pow2_pos e : (0 < 2 ^ e)%Q.
Proof. apply Qpower_0_lt. reflexivity. Qed.

Lemma pow2_plus a b : (2 ^ (a + b) == 2 ^ a * 2 ^ b)%Q.
Proof. apply Qpower_plus. discriminate. Qed.

Lemma pow2_inject n : 0 <= n -> (inject_Z (2 ^ n) == 2 ^ n)%Q.
Proof. intros Hn. apply (Zpower_Qpower 2 n Hn). Qed.

Lemma ilog2_le a : (0 < a)%Q -> (2 ^ ilog2 a <= a)%Q.
Proof.
  intros Ha. unfold ilog2.
  destruct (Qle_bool _ a) eqn:Hk; [apply Qle_bool_iff; exact Hk|].
  destruct a as [n d]. cbn [Qnum Qden].
  assert (Hn : 0 < n) by (unfold Qlt in Ha; cbn in Ha; lia).
  pose proof (Z.log2_spec n Hn) as [Hn1 _].
  pose proof (Z.log2_spec (Zpos d) eq_refl) as [_ Hd2].
  pose proof (Z.log2_nonneg n) as Hln.
  pose proof (Z.log2_nonneg (Zpos d)) as Hld.
  set (ln := Z.log2 n) in *. set (ld := Z.log2 (Z.pos d)) in *.
  replace (ln - ld - 1) with (ln + - (ld + 1)) by lia.
  rewrite pow2_plus, Qpower_opp.
  rewrite <- !pow2_inject by lia.
  assert (Hp : 0 < 2 ^ (ld + 1)) by (apply Z.pow_pos_nonneg; lia).
  replace (Z.succ ld) with (ld + 1) in Hd2 by lia.
  apply Qle_shift_div_r.
  - rewrite <- (Zlt_Qlt 0). exact Hp.
  - unfold Qle, Qmult, inject_Z. cbn [Qnum Qden].
    assert (0 < 2 ^ ln) by (apply Z.pow_pos_nonneg; lia).
    nia.
Qed.

Lemma Qabs_zero x : (x == 0)%Q -> (Qabs x == 0)%Q.
Proof. intros ->. reflexivity. Qed.

Lemma Qabs_pos_neq x : ~ (x == 0)%Q -> (0 < Qabs x)%Q.
Proof.
  intros H0. destruct (Qlt_le_dec 0 (Qabs x)) as [|Hle]; [assumption|].
  exfalso. apply H0. pose proof (Qabs_nonneg x).
  assert (Hz : (Qabs x == 0)%Q) by lra.
  revert Hz. apply Qabs_case; intros; lra.
Qed.

Lemma unit_roundoff_pos : (0 < unit_roundoff)%Q.
Proof. apply pow2_pos. Qed.

Lemma underflow_unit_pos : (0 < underflow_unit)%Q.
Proof. apply pow2_pos. Qed.

(** [RN] gives the same double for equal rationals. *)
Lemma RN_comp x y : (x == y)%Q -> RN x = RN y.
Proof. intros H. unfold RN. rewrite (Qred_complete x y H). reflexivity. Qed.

(** Rounding moves a number by at most half a unit in the last place:
    by the factor [2^-53] of its magnitude, or by half the least
    positive double. *)
Lemma RN_error x :
  (Qabs (RN x - x) <= unit_roundoff * Qabs x + underflow_unit)%Q.
Proof.
  assert (Hu : (0 < unit_roundoff)%Q) by apply pow2_pos.
  assert (He : (0 < underflow_unit)%Q) by apply pow2_pos.
  pose proof (Qabs_nonneg x) as Hax.
  assert (Ex : (Qred x == x)%Q) by apply Qred_correct.
  unfold RN. revert Ex. generalize (Qred x). intros y Ey.
  destruct (Qeq_bool y 0) eqn:H0.
  - apply Qeq_bool_iff in H0.
    assert (H : (Qabs (0 - x) == 0)%Q) by (apply Qabs_zero; lra).
    rewrite H. nra.
  - apply Qeq_bool_neq in H0.
    assert (Eabs : (Qabs x == Qabs y)%Q) by (rewrite Ey; reflexivity).
    rewrite Eabs in *.
    set (a := Qabs y) in *.
    assert (Ha : (0 < a)%Q) by (apply Qabs_pos_neq, H0).
    set (c := Z.max (ilog2 a - 52) (-1074)).
    set (m := round_half_even (a / 2 ^ c)).
    pose proof (round_half_even_error (a / 2 ^ c)) as Hm. fold m in Hm.
    pose proof (pow2_pos c) as Hc.
    assert (Hv : (Qabs (inject_Z m * 2 ^ c - a) <= 2 ^ c * (1 # 2))%Q).
    { assert (E : (inject_Z m * 2 ^ c - a
                   == (inject_Z m - a / 2 ^ c) * 2 ^ c)%Q) by (field; lra).
      rewrite E, Qabs_Qmult, (Qabs_pos (2 ^ c)) by lra.
      rewrite (Qmult_comm (2 ^ c)). apply Qmult_le_compat_r; lra. }
    assert (Hb : (2 ^ c * (1 # 2)
                  <= unit_roundoff * a + underflow_unit)%Q).
    { unfold c.
      destruct (Z.max_spec (ilog2 a - 52) (-1074)) as [[_ ->] | [_ ->]].
      - assert (E : (underflow_unit == 2 ^ (-1074) * (1 # 2))%Q)
          by apply (pow2_plus (-1074) (-1)).
        rewrite <- E. nra.
      - assert (E : (2 ^ (ilog2 a - 52) * (1 # 2)
                     == unit_roundoff * 2 ^ ilog2 a)%Q).
        { replace (ilog2 a - 52) with (ilog2 a + -52) by lia.
          rewrite pow2_plus.
          assert (E' : (unit_roundoff == 2 ^ (-52) * (1 # 2))%Q)
            by apply (pow2_plus (-52) (-1)).
          rewrite E'. ring. }
        rewrite E. pose proof (ilog2_le a Ha). nra. }
    assert (Hs : (Qabs (inject_Z m * 2 ^ c - a)
                  <= unit_roundoff * a + underflow_unit)%Q) by lra.
    clear Hv Hb Hm. revert Hs.
    generalize (unit_roundoff * a + underflow_unit)%Q. intros b Hs.
    apply Qabs_Qle_condition in Hs.
    destruct (num_lt y 0) eqn:Hx; rewrite Qred_correct;
      apply Qabs_Qle_condition.
    + apply num_lt_spec in Hx.
      assert (Hax' : (a == - y)%Q) by (apply Qabs_neg; lra).
      split; lra.
    + apply num_lt_false in Hx.
      assert (Hax' : (a == y)%Q) by (apply Qabs_pos; lra).
      split; lra.
Qed.

(** Every value of [RN] is an integer multiple of a power of two not
    below [2^-1074]. *)
Lemma RN_dyadic x :
  exists m c, -1074 <= c /\ (RN x == inject_Z m * 2 ^ c)%Q.
Proof.
  unfold RN. destruct (Qeq_bool (Qred x) 0).
  - exists 0, 0. split; [lia | reflexivity].
  - set (c := Z.max _ _). set (m := round_half_even _).
    assert (Hc : -1074 <= c) by (unfold c; lia).
    destruct (num_lt (Qred x) 0).
    + exists (- m), c. split; [exact Hc|].
      rewrite Qred_correct, inject_Z_opp. ring.
    + exists m, c. split; [exact Hc|]. apply Qred_correct.
Qed.

Lemma RN_opp x : (RN (- x) == - RN x)%Q.
Proof.
  unfold RN. rewrite Qred_opp.
  set (y := Qred x).
  assert (Ea : Qabs (- y) = Qabs y).
  { destruct y as [n d]. unfold Qabs, Qopp. cbn [Qnum Qden].
    rewrite Z.abs_opp. reflexivity. }
  rewrite Ea.
  destruct (Qeq_bool y 0) eqn:H0.
  - apply Qeq_bool_iff in H0.
    assert (H0' : Qeq_bool (- y) 0 = true) by (apply Qeq_bool_iff; lra).
    rewrite H0'. reflexivity.
  - assert (H0' : Qeq_bool (- y) 0 = false).
    { apply not_true_iff_false. intros H%Qeq_bool_iff.
      apply Qeq_bool_neq in H0. apply H0. lra. }
    rewrite H0'. apply Qeq_bool_neq in H0.
    destruct (num_lt (- y) 0) eqn:H1, (num_lt y 0) eqn:H2;
      rewrite ?num_lt_spec, ?num_lt_false in H1, H2;
      try reflexivity; try ring; exfalso; apply H0; lra.
Qed.

Lemma is_double_abs x : is_double x -> is_double (Qabs x).
Proof.
  unfold is_double. intros Hx. apply Qabs_case; intros H0; [exact Hx|].
  rewrite RN_opp, Hx. reflexivity.
Qed.

(** *** The rounded sum and the rounded mean *)

Lemma growth_ge_1 n : (1 <= growth n)%Q.
Proof.
  pose proof unit_roundoff_pos.
  induction n as [|n IH]; cbn [growth]; [lra | nra].
Qed.

Lemma growth_mono n k : (n <= k)%nat -> (growth n <= growth k)%Q.
Proof.
  pose proof unit_roundoff_pos.
  induction 1 as [|k Hle IH]; [lra|].
  cbn [growth]. pose proof (growth_ge_1 k). nra.
Qed.

(** One rounded addition: the error carried so far grows by the factor
    [1 + unit_roundoff] and by the rounding of the new partial sum. *)
Lemma num_add_error acc S x E T :
  (Qabs (acc - S) <= E)%Q -> (Qabs (S + x) <= T)%Q ->
  (Qabs (num_add acc x - (S + x))
   <= (1 + unit_roundoff) * E + (unit_roundoff * T + underflow_unit))%Q.
Proof.
  intros HE HT. unfold num_add.
  pose proof unit_roundoff_pos as Hu.
  pose proof (RN_error (acc + x)) as Hr.
  assert (Ha : (Qabs (acc + x) <= T + E)%Q).
  { assert (E1 : (acc + x == (S + x) + (acc - S))%Q) by ring.
    rewrite E1. eapply Qle_trans; [apply Qabs_triangle|]. lra. }
  assert (Hd : (Qabs (RN (acc + x) - (S + x))
                <= Qabs (RN (acc + x) - (acc + x)) + Qabs (acc - S))%Q).
  { assert (E1 : (RN (acc + x) - (S + x)
                  == (RN (acc + x) - (acc + x)) + (acc - S))%Q) by ring.
    rewrite E1. apply Qabs_triangle. }
  revert Hr Ha Hd HE.
  generalize (Qabs (RN (acc + x) - (S + x))), (Qabs (acc + x)),
    (Qabs (RN (acc + x) - (acc + x))), (Qabs (acc - S)).
  intros. nra.
Qed.

(** The rounded sum against the exact one: [acc] stands for the exact
    partial sum [S] up to [E], the exact partial sums stay within
    [T]. *)
Lemma sum_error M T xs : forall acc S E s,
  (0 <= M)%Q -> (0 <= E)%Q ->
  Forall (fun x => (Qabs x <= M)%Q) xs ->
  (Qabs (acc - S) <= E)%Q ->
  (Qabs S <= s)%Q ->
  (s + inject_Z (Z.of_nat (length xs)) * M <= T)%Q ->
  (Qabs (fold_left num_add xs acc - fold_left Qplus xs S)
   <= growth (length xs) * E
      + inject_Z (Z.of_nat (length xs)) * growth (length xs)
        * (unit_roundoff * T + underflow_unit))%Q.
Proof.
  pose proof unit_roundoff_pos as Hu. pose proof underflow_unit_pos as He.
  induction xs as [|x xs IH]; intros acc S E s HM HE0 Hxs HE Hs HT.
  - cbn [fold_left length growth]. change (inject_Z (Z.of_nat 0)) with 0%Q.
    lra.
  - cbn [fold_left]. apply Forall_cons in Hxs as [Hx Hxs].
    rewrite inject_length_cons in HT |- *.
    pose proof (inject_length_nonneg xs) as Hn.
    assert (Hs' : (Qabs (S + x) <= s + M)%Q)
      by (eapply Qle_trans; [apply Qabs_triangle | lra]).
    assert (HsT : (Qabs (S + x) <= T)%Q) by nra.
    pose proof (num_add_error acc S x E T HE HsT) as Hstep.
    assert (HT0 : (0 <= T)%Q)
      by (pose proof (Qabs_nonneg (S + x)); lra).
    specialize (IH (num_add acc x) (S + x)%Q
                  ((1 + unit_roundoff) * E
                   + (unit_roundoff * T + underflow_unit))%Q
                  (s + M)%Q HM).
    eapply Qle_trans; [apply IH; try assumption; nra|].
    cbn [length growth]. pose proof (growth_ge_1 (length xs)) as Hg.
    revert Hg Hn. generalize (growth (length xs)),
      (inject_Z (Z.of_nat (length xs))). intros g n Hg Hn.
    assert (HB : (0 <= unit_roundoff * T + underflow_unit)%Q) by nra.
    revert HB. generalize (unit_roundoff * T + underflow_unit)%Q.
    intros B HB.
    assert (H1 : (0 <= g * B)%Q) by (apply Qmult_le_0_compat; lra).
    assert (H2 : (0 <= (n + 1) * (g * B))%Q)
      by (apply Qmult_le_0_compat; lra).
    assert (H3 : (0 <= unit_roundoff * ((n + 1) * (g * B)))%Q)
      by (apply Qmult_le_0_compat; lra).
    lra.
Qed.

(** The mean as [calculateAnalytics] computes it lies within the
    rounding slack of the exact mean. *)
Lemma mean_error M x0 rest :
  Forall (fun x => (Qabs x <= M)%Q) (x0 :: rest) ->
  (Qabs (Dashboard.mean (x0 :: rest) - exact_mean (x0 :: rest))
   <= rounding_slack (length (x0 :: rest)) M)%Q.
Proof.
  intros Hxs. set (xs := x0 :: rest) in *.
  pose proof unit_roundoff_pos as Hu. pose proof underflow_unit_pos as He.
  assert (HM : (0 <= M)%Q).
  { apply Forall_cons in Hxs as [Hx _].
    pose proof (Qabs_nonneg x0). lra. }
  assert (Hn : (0 < inject_Z (Z.of_nat (length xs)))%Q).
  { change 0%Q with (inject_Z 0). rewrite <- Zlt_Qlt. cbn [length xs]. lia. }
  unfold Dashboard.mean, exact_mean, num_div, rounding_slack, sum, exact_sum.
  pose proof (sum_error M (inject_Z (Z.of_nat (length xs)) * M) xs
                0 0 0 0 HM (Qle_refl 0) Hxs) as Hsum.
  assert (Hz : (Qabs (0 - 0) <= 0)%Q) by (vm_compute; discriminate).
  assert (Hz' : (Qabs 0 <= 0)%Q) by (vm_compute; discriminate).
  specialize (Hsum Hz Hz'). clear Hz Hz'.
  assert (Hsum' := Hsum ltac:(lra)). clear Hsum.
  destruct (fold_sum_bounds (- M) M xs 0) as [Hlo Hhi].
  { intros x Hx. rewrite Forall_forall in Hxs. apply Hxs in Hx.
    apply Qabs_Qle_condition in Hx. exact Hx. }
  cbn [growth].
  set (s := fold_left num_add xs 0%Q) in *.
  set (S := fold_left Qplus xs 0%Q) in *.
  set (n := inject_Z (Z.of_nat (length xs))) in *.
  pose proof (growth_ge_1 (length xs)) as Hg.
  set (g := growth (length xs)) in *.
  set (B := (unit_roundoff * (n * M) + underflow_unit)%Q) in *.
  assert (HB : (0 <= B)%Q) by (unfold B; nra).
  assert (HgB : (0 <= g * B)%Q) by (apply Qmult_le_0_compat; lra).
  apply Qabs_Qle_condition in Hsum'.
  assert (Hqp : (- (g * B) <= s / n - S / n <= g * B)%Q).
  { assert (E : (s / n - S / n == (s - S) / n)%Q) by (field; lra).
    rewrite E. apply Qdiv_bounds; [exact Hn|]. lra. }
  assert (Hp : (- M <= S / n <= M)%Q)
    by (apply Qdiv_bounds; [exact Hn | lra]).
  assert (Hq : (Qabs (s / n) <= M + g * B)%Q)
    by (apply Qabs_Qle_condition; lra).
  pose proof (RN_error (s / n)) as Hr.
  assert (Hr' : (Qabs (RN (s / n) - s / n)
                 <= unit_roundoff * (M + g * B) + underflow_unit)%Q).
  { eapply Qle_trans; [exact Hr|].
    apply Qplus_le_l. apply Qmult_le_l; [exact Hu | exact Hq]. }
  apply Qabs_Qle_condition in Hr'. apply Qabs_Qle_condition.
  revert Hr' Hqp. generalize (RN (s / n)), (s / n)%Q, (S / n)%Q.
  intros r q p Hr' Hqp. split; lra.
Qed.

Lemma rounding_slack_nonneg n M : (0 <= M)%Q -> (0 <= rounding_slack n M)%Q.
Proof.
  intros HM. unfold rounding_slack.
  pose proof unit_roundoff_pos as Hu. pose proof underflow_unit_pos as He.
  pose proof (growth_ge_1 (S n)) as Hg.
  pose proof (inject_length_nonneg (repeat tt n)) as Hn.
  rewrite repeat_length in Hn.
  assert (HnM : (0 <= inject_Z (Z.of_nat n) * M)%Q)
    by (apply Qmult_le_0_compat; assumption).
  assert (HB : (0 <= unit_roundoff * (inject_Z (Z.of_nat n) * M)
                     + underflow_unit)%Q) by nra.
  assert (HgB : (0 <= growth (S n)
                      * (unit_roundoff * (inject_Z (Z.of_nat n) * M)
                         + underflow_unit))%Q)
    by (apply Qmult_le_0_compat; lra).
  nra.
Qed.

(** The slack grows with the length of the column and with the
    magnitude of its values. *)
Lemma rounding_slack_mono n k M N :
  (n <= k)%nat -> (0 <= M <= N)%Q ->
  (rounding_slack n M <= rounding_slack k N)%Q.
Proof.
  intros Hnk [HM HMN]. unfold rounding_slack.
  pose proof unit_roundoff_pos as Hu. pose proof underflow_unit_pos as He.
  pose proof (growth_mono (S n) (S k) ltac:(lia)) as Hg.
  pose proof (growth_ge_1 (S n)) as Hg1.
  assert (Hn : (0 <= inject_Z (Z.of_nat n) <= inject_Z (Z.of_nat k))%Q)
    by (split; [change 0%Q with (inject_Z 0)|]; rewrite <- Zle_Qle; lia).
  assert (HnM : (inject_Z (Z.of_nat n) * M <= inject_Z (Z.of_nat k) * N)%Q).
  { eapply Qle_trans; [apply Qmult_le_compat_r; [apply Hn | exact HM]|].
    apply Qmult_le_compat_l'; [lra | exact HMN]. }
  assert (HnM0 : (0 <= inject_Z (Z.of_nat n) * M)%Q)
    by (apply Qmult_le_0_compat; lra).
  revert Hg Hg1 HnM HnM0.
  generalize (growth (S n)), (growth (S k)), (inject_Z (Z.of_nat n) * M)%Q,
    (inject_Z (Z.of_nat k) * N)%Q.
  intros g g' p p' Hg Hg1 Hp Hp0.
  assert (HB : (unit_roundoff * p + underflow_unit
                <= unit_roundoff * p' + underflow_unit)%Q) by nra.
  assert (HB0 : (0 <= unit_roundoff * p + underflow_unit)%Q) by nra.
  revert HB HB0. generalize (unit_roundoff * p + underflow_unit)%Q,
    (unit_roundoff * p' + underflow_unit)%Q. intros B B' HB HB0.
  assert (H1 : (g * B <= g' * B')%Q).
  { eapply Qle_trans; [apply Qmult_le_compat_r; [exact Hg | exact HB0]|].
    apply Qmult_le_compat_l'; [lra | exact HB]. }
  nra.
Qed.

(** For the dashboard's buffer of at most 50 readings of magnitude up
    to [10^9], the slack stays below a hundred-thousandth. *)
Lemma rounding_slack_small n M :
  (n <= 50)%nat -> (0 <= M <= inject_Z (10 ^ 9))%Q ->
  (rounding_slack n M < 1 # 100000)%Q.
Proof.
  intros Hn HM.
  eapply Qle_lt_trans; [apply (rounding_slack_mono n 50 M _ Hn HM)|].
  vm_compute. reflexivity.
Qed.

(** ** Numbers: [toFixed] stays next to the number *)

(** The digits of [x.toFixed(f)] lie within a half of [x * 10^f]. *)
Lemma signed_n_toFixed_near f x :
  (x * pow10 f - (1 # 2) <= inject_Z (signed_n (toFixed f x))
   <= x * pow10 f + (1 # 2))%Q.
Proof.
  unfold signed_n, toFixed. cbn [fx_negative fx_n].
  destruct (num_lt x 0) eqn:Hx.
  - pose proof (Qfloor_le (- x * pow10 f + (1 # 2))) as Hlo.
    pose proof (Qlt_floor (- x * pow10 f + (1 # 2))) as Hhi.
    rewrite inject_Z_plus in Hhi. change (inject_Z 1) with 1%Q in Hhi.
    rewrite inject_Z_opp. split; lra.
  - pose proof (Qfloor_le (x * pow10 f + (1 # 2))) as Hlo.
    pose proof (Qlt_floor (x * pow10 f + (1 # 2))) as Hhi.
    rewrite inject_Z_plus in Hhi. change (inject_Z 1) with 1%Q in Hhi.
    split; lra.
Qed.

(** A number that lies at most [delta] below [x], with [delta] less
    than a unit of the last digit kept, is written at most one unit
    below [x]. *)
Lemma signed_n_toFixed_below f x y delta :
  (x - delta <= y)%Q -> (delta * pow10 f < 1)%Q ->
  signed_n (toFixed f x) - 1 <= signed_n (toFixed f y).
Proof.
  intros Hxy Hd. pose proof (pow10_pos f) as Hp.
  pose proof (signed_n_toFixed_near f x) as [_ Hx].
  pose proof (signed_n_toFixed_near f y) as [Hy _].
  assert (H : (x * pow10 f - delta * pow10 f <= y * pow10 f)%Q).
  { assert (E : (x * pow10 f - delta * pow10 f
                 == (x - delta) * pow10 f)%Q) by ring.
    rewrite E. apply Qmult_le_compat_r; lra. }
  assert (Hlt : (inject_Z (signed_n (toFixed f x) + -2)
                 < inject_Z (signed_n (toFixed f y)))%Q).
  { rewrite inject_Z_plus. change (inject_Z (-2)) with (-2)%Q. lra. }
  rewrite <- Zlt_Qlt in Hlt. lia.
Qed.

Lemma signed_n_toFixed_above f x y delta :
  (y <= x + delta)%Q -> (delta * pow10 f < 1)%Q ->
  signed_n (toFixed f y) <= signed_n (toFixed f x) + 1.
Proof.
  intros Hxy Hd. pose proof (pow10_pos f) as Hp.
  pose proof (signed_n_toFixed_near f x) as [Hx _].
  pose proof (signed_n_toFixed_near f y) as [_ Hy].
  assert (H : (y * pow10 f <= x * pow10 f + delta * pow10 f)%Q).
  { assert (E : (x * pow10 f + delta * pow10 f
                 == (x + delta) * pow10 f)%Q) by ring.
    rewrite E. apply Qmult_le_compat_r; lra. }
  assert (Hlt : (inject_Z (signed_n (toFixed f y))
                 < inject_Z (signed_n (toFixed f x) + 2))%Q).
  { rewrite inject_Z_plus. change (inject_Z 2) with 2%Q. lra. }
  rewrite <- Zlt_Qlt in Hlt. lia.
Qed.

Lemma Fixed_value_toFixed_step f x y :
  signed_n (toFixed f x) <= signed_n (toFixed f y) + 1 ->
  (Fixed_value (toFixed f x) <= Fixed_value (toFixed f y) + 1 / pow10 f)%Q.
Proof.
  intros H. pose proof (pow10_pos f) as Hp.
  rewrite !Fixed_value_signed. cbn [toFixed fx_digits].
  rewrite Zle_Qle, inject_Z_plus in H.
  change (inject_Z 1) with 1%Q in H.
  assert (E : (inject_Z (signed_n (toFixed f y)) / pow10 f + 1 / pow10 f
               == (inject_Z (signed_n (toFixed f y)) + 1) / pow10 f)%Q)
    by (field; lra).
  rewrite E. apply Qmult_le_compat_r; [exact H|].
  apply Qlt_le_weak, Qinv_lt_0_compat, Hp.
Qed.

(** ** Dashboard: averages *)

Lemma stats_computeAnalytics m d0 ds a :
  Dashboard.computeAnalytics (d0 :: ds) = Some a ->
  Dashboard.analytics_of m a
  = Dashboard.metric_stats (metric_digits m) (metric_value m d0)
      (map (metric_value m) ds).
Proof. intros [= <-]. destruct m; reflexivity. Qed.

Lemma Qabs_between lo hi x :
  (lo <= x <= hi)%Q -> (Qabs x <= Qmax (Qabs lo) (Qabs hi))%Q.
Proof.
  intros [Hlo Hhi].
  pose proof (Q.le_max_l (Qabs lo) (Qabs hi)) as Hl.
  pose proof (Q.le_max_r (Qabs lo) (Qabs hi)) as Hr.
  pose proof (Qle_Qabs hi) as Hh.
  pose proof (Qle_Qabs (- lo)) as Hn. rewrite Qabs_opp in Hn.
  apply Qabs_Qle_condition. split; lra.
Qed.

Lemma metric_digits_le m : (pow10 (metric_digits m) <= 10)%Q.
Proof. destruct m; vm_compute; discriminate. Qed.

(** The mean of a non-empty column as [calculateAnalytics] computes it
    lies between the least and the greatest value, up to the rounding
    slack. *)
Lemma mean_within_slack x0 rest :
  let lo := Math_min x0 rest in
  let hi := Math_max x0 rest in
  let delta :=
    rounding_slack (length (x0 :: rest)) (Qmax (Qabs lo) (Qabs hi)) in
  (lo - delta <= Dashboard.mean (x0 :: rest) <= hi + delta)%Q.
Proof.
  intros lo hi delta.
  destruct (Math_min_spec x0 rest) as [_ Hmin].
  destruct (Math_max_spec x0 rest) as [_ Hmax].
  assert (Hb : forall x, x ∈ x0 :: rest -> (lo <= x <= hi)%Q)
    by (intros x Hx; split; [apply Hmin | apply Hmax]; exact Hx).
  pose proof (mean_bounds lo hi x0 rest Hb) as [Hlo Hhi].
  assert (Hall : Forall (fun x => (Qabs x <= Qmax (Qabs lo) (Qabs hi))%Q)
                   (x0 :: rest)).
  { apply Forall_forall. intros x Hx. apply Qabs_between, Hb, Hx. }
  pose proof (mean_error _ x0 rest Hall) as He. fold delta in He.
  apply Qabs_Qle_condition in He. split; lra.
Qed.

(** C4 (as amended). For a non-empty buffer and every metric: the
    snapshot's minimum and maximum are the least and the greatest
    buffered value, written with the metric's digits, and the minimum
    is at most the maximum. The snapshot's average is the mean as
    double arithmetic gives it (the sum taken from the left, every
    addition and the division rounded to the nearest double), written
    with the same digits. That mean lies within the rounding slack of
    the column from the exact mean, and so between the least and the
    greatest value up to that slack; whenever the
    slack is less than a unit of the last digit written, as it is for a
    buffer of at most 50 readings of magnitude up to [10^9], the
    average shown lies between the minimum and the maximum shown up to
    one such unit. Three readings with temperatures 20, 22 and 25 give
    the average "22.3". *)
Theorem average_within_extrema :
  (forall (m : Metric) (d0 : Reading) (ds : list Reading),
      exists a,
        Dashboard.computeAnalytics (d0 :: ds) = Some a
        /\ let xs := map (metric_value m) (d0 :: ds) in
           let f := metric_digits m in
           let lo := Math_min (metric_value m d0)
                       (map (metric_value m) ds) in
           let hi := Math_max (metric_value m d0)
                       (map (metric_value m) ds) in
           let s := Dashboard.analytics_of m a in
           let delta :=
             rounding_slack (length xs) (Qmax (Qabs lo) (Qabs hi)) in
           (lo ∈ xs) /\ (hi ∈ xs)
           /\ (forall x, x ∈ xs -> (lo <= x <= hi)%Q)
           /\ Dashboard.min s = toFixed f lo
           /\ Dashboard.max s = toFixed f hi
           /\ Dashboard.avg s = toFixed f (Dashboard.mean xs)
           /\ (Fixed_value (Dashboard.min s)
               <= Fixed_value (Dashboard.max s))%Q
           /\ (Qabs (Dashboard.mean xs - exact_mean xs) <= delta)%Q
           /\ (lo - delta <= Dashboard.mean xs <= hi + delta)%Q
           /\ ((delta * pow10 f < 1)%Q ->
               (Fixed_value (Dashboard.min s) - 1 / pow10 f
                <= Fixed_value (Dashboard.avg s)
                <= Fixed_value (Dashboard.max s) + 1 / pow10 f)%Q)
           /\ ((length xs <= 50)%nat ->
               (Qabs lo <= inject_Z (10 ^ 9))%Q ->
               (Qabs hi <= inject_Z (10 ^ 9))%Q ->
               (delta * pow10 f < 1)%Q))
  /\ (exists a,
        Dashboard.computeAnalytics
          (map reading_with_temperature [20; 22; 25]%Q) = Some a
        /\ Fixed_to_string (Dashboard.avg (Dashboard.an_temperature a))
           = "22.3").
Proof.
  split.
  - intros m d0 ds.
    destruct (Dashboard.computeAnalytics (d0 :: ds)) as [a|] eqn:Ha;
      [|discriminate].
    exists a. split; [reflexivity|].
    rewrite (stats_computeAnalytics m d0 ds a Ha).
    cbn [map Dashboard.metric_stats Dashboard.min Dashboard.max
         Dashboard.avg].
    set (x0 := metric_value m d0). set (rest := map (metric_value m) ds).
    destruct (Math_min_spec x0 rest) as [Hmin_in Hmin].
    destruct (Math_max_spec x0 rest) as [Hmax_in Hmax].
    assert (Hb : forall x,
               x ∈ x0 :: rest ->
               (Math_min x0 rest <= x <= Math_max x0 rest)%Q)
      by (intros x Hx; split; [apply Hmin | apply Hmax]; exact Hx).
    pose proof (mean_within_slack x0 rest) as [Hlo Hhi].
    cbv zeta in Hlo, Hhi.
    set (delta := rounding_slack (length (x0 :: rest))
                    (Qmax (Qabs (Math_min x0 rest))
                       (Qabs (Math_max x0 rest)))) in *.
    split; [exact Hmin_in|]. split; [exact Hmax_in|].
    split; [exact Hb|]. do 3 (split; [reflexivity|]).
    split; [apply toFixed_mono, Hmax, Hmin_in|].
    split.
    { apply mean_error, Forall_forall. intros x Hx.
      apply Qabs_between, Hb, Hx. }
    split; [split; assumption|].
    split.
    + intros Hd. pose proof (pow10_pos (metric_digits m)) as Hp. split.
      * pose proof (signed_n_toFixed_below _ _ _ _ Hlo Hd) as H.
        assert (H' : signed_n (toFixed (metric_digits m) (Math_min x0 rest))
                     <= signed_n (toFixed (metric_digits m)
                                    (Dashboard.mean (x0 :: rest))) + 1)
          by lia.
        apply Fixed_value_toFixed_step in H'. lra.
      * apply Fixed_value_toFixed_step.
        apply (signed_n_toFixed_above _ _ _ _ Hhi Hd).
    + intros Hlen Hl Hh.
      assert (HM : (0 <= Qmax (Qabs (Math_min x0 rest))
                          (Qabs (Math_max x0 rest))
                    <= inject_Z (10 ^ 9))%Q).
      { split.
        - eapply Qle_trans; [apply Qabs_nonneg | apply Q.le_max_l].
        - apply Q.max_lub; assumption. }
      pose proof (rounding_slack_small _ _ Hlen HM) as Hs. fold delta in Hs.
      pose proof (rounding_slack_nonneg (length (x0 :: rest)) _ (proj1 HM))
        as H0. fold delta in H0.
      pose proof (metric_digits_le m) as Hp.
      pose proof (pow10_pos (metric_digits m)) as Hp0.
      assert (H : (delta * pow10 (metric_digits m)
                   <= (1 # 100000) * 10)%Q).
      { eapply Qle_trans;
          [apply Qmult_le_compat_r; [apply Qlt_le_weak, Hs | lra]|].
        apply Qmult_le_compat_l'; [lra | exact Hp]. }
      lra.
  - eexists. split; [reflexivity|]. vm_compute. reflexivity.
Qed.

(** A buffer of six readings of 11.05 degrees: the slack is below a
    tenth, so the average shown is within a tenth of the minimum
    shown. *)
Lemma average_within_extrema_witness :
  exists a,
    Dashboard.computeAnalytics six_readings_of_11_05 = Some a
    /\ let s := Dashboard.an_temperature a in
       (Fixed_value (Dashboard.min s) - 1 / pow10 1
        <= Fixed_value (Dashboard.avg s)
        <= Fixed_value (Dashboard.max s) + 1 / pow10 1)%Q.
Proof.
  destruct average_within_extrema as [H _].
  destruct (H Temperature (reading_with_temperature eleven_05)
              (repeat (reading_with_temperature eleven_05) 5))
    as (a & Ha & _ & _ & _ & _ & _ & _ & _ & _ & _ & Hshown & Hsmall).
  exists a. split; [exact Ha|].
  apply Hshown, Hsmall.
  - cbn. lia.
  - vm_compute. discriminate.
  - vm_compute. discriminate.
Defined.

(** [RN] against the hardware: on the sample operands the sum and the
    quotient of two primitive floats denote what [num_add] and [num_div]
    give on what the operands denote. *)
Example RN_agrees_with_binary64 :
  forallb (fun p => Binary64.agrees PrimFloat.add num_add (fst p) (snd p)
                    && Binary64.agrees PrimFloat.div num_div (fst p) (snd p))
    (list_prod Binary64.samples Binary64.samples) = true.
Proof. vm_compute. reflexivity. Qed.

Example binary64_11_05 :
  Qred <$> Binary64.exact Binary64.d11_05 = Some eleven_05.
Proof. vm_compute. reflexivity. Qed.

Example binary64_scenario :
  Fixed_to_string
    <$> Binary64.avg Binary64.of_20_22_25
  = Some "22.3".
Proof. vm_compute. reflexivity. Qed.

(** C4 (as stated) fails: for six buffered readings of 11.05 degrees
    the computed mean is 11.049999999999999, below the least buffered
    value, and the snapshot shows the average "11.0" next to the
    minimum and maximum "11.1". The primitive floats give the same
    mean and the same three texts. *)
Lemma binary64_average_below_minimum :
  (exists a,
      Dashboard.computeAnalytics six_readings_of_11_05 = Some a
      /\ let s := Dashboard.an_temperature a in
         Fixed_to_string (Dashboard.avg s) = "11.0"
         /\ Fixed_to_string (Dashboard.min s) = "11.1"
         /\ Fixed_to_string (Dashboard.max s) = "11.1"
         /\ (Fixed_value (Dashboard.avg s) < Fixed_value (Dashboard.min s))%Q
         /\ (Dashboard.mean (repeat eleven_05 6) < eleven_05)%Q
         /\ Runtime.Number_toString (Dashboard.mean (repeat eleven_05 6))
            = "11.049999999999999")
  /\ Qred <$> Binary64.exact (Binary64.mean (repeat Binary64.d11_05 6))
     = Some (Dashboard.mean (repeat eleven_05 6))
  /\ PrimFloat.ltb (Binary64.mean (repeat Binary64.d11_05 6))
       (Binary64.Math_min Binary64.d11_05 (repeat Binary64.d11_05 5)) = true
  /\ Fixed_to_string <$> Binary64.avg Binary64.six_of_11_05 = Some "11.0"
  /\ Fixed_to_string <$> Binary64.min Binary64.six_of_11_05 = Some "11.1"
  /\ Fixed_to_string <$> Binary64.max Binary64.six_of_11_05 = Some "11.1".
Proof.
  split.
  - eexists. split; [reflexivity|]. cbv zeta.
    repeat (split; [vm_compute; reflexivity|]). vm_compute. reflexivity.
  - repeat (split; [vm_compute; reflexivity|]). vm_compute. reflexivity.
Qed.

(** ** Status classification *)

(** Decides every [num_lt] and [num_gt] test of the goal and turns the
    outcome into an inequality. *)
Ltac num_cases :=
  repeat match goal with
  | |- context [num_lt ?x ?y] =>
      let H := fresh "Hlt" in
      destruct (num_lt x y) eqn:H;
      [apply num_lt_spec in H | apply num_lt_false in H]
  | |- context [num_gt ?x ?y] =>
      let H := fresh "Hgt" in
      destruct (num_gt x y) eqn:H;
      [apply num_gt_spec in H | apply num_gt_false in H]
  end;
  cbn [orb andb negb].

Ltac num_solve :=
  num_cases;
  repeat split; intros;
  repeat match goal with
         | H : _ /\ _ |- _ => destruct H
         | H : _ \/ _ |- _ => destruct H
         end;
  try discriminate; try congruence; try reflexivity;
  try lra;
  try (left; lra); try (right; lra).

Lemma classify_temperature_spec t :
  (Classifier.classify_temperature t = critical <-> (t < 5 \/ 40 < t)%Q)
  /\ (Classifier.classify_temperature t = warning
      <-> ((5 <= t <= 40) /\ (t < 10 \/ 35 < t))%Q)
  /\ (Classifier.classify_temperature t = optimal <-> (10 <= t <= 35)%Q).
Proof. unfold Classifier.classify_temperature. num_solve. Qed.

Lemma classify_soil_moisture_spec m :
  (Classifier.classify_soil_moisture m = warning <-> (m < 30 \/ 80 < m)%Q)
  /\ (Classifier.classify_soil_moisture m = optimal <-> (30 <= m <= 80)%Q).
Proof. unfold Classifier.classify_soil_moisture. num_solve. Qed.

Lemma classify_spec d :
  (Classifier.classify d = critical
   <-> (temperature d < 5 \/ 40 < temperature d)%Q)
  /\ (Classifier.classify d = optimal
      <-> ((10 <= temperature d <= 35) /\ (30 <= soil_moisture d <= 80))%Q).
Proof.
  unfold Classifier.classify, Classifier.classify_temperature,
    Classifier.classify_soil_moisture.
  num_solve.
Qed.

(** The front end draws the temperature line of the alert banner exactly
    when the temperature is not optimal, and a moisture line exactly
    when the soil moisture is a warning. *)
Lemma banner_lines_agree d :
  (Dashboard.temperatureLine d = true
   <-> Classifier.classify_temperature (temperature d) <> optimal)
  /\ (Dashboard.moistureLowLine d || Dashboard.moistureHighLine d = true
      <-> Classifier.classify_soil_moisture (soil_moisture d) = warning).
Proof.
  unfold Dashboard.temperatureLine, Dashboard.moistureLowLine,
    Dashboard.moistureHighLine, Classifier.classify_temperature,
    Classifier.classify_soil_moisture.
  num_solve.
Qed.

(** [getStatusColor] paints a soil moisture yellow exactly when it is a
    warning. *)
Lemma getStatusColor_soil_moisture m :
  SensorPanel.getStatusColor m "soil_moisture" = "text-yellow-600"
  <-> Classifier.classify_soil_moisture m = warning.
Proof.
  unfold SensorPanel.getStatusColor, Classifier.classify_soil_moisture.
  cbn [String.eqb Ascii.eqb Bool.eqb]. num_solve.
Qed.

(** [getStatusColor] has cut-offs of its own for the temperature: red
    below 10 or above 35, yellow from 10 to below 15 and above 30 up to
    35, green from 15 to 30. *)
Lemma getStatusColor_temperature t :
  (SensorPanel.getStatusColor t "temperature" = "text-red-600"
   <-> (t < 10 \/ 35 < t)%Q)
  /\ (SensorPanel.getStatusColor t "temperature" = "text-yellow-600"
      <-> ((10 <= t <= 35) /\ (t < 15 \/ 30 < t))%Q)
  /\ (SensorPanel.getStatusColor t "temperature" = "text-green-600"
      <-> (15 <= t <= 30)%Q).
Proof.
  unfold SensorPanel.getStatusColor.
  cbn [String.eqb Ascii.eqb Bool.eqb]. num_solve.
Qed.

(** C3. The status thresholds: a temperature is critical below 5 or
    above 40, a warning below 10 or above 35 when not critical, and
    optimal otherwise; a soil moisture is a warning below 30 or above
    80. A soil moisture of 25 is a warning, and a reading that carries
    it is classified warning unless its temperature is critical. The
    lines of the front end's alert banner and the colour of the soil
    moisture value use the same warning thresholds. *)
Theorem classify_thresholds :
  (forall t,
      (Classifier.classify_temperature t = critical
       <-> (t < 5 \/ 40 < t)%Q)
      /\ (Classifier.classify_temperature t = warning
          <-> ((5 <= t <= 40) /\ (t < 10 \/ 35 < t))%Q)
      /\ (Classifier.classify_temperature t = optimal
          <-> (10 <= t <= 35)%Q))
  /\ (forall m,
      (Classifier.classify_soil_moisture m = warning
       <-> (m < 30 \/ 80 < m)%Q)
      /\ (Classifier.classify_soil_moisture m = optimal
          <-> (30 <= m <= 80)%Q))
  /\ (forall d,
      (soil_moisture d == 25)%Q ->
      Classifier.classify_soil_moisture (soil_moisture d) = warning
      /\ ((5 <= temperature d <= 40)%Q -> Classifier.classify d = warning))
  /\ (forall d,
      (Dashboard.temperatureLine d = true
       <-> Classifier.classify_temperature (temperature d) <> optimal)
      /\ (Dashboard.moistureLowLine d || Dashboard.moistureHighLine d = true
          <-> Classifier.classify_soil_moisture (soil_moisture d) = warning)
      /\ (SensorPanel.getStatusColor (soil_moisture d) "soil_moisture"
          = "text-yellow-600"
          <-> Classifier.classify_soil_moisture (soil_moisture d)
              = warning)).
Proof.
  split; [exact classify_temperature_spec|].
  split; [exact classify_soil_moisture_spec|].
  split.
  - intros d Hm. split.
    + apply classify_soil_moisture_spec. left. lra.
    + intros Ht.
      unfold Classifier.classify, Classifier.classify_temperature,
        Classifier.classify_soil_moisture.
      num_solve.
  - intros d. split; [apply banner_lines_agree|].
    split; [apply banner_lines_agree | apply getStatusColor_soil_moisture].
Qed.

Lemma classify_thresholds_witness :
  Classifier.classify (reading_with 22 25) = warning.
Proof.
  destruct classify_thresholds as (_ & _ & H & _).
  destruct (H (reading_with 22 25)) as [_ Hw].
  - reflexivity.
  - apply Hw. split; discriminate.
Defined.

(** ** Strings: joining and splitting *)

Section SplitJoin.
Import CsvReader Dashboard.
Variable sep : ascii.

Lemma append_nil_l (s : string) : EmptyString +:+ s = s.
Proof. reflexivity. Qed.

Lemma append_cons a (s t : string) : String a s +:+ t = String a (s +:+ t).
Proof. reflexivity. Qed.

Lemma split_on_nonempty s : split_on sep s <> [].
Proof.
  destruct s as [|c s]; cbn [split_on]; [discriminate|].
  destruct (Ascii.eqb c sep); [discriminate|].
  destruct (split_on sep s); discriminate.
Qed.

Lemma split_on_plain s :
  contains sep s = false -> split_on sep s = [s].
Proof.
  induction s as [|c s IH]; cbn [contains split_on]; [reflexivity|].
  intros [Hc Hs]%orb_false_elim. rewrite Hc, (IH Hs). reflexivity.
Qed.

Lemma split_on_app s t :
  contains sep s = false ->
  split_on sep (s +:+ String sep t) = s :: split_on sep t.
Proof.
  induction s as [|c s IH]; rewrite ?append_nil_l, ?append_cons;
    cbn [contains split_on].
  - intros _. rewrite Ascii.eqb_refl. reflexivity.
  - intros [Hc Hs]%orb_false_elim. rewrite Hc, (IH Hs). reflexivity.
Qed.

Lemma split_on_join cells :
  cells <> [] ->
  Forall (fun cell => contains sep cell = false) cells ->
  split_on sep (join sep cells) = cells.
Proof.
  intros Hne Hall. induction Hall as [|cell rest Hcell Hrest IH];
    [contradiction|].
  destruct rest as [|cell' rest].
  - cbn [join]. apply split_on_plain, Hcell.
  - change (join sep (cell :: cell' :: rest))
      with (cell +:+ String sep (join sep (cell' :: rest))).
    rewrite (split_on_app _ _ Hcell), IH by discriminate. reflexivity.
Qed.

Lemma contains_app c s t :
  contains c (s +:+ t) = contains c s || contains c t.
Proof.
  induction s as [|a s IH]; rewrite ?append_nil_l, ?append_cons;
    cbn [contains]; [reflexivity|].
  rewrite IH, orb_assoc. reflexivity.
Qed.

(** Joining cells that lack [c] with a separator other than [c] gives
    a text that lacks [c]. *)
Lemma contains_join c cells :
  Ascii.eqb sep c = false ->
  Forall (fun cell => contains c cell = false) cells ->
  contains c (join sep cells) = false.
Proof.
  intros Hsep Hall. induction Hall as [|cell rest Hcell Hrest IH];
    [reflexivity|].
  destruct rest as [|cell' rest]; [exact Hcell|].
  change (join sep (cell :: cell' :: rest))
    with (cell +:+ String sep (join sep (cell' :: rest))).
  rewrite contains_app, Hcell. cbn [contains orb].
  rewrite Hsep, IH. reflexivity.
Qed.
End SplitJoin.

(** ** Numbers: the text of a number *)

Section NumberText.
Import CsvReader Runtime.

Lemma length_append (s t : string) :
  String.length (s +:+ t) = (String.length s + String.length t)%nat.
Proof.
  induction s as [|a s IH]; [reflexivity|].
  rewrite append_cons. cbn [String.length]. rewrite IH. reflexivity.
Qed.

(** *** Digits *)

Lemma digit_cases d (P : Z -> Prop) :
  0 <= d < 10 ->
  P 0 -> P 1 -> P 2 -> P 3 -> P 4 -> P 5 -> P 6 -> P 7 -> P 8 -> P 9 ->
  P d.
Proof.
  intros Hd. intros.
  assert (H' : d = 0 \/ d = 1 \/ d = 2 \/ d = 3 \/ d = 4 \/ d = 5 \/ d = 6
               \/ d = 7 \/ d = 8 \/ d = 9) by lia.
  repeat (destruct H' as [-> | H']; [assumption|]). subst d. assumption.
Qed.

Lemma digit_value_digit d : 0 <= d < 10 -> digit_value (digit d) = Some d.
Proof.
  intros Hd. pattern d. apply digit_cases; [exact Hd|..]; reflexivity.
Qed.

Ltac no_digit :=
  intros d Hd; pattern d; apply digit_cases; [exact Hd|..]; reflexivity.

Lemma no_digit_point : no_digit ".".
Proof. no_digit. Qed.
Lemma no_digit_e : no_digit "e".
Proof. no_digit. Qed.
Lemma no_digit_minus : no_digit "-".
Proof. no_digit. Qed.
Lemma no_digit_comma : no_digit Dashboard.comma.
Proof. no_digit. Qed.
Lemma no_digit_newline : no_digit Dashboard.newline.
Proof. no_digit. Qed.

Lemma mod10_digit n : 0 <= n mod 10 < 10.
Proof. apply Z.mod_pos_bound. lia. Qed.

Lemma contains_fixed_width c w n :
  no_digit c -> contains c (fixed_width w n) = false.
Proof.
  intros Hc. revert n. induction w as [|w IH]; intros n; [reflexivity|].
  cbn [fixed_width]. rewrite contains_app, IH. cbn [contains orb].
  rewrite (Hc _ (mod10_digit n)). reflexivity.
Qed.

Lemma length_fixed_width w n : String.length (fixed_width w n) = w.
Proof.
  revert n. induction w as [|w IH]; intros n; [reflexivity|].
  cbn [fixed_width]. rewrite length_append, IH. cbn [String.length]. lia.
Qed.

Lemma digits_value_app acc s t :
  digits_value acc (s +:+ t) = digits_value acc s ≫= fun a => digits_value a t.
Proof.
  revert acc. induction s as [|c s IH]; intros acc; [reflexivity|].
  rewrite append_cons. cbn [digits_value].
  destruct (digit_value c) as [d|]; [|reflexivity]. cbn. apply IH.
Qed.

Lemma digits_value_fixed_width w : forall acc n,
  0 <= n ->
  digits_value acc (fixed_width w n)
  = Some (acc * 10 ^ Z.of_nat w + n mod 10 ^ Z.of_nat w).
Proof.
  induction w as [|w IH]; intros acc n Hn.
  - cbn [fixed_width digits_value]. change (10 ^ Z.of_nat 0) with 1.
    rewrite Z.mod_1_r. f_equal. lia.
  - cbn [fixed_width]. rewrite digits_value_app, IH
      by (apply Z.div_pos; lia).
    cbn [mbind option_bind digits_value].
    rewrite (digit_value_digit _ (mod10_digit n)). cbn. f_equal.
    rewrite Nat2Z.inj_succ, Z.pow_succ_r by lia.
    rewrite (Z.rem_mul_r n 10 (10 ^ Z.of_nat w)) by lia. lia.
Qed.

Lemma count_digits_from_spec fuel : forall w n,
  n < 10 ^ Z.of_nat (w + fuel) ->
  n < 10 ^ Z.of_nat (count_digits_from fuel w n).
Proof.
  induction fuel as [|fuel IH]; intros w n Hn; cbn [count_digits_from].
  - rewrite Nat.add_0_r in Hn. exact Hn.
  - destruct (n <? 10 ^ Z.of_nat w)%Z eqn:Hw; [apply Z.ltb_lt, Hw|].
    apply IH. replace (S w + fuel)%nat with (w + S fuel)%nat by lia.
    exact Hn.
Qed.

Lemma count_digits_from_ge fuel : forall w n,
  (w <= count_digits_from fuel w n)%nat.
Proof.
  induction fuel as [|fuel IH]; intros w n; cbn [count_digits_from];
    [lia|].
  destruct (n <? 10 ^ Z.of_nat w)%Z; [lia|]. specialize (IH (S w) n). lia.
Qed.

Lemma count_digits_spec n : 0 <= n -> n < 10 ^ Z.of_nat (count_digits n).
Proof.
  intros Hn. unfold count_digits. apply count_digits_from_spec.
  destruct (Z.eq_dec n 0) as [-> | Hne].
  - apply Z.pow_pos_nonneg; lia.
  - pose proof (Z.log2_spec n ltac:(lia)) as [_ Hlt].
    pose proof (Z.log2_nonneg n) as Hl.
    replace (Z.of_nat (1 + (Z.to_nat (Z.log2 n) + 1)))
      with (Z.succ (Z.log2 n) + 1) by lia.
    eapply Z.lt_le_trans; [exact Hlt|].
    transitivity (2 ^ (Z.succ (Z.log2 n) + 1)).
    + apply Z.pow_le_mono_r; lia.
    + apply Z.pow_le_mono_l; lia.
Qed.

Lemma count_digits_pos n : (1 <= count_digits n)%nat.
Proof. apply count_digits_from_ge. Qed.

Lemma digits_value_print_nat n :
  0 <= n -> digits_value 0 (print_nat n) = Some n.
Proof.
  intros Hn. unfold print_nat. rewrite digits_value_fixed_width by exact Hn.
  f_equal. rewrite Z.mod_small; [lia|].
  split; [exact Hn | apply count_digits_spec, Hn].
Qed.

Lemma contains_print_nat c n : no_digit c -> contains c (print_nat n) = false.
Proof. apply contains_fixed_width. Qed.

Lemma fixed_width_head w n :
  exists d rest, 0 <= d < 10 /\ fixed_width (S w) n = String (digit d) rest.
Proof.
  revert n. induction w as [|w IH]; intros n.
  - exists (n mod 10), EmptyString. split; [apply mod10_digit | reflexivity].
  - destruct (IH (n / 10)) as (d & rest & Hd & E).
    exists d, (rest +:+ String (digit (n mod 10)) EmptyString).
    split; [exact Hd|].
    change (fixed_width (S (S w)) n)
      with (fixed_width (S w) (n / 10)
            +:+ String (digit (n mod 10)) EmptyString).
    rewrite E. reflexivity.
Qed.

Lemma print_nat_head n :
  exists d rest, 0 <= d < 10 /\ print_nat n = String (digit d) rest.
Proof.
  unfold print_nat. pose proof (count_digits_pos n) as Hk.
  destruct (count_digits n) as [|w]; [lia|]. apply fixed_width_head.
Qed.

Lemma eqb_empty_head c s : String.eqb (String c s) EmptyString = false.
Proof. reflexivity. Qed.

(** *** The text of a decimal and its value *)

Lemma pow10_inject n : 0 <= n -> (inject_Z (10 ^ n) == 10 ^ n)%Q.
Proof. intros Hn. apply (Zpower_Qpower 10 n Hn). Qed.

Lemma pow10Q_pos e : (0 < 10 ^ e)%Q.
Proof. apply Qpower_0_lt. reflexivity. Qed.

Lemma pow10Q_plus a b : (10 ^ (a + b) == 10 ^ a * 10 ^ b)%Q.
Proof. apply Qpower_plus. discriminate. Qed.

Lemma nonempty_head d rest :
  String.eqb (String d rest) EmptyString = false.
Proof. reflexivity. Qed.

Lemma print_nat_nonempty n : String.eqb (print_nat n) EmptyString = false.
Proof. destruct (print_nat_head n) as (d & rest & _ & ->). reflexivity. Qed.

Lemma fixed_width_nonempty w n :
  (1 <= w)%nat -> String.eqb (fixed_width w n) EmptyString = false.
Proof.
  intros Hw. destruct w as [|w]; [lia|].
  destruct (fixed_width_head w n) as (d & rest & _ & ->). reflexivity.
Qed.

Lemma contains_plain_format c s e :
  no_digit c -> Ascii.eqb "." c = false ->
  contains c (plain_format s e) = false.
Proof.
  intros Hc Hp. unfold plain_format. destruct (0 <=? e)%Z.
  - apply contains_print_nat, Hc.
  - rewrite !contains_app, contains_print_nat, contains_fixed_width
      by exact Hc.
    cbn [contains orb]. rewrite Hp. reflexivity.
Qed.

Lemma plain_format_head s e :
  exists d rest, 0 <= d < 10 /\ plain_format s e = String (digit d) rest.
Proof.
  unfold plain_format. destruct (0 <=? e)%Z; [apply print_nat_head|].
  match goal with |- context [print_nat ?n] =>
    destruct (print_nat_head n) as (d & rest & Hd & ->) end.
  eexists d, _. split; [exact Hd|]. rewrite append_cons. reflexivity.
Qed.

Lemma parse_unsigned_plain_format s e :
  0 <= s ->
  exists v, parse_unsigned (plain_format s e) = Some v
            /\ (v == decimal s e)%Q.
Proof.
  intros Hs. unfold plain_format, decimal.
  destruct (0 <=? e)%Z eqn:He.
  - apply Z.leb_le in He. unfold parse_unsigned.
    rewrite split_on_plain by (apply contains_print_nat, no_digit_point).
    rewrite print_nat_nonempty.
    assert (Hp : 0 < 10 ^ e) by (apply Z.pow_pos_nonneg; lia).
    rewrite digits_value_print_nat by nia.
    eexists. split; [reflexivity|].
    rewrite inject_Z_mult, pow10_inject by exact He. reflexivity.
  - apply Z.leb_gt in He.
    set (w := Z.to_nat (- e)).
    assert (Hw : (1 <= w)%nat) by (unfold w; lia).
    assert (Hp : 0 < 10 ^ Z.of_nat w) by (apply Z.pow_pos_nonneg; lia).
    unfold parse_unsigned.
    change ("." +:+ fixed_width w (s mod 10 ^ Z.of_nat w))
      with (String "." (fixed_width w (s mod 10 ^ Z.of_nat w))).
    rewrite split_on_app by (apply contains_print_nat, no_digit_point).
    rewrite split_on_plain by (apply contains_fixed_width, no_digit_point).
    rewrite print_nat_nonempty, fixed_width_nonempty by exact Hw.
    cbn [orb].
    rewrite digits_value_print_nat by (apply Z.div_pos; lia).
    cbn [mbind option_bind].
    rewrite digits_value_fixed_width
      by (apply Z.mod_pos_bound; exact Hp).
    cbn [mbind option_bind]. rewrite length_fixed_width.
    eexists. split; [reflexivity|].
    rewrite Z.mod_mod by lia. rewrite Z.mul_0_l, Z.add_0_l.
    replace (s / 10 ^ Z.of_nat w * 10 ^ Z.of_nat w + s mod 10 ^ Z.of_nat w)
      with s by (rewrite (Z.div_mod s (10 ^ Z.of_nat w)) at 1; lia).
    rewrite Qmake_Qdiv, Z2Pos.id by exact Hp.
    replace e with (- Z.of_nat w) by (unfold w; lia).
    rewrite Qpower_opp, pow10_inject by lia. reflexivity.
Qed.

Lemma parse_decimal_plain_format s e :
  0 <= s ->
  exists v, parse_decimal (plain_format s e) = Some v
            /\ (v == decimal s e)%Q.
Proof.
  intros Hs. unfold parse_decimal.
  rewrite split_on_plain
    by (apply contains_plain_format; [apply no_digit_e | reflexivity]).
  apply parse_unsigned_plain_format, Hs.
Qed.

Lemma parse_exponent_signed n :
  parse_exponent ((if (0 <=? n)%Z then "+" else "-")
                  +:+ print_nat (Z.abs n))
  = Some n.
Proof.
  destruct (0 <=? n)%Z eqn:Hn.
  - apply Z.leb_le in Hn.
    change ("+" +:+ print_nat (Z.abs n))
      with (String "+" (print_nat (Z.abs n))).
    cbn [parse_exponent]. rewrite print_nat_nonempty.
    rewrite digits_value_print_nat by lia. f_equal. lia.
  - apply Z.leb_gt in Hn.
    change ("-" +:+ print_nat (Z.abs n))
      with (String "-" (print_nat (Z.abs n))).
    cbn [parse_exponent]. rewrite print_nat_nonempty.
    rewrite digits_value_print_nat by lia. cbn. f_equal. lia.
Qed.

Lemma parse_decimal_exponent_format s k n :
  0 <= s -> (1 <= k)%nat ->
  exists v, parse_decimal (exponent_format s k n) = Some v
            /\ (v == decimal s (n - Z.of_nat k))%Q.
Proof.
  intros Hs Hk. unfold exponent_format, parse_decimal.
  set (x := (if (0 <=? n - 1)%Z then "+" else "-")
            +:+ print_nat (Z.abs (n - 1))).
  change (plain_format s (- Z.of_nat (k - 1)) +:+ "e" +:+ x)
    with (plain_format s (- Z.of_nat (k - 1)) +:+ String "e" x).
  rewrite split_on_app
    by (apply contains_plain_format; [apply no_digit_e | reflexivity]).
  rewrite split_on_plain.
  2:{ unfold x. rewrite contains_app, contains_print_nat by apply no_digit_e.
      destruct (0 <=? n - 1)%Z; reflexivity. }
  destruct (parse_unsigned_plain_format s (- Z.of_nat (k - 1)) Hs)
    as (v & -> & Hv).
  cbn [mbind option_bind]. unfold x. rewrite parse_exponent_signed.
  cbn [mbind option_bind]. eexists. split; [reflexivity|].
  rewrite Hv. unfold decimal. rewrite <- Qmult_assoc, <- pow10Q_plus.
  replace (- Z.of_nat (k - 1) + (n - 1)) with (n - Z.of_nat k) by lia.
  reflexivity.
Qed.

(** *** The digits chosen for a number *)

Lemma decimal_strip fuel : forall s e,
  (decimal (fst (strip fuel s e)) (snd (strip fuel s e)) == decimal s e)%Q.
Proof.
  induction fuel as [|fuel IH]; intros s e; cbn [strip]; [reflexivity|].
  destruct (s mod 10 =? 0)%Z eqn:Hm; [|reflexivity].
  apply Z.eqb_eq in Hm. rewrite IH. unfold decimal.
  rewrite pow10Q_plus.
  assert (E : s = 10 * (s / 10))
    by (rewrite (Z.div_mod s 10) at 1; lia).
  rewrite E at 2. rewrite inject_Z_mult.
  change (10 ^ 1)%Q with (inject_Z 10). ring.
Qed.

Lemma strip_nonneg fuel : forall s e, 0 <= s -> 0 <= fst (strip fuel s e).
Proof.
  induction fuel as [|fuel IH]; intros s e Hs; cbn [strip]; [exact Hs|].
  destruct (s mod 10 =? 0)%Z; [|exact Hs].
  apply IH, Z.div_pos; lia.
Qed.

Lemma candidate_spec a n k s e :
  (0 < a)%Q -> candidate a n k = Some (s, e) ->
  (RN (decimal s e) == a)%Q /\ 0 <= s.
Proof.
  intros Ha. unfold candidate.
  set (e' := n - Z.of_nat k). set (lo := Qfloor (a / 10 ^ e')).
  assert (Hlo : 0 <= lo).
  { change 0 with (Qfloor 0). apply Qfloor_resp_le.
    apply Qlt_le_weak, Qlt_shift_div_l; [apply pow10Q_pos | lra]. }
  destruct (Qeq_bool (RN (decimal lo e')) a) eqn:H1,
    (Qeq_bool (RN (decimal (lo + 1) e')) a) eqn:H2;
    try apply Qeq_bool_iff in H1; try apply Qeq_bool_iff in H2.
  - destruct (a - decimal lo e' ?= decimal (lo + 1) e' - a)%Q;
      [destruct (Z.even lo)|..]; intros [= <- <-];
      (split; [assumption | lia]).
  - intros [= <- <-]. split; [assumption | lia].
  - intros [= <- <-]. split; [assumption | lia].
  - discriminate.
Qed.

Lemma first_candidate_spec a n fuel : forall k s e,
  (0 < a)%Q -> first_candidate a n fuel k = Some (s, e) ->
  (RN (decimal s e) == a)%Q /\ 0 <= s.
Proof.
  induction fuel as [|fuel IH]; intros k s e Ha; cbn [first_candidate];
    [discriminate|].
  destruct (candidate a n k) as [[s' e']|] eqn:Hc.
  - intros [= <- <-]. eapply candidate_spec; eassumption.
  - apply IH, Ha.
Qed.

(** A double has at most 1074 fraction digits. *)
Lemma double_exact_digits a :
  is_double a -> (decimal (Qfloor (a * 10 ^ 1074)) (-1074) == a)%Q.
Proof.
  unfold is_double. intros Ha.
  destruct (RN_dyadic a) as (m & c & Hc & E). rewrite Ha in E.
  assert (E10 : (10 ^ 1074 == 2 ^ 1074 * 5 ^ 1074)%Q)
    by (rewrite <- Qmult_power; reflexivity).
  assert (Ez : (a * 10 ^ 1074
                == inject_Z (m * 2 ^ (c + 1074) * 5 ^ 1074))%Q).
  { rewrite !inject_Z_mult, pow2_inject by lia.
    rewrite (Zpower_Qpower 5 1074) by lia.
    rewrite pow2_plus, E10, E. change (inject_Z 5) with 5%Q. ring. }
  unfold decimal. rewrite (Qfloor_comp _ _ Ez), Qfloor_Z, <- Ez.
  rewrite <- Qmult_assoc, <- pow10Q_plus. change (1074 + -1074) with 0.
  change (10 ^ 0)%Q with 1%Q. ring.
Qed.

Lemma shortest_spec a :
  (0 < a)%Q -> is_double a ->
  (RN (decimal (fst (shortest a)) (snd (shortest a))) == a)%Q
  /\ 0 <= fst (shortest a).
Proof.
  intros Ha Hd. unfold shortest.
  destruct (first_candidate a (ilog10 a + 1) 17 1) as [[s e]|] eqn:Hc.
  - destruct (first_candidate_spec _ _ _ _ _ _ Ha Hc) as [Hv Hs].
    split; [|apply strip_nonneg, Hs].
    rewrite (RN_comp _ _ (decimal_strip 17 s e)). exact Hv.
  - split.
    + rewrite (RN_comp _ _ (decimal_strip 1100 _ _)).
      rewrite (RN_comp _ _ (double_exact_digits a Hd)). exact Hd.
    + apply strip_nonneg. change 0 with (Qfloor 0). apply Qfloor_resp_le.
      pose proof (pow10Q_pos 1074) as Hp.
      apply Qlt_le_weak, Qmult_lt_0_compat; assumption.
Qed.

(** *** A number's text reads back to the number *)

Lemma parse_decimal_number_body s e :
  0 <= s ->
  exists v, parse_decimal (number_body s e) = Some v
            /\ (v == decimal s e)%Q.
Proof.
  intros Hs. unfold number_body.
  destruct ((-6 <? _)%Z && _)%bool.
  - apply parse_decimal_plain_format, Hs.
  - destruct (parse_decimal_exponent_format s (count_digits s)
                (Z.of_nat (count_digits s) + e) Hs (count_digits_pos s))
      as (v & Hv & E).
    exists v. split; [exact Hv|]. rewrite E.
    replace (Z.of_nat (count_digits s) + e - Z.of_nat (count_digits s))
      with e by lia.
    reflexivity.
Qed.

Lemma number_body_head s e :
  exists d rest, 0 <= d < 10 /\ number_body s e = String (digit d) rest.
Proof.
  unfold number_body, exponent_format.
  destruct ((-6 <? _)%Z && _)%bool; [apply plain_format_head|].
  match goal with |- context [plain_format ?a ?b] =>
    destruct (plain_format_head a b) as (d & rest & Hd & ->) end.
  eexists d, _. split; [exact Hd|]. rewrite append_cons. reflexivity.
Qed.

Lemma contains_number_body c s e :
  no_digit c -> Ascii.eqb "." c = false -> Ascii.eqb "e" c = false ->
  Ascii.eqb "+" c = false -> Ascii.eqb "-" c = false ->
  contains c (number_body s e) = false.
Proof.
  intros Hc Hp He Hplus Hminus. unfold number_body, exponent_format.
  destruct ((-6 <? _)%Z && _)%bool;
    [apply contains_plain_format; assumption|].
  rewrite !contains_app, contains_plain_format, contains_print_nat
    by assumption.
  cbn [contains orb]. rewrite He.
  destruct (0 <=? _)%Z; cbn [contains orb]; rewrite ?Hplus, ?Hminus;
    reflexivity.
Qed.

Lemma parseFloat_digit_head d rest :
  0 <= d < 10 ->
  parseFloat (String (digit d) rest)
  = RN <$> parse_decimal (String (digit d) rest).
Proof.
  intros Hd. pattern d. apply digit_cases; [exact Hd|..]; reflexivity.
Qed.

Lemma Number_toString_reads_back x :
  is_double x -> reads_back Number_toString parseFloat x.
Proof.
  intros Hd. unfold reads_back, Number_toString.
  destruct (Qeq_bool x 0) eqn:H0.
  - apply Qeq_bool_iff in H0. split; [reflexivity|].
    exists 0%Q. split; [reflexivity | symmetry; exact H0].
  - apply Qeq_bool_neq in H0.
    pose proof (Qabs_pos_neq x H0) as Ha.
    destruct (shortest_spec (Qabs x) Ha (is_double_abs x Hd)) as [Hv Hs].
    set (s := fst (shortest (Qabs x))) in *.
    set (e := snd (shortest (Qabs x))) in *.
    clearbody s e.
    destruct (parse_decimal_number_body s e Hs) as (v & Hp & Ev).
    rewrite <- (RN_comp _ _ Ev) in Hv.
    split.
    + assert (Hc : contains Dashboard.comma (number_body s e) = false)
        by (apply contains_number_body;
            [apply no_digit_comma | reflexivity..]).
      assert (Hn : contains Dashboard.newline (number_body s e) = false)
        by (apply contains_number_body;
            [apply no_digit_newline | reflexivity..]).
      unfold plain. rewrite !contains_app, Hc, Hn.
      destruct (num_lt x 0); reflexivity.
    + destruct (num_lt x 0) eqn:Hx.
      * apply num_lt_spec in Hx.
        change ("-" +:+ number_body s e) with (String "-" (number_body s e)).
        cbn [parseFloat]. rewrite Hp. eexists. split; [reflexivity|].
        cbn beta. rewrite Hv, Qabs_neg by lra. ring.
      * apply num_lt_false in Hx. rewrite append_nil_l.
        destruct (number_body_head s e) as (d & rest & Hdg & E).
        rewrite E, (parseFloat_digit_head d rest Hdg), <- E, Hp.
        eexists. split; [reflexivity|].
        rewrite Hv. apply Qabs_pos, Hx.
Qed.
End NumberText.

(** ** Dashboard: the CSV export *)

Section CsvExport.
Import CsvReader Dashboard.
Variable toLocaleString : Z -> string.
Variable Number_toString : Q -> string.

Lemma headers_lack_newline :
  Forall (fun cell => contains newline cell = false) headers.
Proof. repeat constructor. Qed.

Lemma headers_lack_comma :
  Forall (fun cell => contains comma cell = false) headers.
Proof. repeat constructor. Qed.

Lemma lines_lack_newline (table : list (list string)) :
  Forall (Forall (fun cell => contains newline cell = false)) table ->
  Forall (fun line => contains newline line = false)
    (map (join comma) table).
Proof.
  intros Hall. apply Forall_fmap. eapply Forall_impl; [exact Hall|].
  intros cells Hcells. apply contains_join; [reflexivity | exact Hcells].
Qed.

Lemma plain_spec cell :
  plain cell = true ->
  contains comma cell = false /\ contains newline cell = false.
Proof.
  unfold plain. rewrite andb_true_iff, !negb_true_iff. tauto.
Qed.

Lemma Status_to_string_plain s : plain (Status_to_string s) = true.
Proof. destruct s; reflexivity. Qed.



End CsvExport.



(** ** Dashboard: reading the export back *)

Section RoundTrip.
Import CsvReader Dashboard.
Variable toLocaleString : Z -> string.

Lemma row_plain h :
  date_is_plain toLocaleString h -> numbers_are_doubles h ->
  Forall (fun cell => plain cell = true)
    (row toLocaleString Runtime.Number_toString h).
Proof.
  intros Hd (Ht & Hh & Hm & Hs).
  apply Number_toString_reads_back in Ht as [Ht _], Hh as [Hh _],
    Hm as [Hm _], Hs as [Hs _].
  unfold row. repeat constructor; try assumption.
  apply Status_to_string_plain.
Qed.

Lemma row_reads_back h :
  date_is_plain toLocaleString h -> numbers_are_doubles h ->
  exists y,
    parseRow Runtime.parseFloat
      (split_on comma
         (join comma (row toLocaleString Runtime.Number_toString h)))
    = Some y
    /\ Numbers_eq y (numbers_of h).
Proof.
  intros Hd Hn. pose proof (row_plain h Hd Hn) as Hplain.
  rewrite split_on_join.
  - destruct Hn as (Ht & Hh & Hm & Hs).
    apply Number_toString_reads_back in Ht as [_ (t & Ht & Et)],
      Hh as [_ (u & Hu & Eu)], Hm as [_ (m & Hm & Em)],
      Hs as [_ (s & Hs & Es)].
    exists (t, u, m, s). split.
    + unfold parseRow, row. cbn [lookup list_lookup mbind option_bind].
      rewrite Ht, Hu, Hm, Hs. reflexivity.
    + unfold Numbers_eq, numbers_of. tauto.
  - discriminate.
  - eapply Forall_impl; [exact Hplain|].
    intros cell Hc. apply plain_spec, Hc.
Qed.

Lemma rows_read_back history :
  Forall (fun h => date_is_plain toLocaleString h /\ numbers_are_doubles h)
    history ->
  exists parsed,
    mapM (fun line => parseRow Runtime.parseFloat (split_on comma line))
      (map (join comma) (rows toLocaleString Runtime.Number_toString history))
    = Some parsed
    /\ Forall2 Numbers_eq parsed (map numbers_of history).
Proof.
  induction 1 as [|h hs [Hd Hn] Hhs (parsed & Hparsed & Heq)].
  - exists []. split; [reflexivity | constructor].
  - destruct (row_reads_back h Hd Hn) as (y & Hy & Ey).
    exists (y :: parsed). split; [|constructor; assumption].
    unfold rows. cbn [map mapM].
    fold (rows toLocaleString Runtime.Number_toString hs).
    rewrite Hy. cbn [mbind option_bind]. rewrite Hparsed. reflexivity.
Qed.

(** C6 (as amended). When the date text of every buffered reading
    holds no comma and no line break, parsing the exported CSV recovers
    the temperature, humidity, soil moisture and sunlight of every
    buffered reading exactly: every number is written as the shortest
    decimal that denotes it, and that text reads back to the number.
    The buffered numbers are doubles, as all numbers of a response
    are. *)
Theorem export_round_trip history :
  Forall (date_is_plain toLocaleString) history ->
  Forall numbers_are_doubles history ->
  round_trip toLocaleString Runtime.Number_toString Runtime.parseFloat
    history.
Proof.
  intros Hdates Hnumbers csv Hcsv.
  assert (Hall : Forall (fun h => date_is_plain toLocaleString h
                                  /\ numbers_are_doubles h) history).
  { rewrite Forall_forall in Hdates, Hnumbers. apply Forall_forall.
    intros h Hh. split; [apply Hdates | apply Hnumbers]; exact Hh. }
  destruct history as [|h0 hs]; [discriminate|].
  assert (Hc : csv = join newline
                       (map (join comma)
                          (headers
                           :: rows toLocaleString Runtime.Number_toString
                                (h0 :: hs))))
    by (apply (inj Some); rewrite <- Hcsv; reflexivity).
  rewrite Hc. clear Hcsv Hc csv.
  destruct (rows_read_back (h0 :: hs) Hall) as (parsed & Hparsed & Heq).
  exists parsed. split; [|exact Heq].
  unfold parseCsv. rewrite split_on_join.
  - cbn [map]. exact Hparsed.
  - discriminate.
  - apply lines_lack_newline. constructor.
    + exact (headers_lack_newline).
    + unfold rows. apply Forall_fmap. eapply Forall_impl; [exact Hall|].
      intros h [Hd Hn]. eapply Forall_impl; [exact (row_plain h Hd Hn)|].
      intros cell Hc. apply plain_spec, Hc.
Qed.
End RoundTrip.

Lemma export_round_trip_witness :
  round_trip Runtime.toLocaleString_sv_SE Runtime.Number_toString
    Runtime.parseFloat two_readings.
Proof.
  apply export_round_trip.
  - repeat constructor; vm_compute; reflexivity.
  - repeat constructor; vm_compute; reflexivity.
Defined.

(** C6 (as stated) fails: in the [en-US] locale the date text holds a
    comma, every exported row has seven cells under six headers, the
    cell under "Temperature" is the time of day, and reading the numeric
    columns back fails although every number alone reads back. *)
Lemma export_en_US_not_read_back :
  (exists csv line,
      Dashboard.exportData Runtime.toLocaleString_en_US
        Runtime.Number_toString two_readings = Some csv
      /\ CsvReader.split_on Dashboard.newline csv !! 1%nat = Some line
      /\ line = "11/14/2023, 10:13:20 PM,22.5,61,45.5,48000,optimal"
      /\ length (CsvReader.split_on Dashboard.comma line) = 7%nat
      /\ CsvReader.split_on Dashboard.comma line !! 1%nat
         = Some " 10:13:20 PM"
      /\ CsvReader.parseCsv Runtime.parseFloat csv = None)
  /\ Forall numbers_are_doubles two_readings
  /\ Forall (fun h =>
       Forall (reads_back Runtime.Number_toString Runtime.parseFloat)
         [temperature h; humidity h; soil_moisture h;
          sunlight_intensity h]) two_readings
  /\ ~ round_trip Runtime.toLocaleString_en_US Runtime.Number_toString
         Runtime.parseFloat two_readings.
Proof.
  assert (Hd : Forall numbers_are_doubles two_readings)
    by (repeat constructor; vm_compute; reflexivity).
  split; [|split; [exact Hd|split]].
  - eexists _, _. split; [reflexivity|].
    repeat (split; [vm_compute; reflexivity|]).
    vm_compute. reflexivity.
  - eapply Forall_impl; [exact Hd|].
    intros h (Ht & Hh & Hm & Hs).
    repeat constructor; apply Number_toString_reads_back; assumption.
  - intros Hrt.
    destruct (Hrt _ eq_refl) as (parsed & Hparsed & _).
    vm_compute in Hparsed. discriminate.
Qed.

(** ** Dashboard: reload and fetch failures *)

Section Reload.
Import Dashboard.
Variable JSON_parse : string -> Exc (list Reading).

(** C7. When the text stored under [sensorHistory] does not parse,
    the reload effect leaves the freshly mounted dashboard as it is:
    the exception is caught, the buffer is empty, no analytics
    snapshot is set or can be computed from the buffer, and the store
    is not touched. *)
Theorem reload_discards_malformed storage blob message :
  storage !! "sensorHistory" = Some blob ->
  JSON_parse blob = Throw message ->
  let w := loadHistory JSON_parse
             {| state := initial; localStorage := storage |} in
  state w = initial
  /\ history (state w) = []
  /\ analytics (state w) = None
  /\ computeAnalytics (history (state w)) = None
  /\ localStorage w = storage.
Proof.
  intros Hblob Hparse w.
  assert (Hw : w = {| state := initial; localStorage := storage |}).
  { unfold w, loadHistory. cbn [localStorage]. rewrite Hblob.
    destruct (String.eqb blob EmptyString); [reflexivity|].
    rewrite Hparse. reflexivity. }
  rewrite Hw. repeat split; reflexivity.
Qed.
End Reload.

Lemma reload_discards_malformed_witness :
  let w := Dashboard.loadHistory Runtime.JSON_parse
             {| Dashboard.state := Dashboard.initial;
                Dashboard.localStorage :=
                  <["sensorHistory" := "[{temperature:22.5,"]> ∅ |} in
  Dashboard.state w = Dashboard.initial
  /\ Dashboard.history (Dashboard.state w) = []
  /\ Dashboard.analytics (Dashboard.state w) = None
  /\ Dashboard.computeAnalytics (Dashboard.history (Dashboard.state w))
     = None
  /\ Dashboard.localStorage w
     = <["sensorHistory" := "[{temperature:22.5,"]> ∅.
Proof.
  apply (reload_discards_malformed Runtime.JSON_parse _
           "[{temperature:22.5," "Unexpected token in JSON").
  - apply lookup_insert_eq.
  - reflexivity.
Defined.

Section FetchFailure.
Import Dashboard.
Variable JSON_stringify : list Reading -> string.

Lemma fetchSensorData_failed fetched message w :
  failure_of fetched = Some message ->
  fetchSensorData JSON_stringify fetched w = fetchFailed message w.
Proof.
  unfold failure_of, fetchSensorData.
  destruct fetched as [response|e]; cbn [mbind Exc_bind try_catch].
  - destruct (negb (ok response)); [intros [= <-]; reflexivity|].
    destruct (json response) as [data|e]; [discriminate|].
    intros [= <-]. reflexivity.
  - intros [= <-]. reflexivity.
Qed.

(** C8 (as amended). A fetch that fails sets the error message and
    clears the loading flag, and nothing else: the displayed sensor
    data, the history buffer, the analytics snapshot and the store are
    as before, and when the loading flag was already cleared only the
    error message changes. Polling goes on: the failed call consumed its
    one fetch, the next tick runs the next fetch from the state the
    failure left, and a fetch that then resolves is buffered after the
    readings that were there before. *)
Theorem fetch_failure_frame fetched message w :
  failure_of fetched = Some message ->
  let w' := fetchSensorData JSON_stringify fetched w in
  state w' = setLoading false (setError (Some message) (state w))
  /\ sensorData (state w') = sensorData (state w)
  /\ history (state w') = history (state w)
  /\ analytics (state w') = analytics (state w)
  /\ localStorage w' = localStorage w
  /\ error (state w') = Some message
  /\ loading (state w') = false
  /\ (loading (state w) = false -> only_error_changes w w')
  /\ (forall fetches,
         poll JSON_stringify (fetched :: fetches) w
         = poll JSON_stringify fetches w')
  /\ (forall data,
         history (state (poll JSON_stringify [fetched; resolved data] w))
         = newHistory (history (state w)) data).
Proof.
  intros Hfail w'.
  assert (Hw : w' = fetchFailed message w)
    by (apply fetchSensorData_failed, Hfail).
  rewrite Hw. do 7 (split; [reflexivity|]). split; [|split].
  - intros Hloading. split; [|reflexivity].
    destruct w as [[sd ld er hi an] st]. cbn in Hloading. subst ld.
    reflexivity.
  - intros fetches. rewrite poll_cons. fold w'. rewrite Hw. reflexivity.
  - intros data. rewrite !poll_cons. fold w'. rewrite Hw. reflexivity.
Qed.
End FetchFailure.

Lemma fetch_failure_frame_witness :
  let w := after_two_readings in
  let w' := Dashboard.fetchSensorData Runtime.JSON_stringify
              (Throw "Failed to fetch") w in
  Dashboard.sensorData (Dashboard.state w')
  = Dashboard.sensorData (Dashboard.state w)
  /\ Dashboard.history (Dashboard.state w') = two_readings
  /\ Dashboard.analytics (Dashboard.state w')
     = Dashboard.analytics (Dashboard.state w)
  /\ Dashboard.error (Dashboard.state w') = Some "Failed to fetch".
Proof.
  destruct (fetch_failure_frame Runtime.JSON_stringify
              (Throw "Failed to fetch") "Failed to fetch"
              after_two_readings eq_refl)
    as (_ & Hdata & Hhist & Hana & _ & Herr & _).
  split; [exact Hdata|]. split; [rewrite Hhist; reflexivity|].
  split; [exact Hana | exact Herr].
Defined.

(** C8 (as stated) fails: when the very first fetch is rejected, the
    loading flag goes from set to cleared together with the error
    message, so more than the error indicator changes. *)
Lemma first_fetch_failure_clears_loading :
  let w' := Dashboard.fetchSensorData Runtime.JSON_stringify
              (Throw "Failed to fetch") mounted in
  Dashboard.loading (Dashboard.state mounted) = true
  /\ Dashboard.loading (Dashboard.state w') = false
  /\ ~ only_error_changes mounted w'.
Proof.
  split; [reflexivity|]. split; [reflexivity|].
  intros [Hstate _]. apply (f_equal Dashboard.loading) in Hstate.
  discriminate Hstate.
Qed.

(** ** SensorChart *)

Section Chart.
Import SensorChart.

Lemma or_else_nonzero a b : ~ (b == 0)%Q -> ~ (or_else a b == 0)%Q.
Proof.
  intros Hb. unfold or_else. destruct (Qeq_bool a 0) eqn:Ha.
  - exact Hb.
  - apply Qeq_bool_neq, Ha.
Qed.

Lemma or_else_zero a b : (a == 0)%Q -> or_else a b = b.
Proof. intros Ha. unfold or_else. rewrite (Qeq_eq_bool _ _ Ha). reflexivity. Qed.

Lemma xDivisor_nonzero data : ~ (xDivisor data == 0)%Q.
Proof. apply or_else_nonzero. discriminate. Qed.

Lemma chart_range_nonzero hi lo : ~ (chart_range hi lo == 0)%Q.
Proof. apply or_else_nonzero. discriminate. Qed.

(** C9. Empty data renders nothing. For non-empty data a chart is
    computed, with one point per datum, and neither divisor is zero:
    [data.length - 1 || 1] and [maxValue - minValue || 1]. A single
    point is divided by 1, and so are values that all equal both
    ends of the optimal range. *)
Theorem chart_divisors_nonzero :
  (forall optimalRange, SensorChart [] optimalRange = None)
  /\ (forall d0 ds optimalRange,
         exists chart,
           SensorChart (d0 :: ds) optimalRange = Some chart
           /\ range chart = chart_range (maxValue chart) (minValue chart)
           /\ ~ (range chart == 0)%Q
           /\ ~ (xDivisor (d0 :: ds) == 0)%Q
           /\ points chart
              = imap (point_xy (d0 :: ds) (minValue chart) (range chart))
                  (d0 :: ds)
           /\ length (points chart) = length (d0 :: ds))
  /\ (forall d, xDivisor [d] = 1%Q)
  /\ (forall hi lo, (hi == lo)%Q -> chart_range hi lo = 1%Q).
Proof.
  split; [reflexivity|]. split; [|split].
  - intros d0 ds optimalRange. eexists. split; [reflexivity|].
    cbn [range maxValue minValue points].
    split; [reflexivity|].
    split; [apply chart_range_nonzero|].
    split; [apply xDivisor_nonzero|].
    split; [reflexivity|].
    apply length_imap.
  - intros d. reflexivity.
  - intros hi lo Heq. apply or_else_zero. lra.
Qed.
End Chart.

(** ** PlantHealth: the analysis history *)

Section AnalysisHistory.
Import PlantHealth.
Context {Analysis File : Type}.
Variable JSON_stringify : list (HistoryRecord Analysis) -> string.
Variable fits : gmap string string -> bool.
Variable quota_message : string.


End AnalysisHistory.



(** * Further properties of the front end *)

(** ** Dashboard: sessions *)

Section Session.
Import Dashboard DashboardSession.
Variable JSON_stringify : list Reading -> string.
Variable JSON_parse : string -> Exc (list Reading).

Lemma newHistory_nonempty prev data : newHistory prev data <> [].
Proof.
  intros H. apply (f_equal length) in H.
  unfold newHistory in H. rewrite length_slice_last, length_app in H.
  cbn in H. lia.
Qed.

Lemma computeAnalytics_None data :
  computeAnalytics data = None <-> data = [].
Proof. destruct data; split; (reflexivity || discriminate). Qed.

Lemma analytics_calculateAnalytics data st :
  data <> [] ->
  analytics (calculateAnalytics data st) = computeAnalytics data.
Proof.
  intros Hne. unfold calculateAnalytics.
  destruct (computeAnalytics data) as [a|] eqn:Ha; [reflexivity|].
  apply computeAnalytics_None in Ha. contradiction.
Qed.

Lemma calculateAnalytics_frame data st :
  sensorData (calculateAnalytics data st) = sensorData st
  /\ loading (calculateAnalytics data st) = loading st
  /\ error (calculateAnalytics data st) = error st
  /\ history (calculateAnalytics data st) = history st.
Proof.
  unfold calculateAnalytics. destruct (computeAnalytics data);
    repeat split; reflexivity.
Qed.

Lemma shown_fetchSucceeded data w :
  sensorData (state (fetchSucceeded JSON_stringify data w)) = Some data
  /\ loading (state (fetchSucceeded JSON_stringify data w)) = false
  /\ error (state (fetchSucceeded JSON_stringify data w)) = None.
Proof.
  unfold fetchSucceeded.
  cbn [state setHistory sensorData loading error].
  destruct (calculateAnalytics_frame
              (newHistory
                 (history (setError None (setLoading false
                    (setSensorData (Some data) (state w))))) data)
              (setError None (setLoading false
                 (setSensorData (Some data) (state w)))))
    as (-> & -> & -> & _).
  repeat split; reflexivity.
Qed.

Lemma fetchSensorData_cases fetched w :
  (exists message,
      failure_of fetched = Some message
      /\ fetchSensorData JSON_stringify fetched w = fetchFailed message w)
  \/ (exists data,
      failure_of fetched = None
      /\ fetchSensorData JSON_stringify fetched w
         = fetchSucceeded JSON_stringify data w).
Proof.
  destruct (failure_of fetched) as [message|] eqn:Hf.
  - left. exists message. split; [reflexivity|].
    apply fetchSensorData_failed, Hf.
  - right. unfold failure_of in Hf. destruct fetched as [response|e];
      [|discriminate].
    destruct (negb (ok response)) eqn:Hok; [discriminate|].
    destruct (json response) as [data|e] eqn:Hj; [|discriminate].
    exists data. split; [reflexivity|].
    unfold fetchSensorData. cbn [mbind Exc_bind try_catch].
    rewrite Hok, Hj. reflexivity.
Qed.

Lemma consistent_fetchSucceeded data w :
  consistent (fetchSucceeded JSON_stringify data w).
Proof.
  unfold consistent, fetchSucceeded. cbn [state history analytics setHistory].
  apply analytics_calculateAnalytics, newHistory_nonempty.
Qed.

Lemma consistent_fetchSensorData fetched w :
  consistent w -> consistent (fetchSensorData JSON_stringify fetched w).
Proof.
  intros Hc.
  destruct (fetchSensorData_cases fetched w)
    as [(message & _ & ->) | (data & _ & ->)].
  - exact Hc.
  - apply consistent_fetchSucceeded.
Qed.

Lemma consistent_poll fetches w :
  consistent w -> consistent (poll JSON_stringify fetches w).
Proof.
  revert w. induction fetches as [|f fetches IH]; intros w Hc; [exact Hc|].
  rewrite poll_cons. apply IH, consistent_fetchSensorData, Hc.
Qed.

Lemma consistent_loadHistory storage :
  consistent (loadHistory JSON_parse (mount storage)).
Proof.
  unfold loadHistory, mount. cbn [localStorage state].
  destruct (storage !! "sensorHistory") as [saved|]; [|reflexivity].
  destruct (String.eqb saved EmptyString); [reflexivity|].
  destruct (JSON_parse saved) as [parsed|e]; [|reflexivity].
  cbn [mbind Exc_bind mret Exc_ret try_catch].
  unfold consistent. cbn [state].
  destruct parsed as [|d ds]; [reflexivity|].
  rewrite analytics_calculateAnalytics by discriminate. reflexivity.
Qed.

Lemma consistent_session storage fetches :
  consistent (session JSON_stringify JSON_parse storage fetches).
Proof. apply consistent_poll, consistent_loadHistory. Qed.

(** The history-load effect on a store that holds no history, a text
    that does not parse, or the text of an array of readings. *)
Lemma consistent_loaded storage :
  (storage !! "sensorHistory" = None
   \/ storage !! "sensorHistory" = Some EmptyString
   \/ (exists saved message,
          storage !! "sensorHistory" = Some saved
          /\ JSON_parse saved = Throw message)
   \/ (exists saved (readings : list Reading),
          storage !! "sensorHistory" = Some saved
          /\ JSON_parse saved = Ok readings)) ->
  consistent (loadHistory JSON_parse (mount storage)).
Proof.
  unfold loadHistory, mount. cbn [localStorage state].
  intros [-> | [-> | [(saved & message & -> & Hp)
                     | (saved & readings & -> & Hp)]]];
    try reflexivity.
  - destruct (String.eqb saved EmptyString); [reflexivity|].
    rewrite Hp. reflexivity.
  - destruct (String.eqb saved EmptyString); [reflexivity|].
    rewrite Hp. cbn [mbind Exc_bind mret Exc_ret try_catch].
    unfold consistent. cbn [state].
    destruct readings as [|d ds]; [reflexivity|].
    rewrite analytics_calculateAnalytics by discriminate. reflexivity.
Qed.

(** X1. When the store holds no history at mount, or a text that does
    not parse, or the text of an array of readings, then, however the
    fetches of the visit end, the analytics snapshot is the one computed
    from the buffer as it stands; so the snapshot is absent exactly
    when the buffer is empty. (A stored text that parses to anything
    else, such as ["[null]"], is none of these cases.) *)
Theorem session_snapshot_consistent storage fetches :
  (storage !! "sensorHistory" = None
   \/ storage !! "sensorHistory" = Some EmptyString
   \/ (exists saved message,
          storage !! "sensorHistory" = Some saved
          /\ JSON_parse saved = Throw message)
   \/ (exists saved (readings : list Reading),
          storage !! "sensorHistory" = Some saved
          /\ JSON_parse saved = Ok readings)) ->
  let st := state (session JSON_stringify JSON_parse storage fetches) in
  analytics st = computeAnalytics (history st)
  /\ (analytics st = None <-> history st = []).
Proof.
  intros Hstore st.
  assert (Hc : analytics st = computeAnalytics (history st))
    by (apply consistent_poll, consistent_loaded, Hstore).
  split; [exact Hc|]. rewrite Hc. apply computeAnalytics_None.
Qed.

(** X2. Under the same condition on the store, in every state of a
    visit the analytics section, which holds the Export CSV button, is
    rendered exactly when the buffer is not empty, and then
    [exportData] hands out a CSV: its early return for an empty buffer
    cannot be reached from the button. *)
Theorem export_button_always_exports
    (toLocaleString : Z -> string) (Number_toString : Q -> string)
    storage fetches :
  (storage !! "sensorHistory" = None
   \/ storage !! "sensorHistory" = Some EmptyString
   \/ (exists saved message,
          storage !! "sensorHistory" = Some saved
          /\ JSON_parse saved = Throw message)
   \/ (exists saved (readings : list Reading),
          storage !! "sensorHistory" = Some saved
          /\ JSON_parse saved = Ok readings)) ->
  let st := state (session JSON_stringify JSON_parse storage fetches) in
  (analyticsShown st = true <-> history st <> [])
  /\ (analyticsShown st = true
      <-> is_Some (exportData toLocaleString Number_toString (history st))).
Proof.
  intros Hstore st.
  pose proof (consistent_poll fetches _ (consistent_loaded storage Hstore))
    as Hc.
  fold (session JSON_stringify JSON_parse storage fetches) in Hc.
  unfold consistent in Hc. fold st in Hc. unfold analyticsShown. rewrite Hc.
  destruct (history st) as [|d ds]; cbn; split; split;
    try discriminate; try congruence; try reflexivity;
    try (intros [? ?]; discriminate); eauto.
Qed.

(** A property that every successful fetch establishes and no failed
    fetch destroys holds after any run of fetches one of which
    succeeded. *)
Lemma poll_establishes (P : World -> Prop) :
  (forall data w, P (fetchSucceeded JSON_stringify data w)) ->
  (forall message w, P w -> P (fetchFailed message w)) ->
  forall fetches w,
    Exists (fun fetched => failure_of fetched = None) fetches ->
    P (poll JSON_stringify fetches w).
Proof.
  intros Hok Hfail.
  assert (Hkeep : forall fetches w, P w -> P (poll JSON_stringify fetches w)).
  { induction fetches as [|f fetches IH]; intros w Hw; [exact Hw|].
    rewrite poll_cons. apply IH.
    destruct (fetchSensorData_cases f w)
      as [(message & _ & ->) | (data & _ & ->)]; auto. }
  induction fetches as [|f fetches IH]; intros w Hex.
  - inversion Hex.
  - rewrite poll_cons. apply Exists_cons in Hex as [Hf|Hex].
    + apply Hkeep.
      destruct (fetchSensorData_cases f w)
        as [(message & Hm & _) | (data & _ & ->)]; [congruence|].
      apply Hok.
    + apply IH, Hex.
Qed.

Lemma mirrored_poll fetches w :
  Exists (fun fetched => failure_of fetched = None) fetches ->
  mirrored JSON_stringify (poll JSON_stringify fetches w).
Proof.
  apply (poll_establishes (mirrored JSON_stringify)).
  - intros data w0. unfold mirrored, fetchSucceeded.
    cbn [localStorage state history setHistory].
    apply lookup_insert_eq.
  - intros message w0 Hm. exact Hm.
Qed.

(** X3. Once a fetch of a visit has succeeded, the store holds, under
    [sensorHistory], the text of the buffer as it stands, whatever
    fetches failed before or after. *)
Theorem store_mirrors_buffer fetches w :
  Exists (fun fetched => failure_of fetched = None) fetches ->
  let w' := poll JSON_stringify fetches w in
  localStorage w' !! "sensorHistory"
  = Some (JSON_stringify (history (state w'))).
Proof. intros Hex. apply mirrored_poll, Hex. Qed.

Lemma newest_poll fetches w :
  Exists (fun fetched => failure_of fetched = None) fetches ->
  let st := state (poll JSON_stringify fetches w) in
  (exists data, sensorData st = Some data /\ last (history st) = Some data)
  /\ (1 <= length (history st) <= 50)%nat.
Proof.
  apply (poll_establishes
           (fun w' =>
              (exists data,
                  sensorData (state w') = Some data
                  /\ last (history (state w')) = Some data)
              /\ (1 <= length (history (state w')) <= 50)%nat)).
  - intros data w0. rewrite history_fetchSucceeded. split.
    + exists data. split; [apply shown_fetchSucceeded|].
      apply slice_last_snoc_last. lia.
    + pose proof (length_newHistory (history (state w0)) data).
      pose proof (newHistory_nonempty (history (state w0)) data).
      destruct (newHistory (history (state w0)) data); [contradiction|].
      cbn [length] in *. lia.
  - intros message w0 Hw0. exact Hw0.
Qed.

(** X4. Once a fetch of a visit has succeeded, the reading on display
    is the newest reading of the buffer, and the buffer holds between 1
    and 50 readings; failed fetches in between do not change that. *)
Theorem display_is_newest_buffered fetches w :
  Exists (fun fetched => failure_of fetched = None) fetches ->
  let st := state (poll JSON_stringify fetches w) in
  (exists data, sensorData st = Some data /\ last (history st) = Some data)
  /\ (1 <= length (history st) <= 50)%nat.
Proof. intros Hex. apply newest_poll, Hex. Qed.

(** X5. A visit that buffered at least one reading can be resumed: when
    [JSON.parse] reads the stored text back to the buffer, the
    history-load effect of the next mount restores the buffer and the
    analytics snapshot of the visit. *)
Theorem reload_restores_visit storage fetches :
  Exists (fun fetched => failure_of fetched = None) fetches ->
  let w := session JSON_stringify JSON_parse storage fetches in
  let h := history (state w) in
  JSON_stringify h <> EmptyString ->
  JSON_parse (JSON_stringify h) = Ok h ->
  let w' := loadHistory JSON_parse (mount (localStorage w)) in
  history (state w') = h
  /\ analytics (state w') = analytics (state w).
Proof.
  intros Hex w h Hne Hparse w'.
  assert (Hm : mirrored JSON_stringify w)
    by (apply mirrored_poll, Hex).
  destruct (newest_poll fetches
              (loadHistory JSON_parse (mount storage)) Hex) as [_ Hlen].
  fold (session JSON_stringify JSON_parse storage fetches) in Hlen.
  fold w in Hlen. fold h in Hlen.
  pose proof (consistent_session storage fetches) as Hc.
  unfold consistent in Hc. fold w in Hc. fold h in Hc.
  unfold w', loadHistory, mount. cbn [localStorage state].
  unfold mirrored in Hm. fold w in Hm. fold h in Hm. rewrite Hm.
  apply String.eqb_neq in Hne. rewrite Hne, Hparse.
  cbn [mbind Exc_bind mret Exc_ret try_catch state].
  assert (Hh : h <> []) by (destruct h; [cbn in Hlen; lia | discriminate]).
  split.
  - unfold calculateAnalytics.
    destruct (computeAnalytics h); reflexivity.
  - rewrite analytics_calculateAnalytics by exact Hh.
    symmetry. exact Hc.
Qed.
End Session.

Lemma session_snapshot_consistent_witness :
  let st := Dashboard.state
              (DashboardSession.session Runtime.JSON_stringify
                 (JSON_parse_among [two_readings])
                 (<["sensorHistory" := Runtime.JSON_stringify two_readings]> ∅)
                 [Throw "Failed to fetch"]) in
  Dashboard.history st = two_readings
  /\ Dashboard.analytics st = Dashboard.computeAnalytics two_readings.
Proof.
  destruct (session_snapshot_consistent Runtime.JSON_stringify
              (JSON_parse_among [two_readings])
              (<["sensorHistory" := Runtime.JSON_stringify two_readings]> ∅)
              [Throw "Failed to fetch"]) as [Hc _].
  - right. right. right.
    exists (Runtime.JSON_stringify two_readings), two_readings.
    split; [apply lookup_insert_eq | vm_compute; reflexivity].
  - assert (Hh : Dashboard.history
                   (Dashboard.state
                      (DashboardSession.session Runtime.JSON_stringify
                         (JSON_parse_among [two_readings])
                         (<["sensorHistory"
                            := Runtime.JSON_stringify two_readings]> ∅)
                         [Throw "Failed to fetch"])) = two_readings)
      by (vm_compute; reflexivity).
    split; [exact Hh|]. cbv zeta. rewrite Hc, Hh. reflexivity.
Defined.

Lemma export_button_always_exports_witness :
  let st := Dashboard.state
              (DashboardSession.session Runtime.JSON_stringify
                 (JSON_parse_among []) ∅ (map resolved two_readings)) in
  DashboardSession.analyticsShown st = true
  /\ is_Some (Dashboard.exportData Runtime.toLocaleString_sv_SE
                Runtime.Number_toString (Dashboard.history st)).
Proof.
  destruct (export_button_always_exports Runtime.JSON_stringify
              (JSON_parse_among []) Runtime.toLocaleString_sv_SE
              Runtime.Number_toString ∅ (map resolved two_readings))
    as [Hshown Hexport].
  - left. reflexivity.
  - assert (H : DashboardSession.analyticsShown
                  (Dashboard.state
                     (DashboardSession.session Runtime.JSON_stringify
                        (JSON_parse_among []) ∅
                        (map resolved two_readings))) = true).
    { apply Hshown. vm_compute. discriminate. }
    split; [exact H | apply Hexport, H].
Defined.

Lemma store_mirrors_buffer_witness :
  Dashboard.localStorage after_two_readings !! "sensorHistory"
  = Some (Runtime.JSON_stringify
            (Dashboard.history (Dashboard.state after_two_readings))).
Proof.
  apply (store_mirrors_buffer Runtime.JSON_stringify
           (map resolved two_readings) mounted).
  constructor. reflexivity.
Defined.

Lemma display_is_newest_buffered_witness :
  let st := Dashboard.state
              (Dashboard.poll Runtime.JSON_stringify
                 (Throw "Failed to fetch" :: map resolved two_readings
                  ++ [Throw "Failed to fetch"]) mounted) in
  (exists data,
      Dashboard.sensorData st = Some data
      /\ last (Dashboard.history st) = Some data)
  /\ (1 <= length (Dashboard.history st) <= 50)%nat.
Proof.
  apply (display_is_newest_buffered Runtime.JSON_stringify).
  right. left. reflexivity.
Defined.

Lemma reload_restores_visit_witness :
  let w := DashboardSession.session Runtime.JSON_stringify
             (JSON_parse_among [two_readings]) ∅
             (map resolved two_readings) in
  let w' := Dashboard.loadHistory (JSON_parse_among [two_readings])
              (DashboardSession.mount (Dashboard.localStorage w)) in
  Dashboard.history (Dashboard.state w') = two_readings
  /\ Dashboard.analytics (Dashboard.state w')
     = Dashboard.analytics (Dashboard.state w).
Proof.
  destruct (reload_restores_visit Runtime.JSON_stringify
              (JSON_parse_among [two_readings]) ∅
              (map resolved two_readings)) as [Hh Ha].
  - left. reflexivity.
  - vm_compute. discriminate.
  - vm_compute. reflexivity.
  - split; [|exact Ha]. rewrite Hh. vm_compute. reflexivity.
Defined.

(** ** SensorPanel: the error box *)

Section PanelView.
Import Dashboard SensorPanelView.
Variable JSON_stringify : list Reading -> string.

(** X6. While an error message is set, the sensor panel renders the
    error box alone: after a failed fetch with a non-empty message the
    readings fetched before stay in the state but are not drawn. The
    next fetch that succeeds brings the panel back with the new
    reading. A failure whose message is empty draws no error box. *)
Theorem error_box_replaces_readings fetched message w :
  failure_of fetched = Some message ->
  let w' := fetchSensorData JSON_stringify fetched w in
  sensorData (state w') = sensorData (state w)
  /\ (message <> EmptyString -> of_state (state w') = ErrorBox message)
  /\ (message = EmptyString ->
      of_state (state w')
      = match sensorData (state w) with
        | Some d => Panel d
        | None => Nothing
        end)
  /\ (forall data,
         of_state (state (fetchSensorData JSON_stringify (resolved data) w'))
         = Panel data).
Proof.
  intros Hfail w'.
  assert (Hw : w' = fetchFailed message w)
    by (apply fetchSensorData_failed, Hfail).
  rewrite Hw. split; [reflexivity|].
  unfold of_state, SensorPanel, fetchFailed.
  cbn [state sensorData loading error setLoading setError andb truthy default].
  split; [|split].
  - intros Hne. apply String.eqb_neq in Hne. rewrite Hne. reflexivity.
  - intros ->. destruct (sensorData (state w)); reflexivity.
  - intros data. rewrite fetchSensorData_resolved.
    destruct (shown_fetchSucceeded JSON_stringify data
                {| state := setLoading false
                              (setError (Some message) (state w));
                   localStorage := localStorage w |})
      as (-> & -> & ->).
    reflexivity.
Qed.
End PanelView.

Lemma error_box_replaces_readings_witness :
  let w' := Dashboard.fetchSensorData Runtime.JSON_stringify
              (Throw "Failed to fetch") after_two_readings in
  SensorPanelView.of_state (Dashboard.state w')
  = SensorPanelView.ErrorBox "Failed to fetch"
  /\ is_Some (Dashboard.sensorData (Dashboard.state w')).
Proof.
  destruct (error_box_replaces_readings Runtime.JSON_stringify
              (Throw "Failed to fetch") "Failed to fetch"
              after_two_readings eq_refl) as (Hdata & Hbox & _).
  split; [apply Hbox; discriminate|].
  rewrite Hdata. eexists. reflexivity.
Defined.

(** ** SensorChart: coordinates *)

Section ChartCoordinates.
Import SensorChart SensorChartBand.

(** A part of a whole, divided by the whole or by 1 when the whole is
    zero, is between 0 and 1. *)
Lemma fraction_or_else a b :
  (0 <= a <= b)%Q -> (0 <= a / or_else b 1 <= 1)%Q.
Proof.
  intros [Ha Hab]. unfold or_else. destruct (Qeq_bool b 0) eqn:Hb.
  - apply Qeq_bool_eq in Hb. unfold Qdiv. change (/ 1)%Q with 1%Q.
    split; lra.
  - apply Qeq_bool_neq in Hb. assert (Hpos : (0 < b)%Q) by lra. split.
    + apply Qle_shift_div_l; [exact Hpos | lra].
    + apply Qle_shift_div_r; [exact Hpos | lra].
Qed.

Lemma inject_Z_pred n : (inject_Z n - 1 == inject_Z (n - 1))%Q.
Proof.
  unfold Qminus. change (- (1))%Q with (inject_Z (-1)).
  rewrite <- inject_Z_plus. reflexivity.
Qed.

Lemma fraction_less a a' b :
  (0 < b)%Q -> (a < a')%Q -> (a / or_else b 1 < a' / or_else b 1)%Q.
Proof.
  intros Hb Ha. unfold or_else. destruct (Qeq_bool b 0) eqn:Hb0.
  - apply Qeq_bool_eq in Hb0. lra.
  - unfold Qdiv. apply Qmult_lt_compat_r; [|exact Ha].
    apply Qinv_lt_0_compat, Hb.
Qed.

Lemma extrema_enclose d0 ds optimalRange v :
  v ∈ map value (d0 :: ds) ->
  (Math_min (value d0) (map value ds ++ [min optimalRange]) <= v
   <= Math_max (value d0) (map value ds ++ [max optimalRange]))%Q.
Proof.
  intros Hv.
  destruct (Math_min_spec (value d0) (map value ds ++ [min optimalRange]))
    as [_ Hlo].
  destruct (Math_max_spec (value d0) (map value ds ++ [max optimalRange]))
    as [_ Hhi].
  cbn [map] in Hv. apply elem_of_cons in Hv as [-> | Hv].
  - split; [apply Hlo | apply Hhi]; left.
  - split; [apply Hlo | apply Hhi]; right; apply elem_of_app; left;
      exact Hv.
Qed.

Lemma extrema_enclose_range d0 ds optimalRange :
  (Math_min (value d0) (map value ds ++ [min optimalRange])
   <= min optimalRange)%Q
  /\ (max optimalRange
      <= Math_max (value d0) (map value ds ++ [max optimalRange]))%Q.
Proof.
  destruct (Math_min_spec (value d0) (map value ds ++ [min optimalRange]))
    as [_ Hlo].
  destruct (Math_max_spec (value d0) (map value ds ++ [max optimalRange]))
    as [_ Hhi].
  split; [apply Hlo | apply Hhi]; right; apply elem_of_app; right; left.
Qed.

Lemma scaled_in_plot lo hi v :
  (lo <= v <= hi)%Q ->
  (20 <= 100 - (v - lo) / chart_range hi lo * 80 <= 100)%Q.
Proof.
  intros [Hlo Hhi]. unfold chart_range.
  destruct (fraction_or_else (v - lo) (hi - lo)) as [H0 H1]; [split; lra|].
  remember ((v - lo) / or_else (hi - lo) 1)%Q as t. split; lra.
Qed.

Lemma index_in_plot (data : list DataPoint) i :
  (i < length data)%nat ->
  (0 <= inject_Z (Z.of_nat i) / xDivisor data * 100 <= 100)%Q.
Proof.
  intros Hi. unfold xDivisor.
  destruct (fraction_or_else (inject_Z (Z.of_nat i))
              (inject_Z (Z.of_nat (length data)) - 1)) as [H0 H1].
  { split.
    - change 0%Q with (inject_Z 0). rewrite <- Zle_Qle. lia.
    - rewrite inject_Z_pred, <- Zle_Qle. lia. }
  remember (inject_Z (Z.of_nat i)
            / or_else (inject_Z (Z.of_nat (length data)) - 1) 1)%Q as t.
  split; lra.
Qed.

(** X7. Every point of the line lies in the part of the view box left
    for data: its x between 0 and 100, its y between 20 and 100. The
    points run from left to right: a later datum has a greater x, the
    first one sits at 0 and, with two data or more, the last at 100. *)
Theorem chart_points_in_plot d0 ds optimalRange :
  exists chart,
    SensorChart (d0 :: ds) optimalRange = Some chart
    /\ Forall in_plot (points chart)
    /\ (forall i j p q,
           points chart !! i = Some p -> points chart !! j = Some q ->
           (i < j)%nat -> (fst p < fst q)%Q)
    /\ (exists p, points chart !! 0%nat = Some p /\ (fst p == 0)%Q)
    /\ (ds <> [] ->
        exists q, last (points chart) = Some q /\ (fst q == 100)%Q).
Proof.
  eexists. split; [reflexivity|]. cbn [points].
  set (data := d0 :: ds).
  set (lo := Math_min (value d0) (map value ds ++ [min optimalRange])).
  set (hi := Math_max (value d0) (map value ds ++ [max optimalRange])).
  split; [|split; [|split]].
  - apply Forall_lookup. intros i p Hp.
    rewrite list_lookup_imap in Hp.
    destruct (data !! i) as [pt|] eqn:Hpt; [|discriminate].
    injection Hp as <-. split; cbn [fst snd point_xy].
    + apply index_in_plot. eapply lookup_lt_Some, Hpt.
    + apply scaled_in_plot. apply extrema_enclose.
      apply (list_elem_of_fmap_2 value). eapply list_elem_of_lookup_2, Hpt.
  - intros i j p q Hp Hq Hij.
    rewrite list_lookup_imap in Hp, Hq.
    destruct (data !! i) as [pi|] eqn:Hpi; [|discriminate].
    destruct (data !! j) as [pj|] eqn:Hpj; [|discriminate].
    injection Hp as <-. injection Hq as <-. cbn [fst point_xy].
    apply lookup_lt_Some in Hpj.
    apply Qmult_lt_compat_r; [reflexivity|].
    unfold xDivisor. apply fraction_less.
    + rewrite inject_Z_pred.
      change 0%Q with (inject_Z 0). rewrite <- Zlt_Qlt. lia.
    + rewrite <- Zlt_Qlt. lia.
  - eexists. split; [reflexivity|]. cbn [fst point_xy].
    unfold Qdiv. rewrite !Qmult_0_l. reflexivity.
  - intros Hds. rewrite last_lookup, length_imap, list_lookup_imap.
    destruct (lookup_lt_is_Some_2 data (Nat.pred (length data)))
      as [pt Hpt]; [cbn [data length]; lia|].
    rewrite Hpt. eexists. split; [reflexivity|]. cbn [fst point_xy].
    assert (Hn : (2 <= length data)%nat)
      by (destruct ds; [contradiction | cbn [data length]; lia]).
    assert (Hk : (inject_Z (Z.of_nat (length data)) - 1
                  == inject_Z (Z.of_nat (Nat.pred (length data))))%Q).
    { rewrite inject_Z_pred. apply inject_Z_injective. lia. }
    assert (Hpos : (0 < inject_Z (Z.of_nat (Nat.pred (length data))))%Q).
    { change 0%Q with (inject_Z 0). rewrite <- Zlt_Qlt. lia. }
    unfold xDivisor, or_else.
    destruct (Qeq_bool (inject_Z (Z.of_nat (length data)) - 1) 0) eqn:Hz.
    + apply Qeq_bool_eq in Hz. lra.
    + unfold Qdiv. rewrite Hk, Qmult_inv_r by lra. reflexivity.
Qed.

(** X8. When the optimal range is ordered, [min <= optimal <= max], the
    dashed optimal line and the band drawn behind the data lie in the
    same part of the view box as the data: the line has its y between
    20 and 100, and the band has its top edge at 20 or below it, a
    height that is not negative, and its bottom edge at 100 or above
    it. *)
Theorem chart_band_in_plot d0 ds optimalRange :
  (min optimalRange <= optimal optimalRange <= max optimalRange)%Q ->
  exists chart,
    SensorChart (d0 :: ds) optimalRange = Some chart
    /\ (20 <= optimalY chart <= 100)%Q
    /\ (20 <= rectY chart optimalRange)%Q
    /\ (0 <= rectHeight chart optimalRange)%Q
    /\ (rectY chart optimalRange + rectHeight chart optimalRange <= 100)%Q.
Proof.
  intros [Hmin Hmax]. eexists. split; [reflexivity|].
  unfold rectY, rectHeight. cbn [optimalY minValue range maxValue].
  destruct (extrema_enclose_range d0 ds optimalRange) as [Hlo Hhi].
  set (lo := Math_min (value d0) (map value ds ++ [min optimalRange])) in *.
  set (hi := Math_max (value d0) (map value ds ++ [max optimalRange])) in *.
  destruct (scaled_in_plot lo hi (optimal optimalRange)) as [Ho1 Ho2];
    [split; lra|].
  destruct (scaled_in_plot lo hi (max optimalRange)) as [Hx1 Hx2];
    [split; lra|].
  destruct (scaled_in_plot lo hi (min optimalRange)) as [Hn1 Hn2];
    [split; lra|].
  unfold chart_range in *.
  destruct (fraction_or_else (max optimalRange - min optimalRange) (hi - lo))
    as [Hh _]; [split; lra|].
  unfold Qdiv in *.
  remember (/ or_else (hi - lo) 1)%Q as r.
  repeat split; try lra.
Qed.
End ChartCoordinates.

Lemma chart_points_in_plot_witness :
  exists chart q,
    SensorChart.SensorChart
      (DashboardSession.chartData Temperature two_readings)
      SensorChartBand.temperatureRange = Some chart
    /\ last (SensorChart.points chart) = Some q /\ (fst q == 100)%Q.
Proof.
  destruct (chart_points_in_plot
              (hd {| SensorChart.value := 0; SensorChart.timestamp := 0 |}
                 (DashboardSession.chartData Temperature two_readings))
              (tl (DashboardSession.chartData Temperature two_readings))
              SensorChartBand.temperatureRange)
    as (chart & Hchart & _ & _ & _ & Hlast).
  destruct Hlast as (q & Hq & Hx); [discriminate|].
  exists chart, q. split; [exact Hchart|]. split; [exact Hq | exact Hx].
Defined.

Lemma chart_band_in_plot_witness :
  exists chart,
    SensorChart.SensorChart
      (DashboardSession.chartData Temperature two_readings)
      SensorChartBand.temperatureRange = Some chart
    /\ (20 <= SensorChart.optimalY chart <= 100)%Q.
Proof.
  destruct (chart_band_in_plot
              (hd {| SensorChart.value := 0; SensorChart.timestamp := 0 |}
                 (DashboardSession.chartData Temperature two_readings))
              (tl (DashboardSession.chartData Temperature two_readings))
              SensorChartBand.temperatureRange)
    as (chart & Hchart & Hy & _).
  - split; discriminate.
  - exists chart. split; [exact Hchart | exact Hy].
Defined.


(** ** SensorPanel: colours *)

(** X9. [getStatusColor] answers with one of four colour classes. Red
    is kept for temperatures below 10 or above 35, the very values for
    which the alert banner lists the temperature; every other metric is
    yellow or green; and gray is the answer exactly for a type that is
    none of temperature, humidity, soil_moisture and sunlight. *)
Theorem getStatusColor_palette (value : Q) (type : string) :
  SensorPanel.getStatusColor value type
  ∈ ["text-red-600"; "text-yellow-600"; "text-green-600"; "text-gray-600"]
  /\ (SensorPanel.getStatusColor value type = "text-red-600"
      <-> type = "temperature" /\ (value < 10 \/ 35 < value)%Q)
  /\ (SensorPanel.getStatusColor value type = "text-gray-600"
      <-> type ∉ ["temperature"; "humidity"; "soil_moisture"; "sunlight"])
  /\ (forall d,
         SensorPanel.getStatusColor (temperature d) "temperature"
         = "text-red-600"
         <-> Dashboard.temperatureLine d = true).
Proof.
  assert (Hline : forall d,
             SensorPanel.getStatusColor (temperature d) "temperature"
             = "text-red-600"
             <-> Dashboard.temperatureLine d = true).
  { intros d. unfold SensorPanel.getStatusColor, Dashboard.temperatureLine.
    cbn [String.eqb Ascii.eqb Bool.eqb]. num_solve. }
  split; [|split; [|split; [|exact Hline]]]; clear Hline;
    unfold SensorPanel.getStatusColor.
  - repeat match goal with
           | |- context [String.eqb ?s ?t] => destruct (String.eqb s t)
           end;
      num_cases;
      first [left | right; left | right; right; left
            | right; right; right; left].
  - destruct (String.eqb_spec type "temperature") as [-> | H1].
    + num_cases; split; intros H; try discriminate H; try reflexivity;
        try (split; [reflexivity|]; first [left; lra | right; lra]);
        try (destruct H as [_ [H | H]]; lra).
    + repeat match goal with
             | |- context [String.eqb ?s ?t] => destruct (String.eqb s t)
             end;
        num_cases; (split; [discriminate | intros [H _]; contradiction]).
  - rewrite !not_elem_of_cons.
    destruct (String.eqb_spec type "temperature") as [-> | H1];
      [num_cases; (split; [discriminate | intros [H _]; contradiction])|].
    destruct (String.eqb_spec type "humidity") as [-> | H2];
      [num_cases; (split; [discriminate | intros (_ & H & _); contradiction])|].
    destruct (String.eqb_spec type "soil_moisture") as [-> | H3];
      [num_cases;
       (split; [discriminate | intros (_ & _ & H & _); contradiction])|].
    destruct (String.eqb_spec type "sunlight") as [-> | H4];
      [num_cases;
       (split; [discriminate | intros (_ & _ & _ & H & _); contradiction])|].
    split; [|reflexivity]. intros _.
    repeat (split; [assumption|]). apply not_elem_of_nil.
Qed.

(** ** PlantHealth: mounting and failed analyses *)

Section PlantHealthExtras.
Import PlantHealth PlantHealthMount.
Context {Analysis File : Type}.
Variable JSON_stringify : list (HistoryRecord Analysis) -> string.
Variable JSON_parse : string -> Exc (list (HistoryRecord Analysis)).
Variable fits : gmap string string -> bool.
Variable quota_message : string.

(** X10. Mounting the plant-health view reads the stored history twice:
    in the state initializer, unguarded, and in an effect, guarded.
    With no stored text, or an empty one, the view mounts with an empty
    history; with a text that parses it mounts with the parsed history;
    with a text that does not parse the initializer's exception escapes
    and the view does not mount, the effect's [catch] notwithstanding. *)
Theorem plant_health_mount storage :
  (storage !! "plantHealthHistory" = None
   \/ storage !! "plantHealthHistory" = Some EmptyString ->
   mount (File:=File) JSON_parse storage
   = Ok {| state := initial []; localStorage := storage |})
  /\ (forall saved parsed,
         storage !! "plantHealthHistory" = Some saved ->
         saved <> EmptyString ->
         JSON_parse saved = Ok parsed ->
         mount (File:=File) JSON_parse storage
         = Ok {| state := initial parsed; localStorage := storage |})
  /\ (forall saved message,
         storage !! "plantHealthHistory" = Some saved ->
         saved <> EmptyString ->
         JSON_parse saved = Throw message ->
         mount (File:=File) JSON_parse storage = Throw message).
Proof.
  unfold mount, initialHistory, loadEffect. cbn [localStorage].
  split; [|split].
  - intros [-> | ->]; reflexivity.
  - intros saved parsed -> Hne%String.eqb_neq Hparse.
    rewrite Hne, Hparse. cbn [mbind Exc_bind mret Exc_ret].
    rewrite ?Hne, ?Hparse. reflexivity.
  - intros saved message -> Hne%String.eqb_neq Hparse.
    rewrite Hne, Hparse. reflexivity.
Qed.

Lemma handleAnalyze_failed now iso fetched message (w : World Analysis File)
    file :
  selectedFile _ _ (state _ _ w) = Some file ->
  failure_of fetched = Some message ->
  handleAnalyze _ _ JSON_stringify fits quota_message now iso fetched w
  = {| state := setLoading _ _ false
                  (setError _ _ (Some message)
                     (setError _ _ None
                        (setLoading _ _ true (state _ _ w))));
       localStorage := localStorage _ _ w |}.
Proof.
  intros Hfile Hfail. unfold handleAnalyze. rewrite Hfile.
  unfold failure_of in Hfail.
  destruct fetched as [response|e]; cbn [mbind Exc_bind].
  - destruct (negb (ok _ response)); [injection Hfail as <-; reflexivity|].
    destruct (json _ response) as [data|e]; [discriminate|].
    injection Hfail as <-. reflexivity.
  - injection Hfail as <-. reflexivity.
Qed.

(** X11. An analysis that fails, with a file selected, leaves the
    history, the store, the shown analysis, the preview and the
    selected file as they were, sets the error message and ends with
    the loading flag cleared. Without a selected file [handleAnalyze]
    does nothing at all. *)
Theorem analysis_failure_frame now iso fetched message
    (w : World Analysis File) file :
  selectedFile _ _ (state _ _ w) = Some file ->
  failure_of fetched = Some message ->
  let w' := handleAnalyze _ _ JSON_stringify fits quota_message now iso
              fetched w in
  history _ _ (state _ _ w') = history _ _ (state _ _ w)
  /\ localStorage _ _ w' = localStorage _ _ w
  /\ analysis _ _ (state _ _ w') = analysis _ _ (state _ _ w)
  /\ preview _ _ (state _ _ w') = preview _ _ (state _ _ w)
  /\ selectedFile _ _ (state _ _ w') = Some file
  /\ error _ _ (state _ _ w') = Some message
  /\ loading _ _ (state _ _ w') = false
  /\ (forall w0 : World Analysis File,
         selectedFile _ _ (state _ _ w0) = None ->
         handleAnalyze _ _ JSON_stringify fits quota_message now iso
           fetched w0 = w0).
Proof.
  intros Hfile Hfail w'. unfold w'.
  rewrite (handleAnalyze_failed now iso fetched message w file Hfile Hfail).
  cbn. repeat split; try reflexivity; try exact Hfile.
  intros w0 H0. unfold handleAnalyze. rewrite H0. reflexivity.
Qed.
End PlantHealthExtras.

Lemma plant_health_mount_witness :
  PlantHealthMount.mount (File:=string)
    (plant_parse_among [map plant_record (seq 0 20)])
    (<["plantHealthHistory" := "[{id:17"]> ∅)
  = Throw "Unexpected token in JSON".
Proof.
  destruct (plant_health_mount (File:=string)
              (plant_parse_among [map plant_record (seq 0 20)])
              (<["plantHealthHistory" := "[{id:17"]> ∅)) as (_ & _ & H).
  apply (H "[{id:17" "Unexpected token in JSON").
  - apply lookup_insert_eq.
  - discriminate.
  - vm_compute. reflexivity.
Defined.

Lemma analysis_failure_frame_witness :
  let w' := PlantHealth.handleAnalyze _ _ stringify_plant_history
              (within 5000000) quota_exceeded
              1700000000020 "2023-11-14T22:13:20.020Z"
              (Throw "Failed to fetch") full_plant_history in
  PlantHealth.history _ _ (PlantHealth.state _ _ w')
  = map plant_record (seq 0 20)
  /\ PlantHealth.error _ _ (PlantHealth.state _ _ w')
     = Some "Failed to fetch".
Proof.
  destruct (analysis_failure_frame stringify_plant_history
              (within 5000000) quota_exceeded
              1700000000020 "2023-11-14T22:13:20.020Z"
              (Throw "Failed to fetch") "Failed to fetch"
              full_plant_history "leaf.jpg" eq_refl eq_refl)
    as (Hh & _ & _ & _ & _ & He & _).
  split; [exact Hh | exact He].
Defined.

Example trim_question :
  trim "  How often should I water?  " = "How often should I water?".
Proof. reflexivity. Qed.

(** ** ChatBot *)

Section ChatBotProperties.
Import ChatBot.
Variable JSON_stringify : list Message -> string.
Variable JSON_parse : string -> Exc (list Message).
Variable trim : string -> string.













(** X13. The chat opens with the stored messages when the stored text
    parses to a non-empty array, and with the greeting alone in every
    other case: no stored text, an empty text, a text that does not
    parse, or an empty array. *)
Theorem chat_initial_messages storage :
  (forall saved parsed,
      storage !! "chatHistory" = Some saved ->
      saved <> EmptyString ->
      JSON_parse saved = Ok parsed ->
      parsed <> [] ->
      initialMessages JSON_parse storage = parsed)
  /\ ((storage !! "chatHistory" = None
       \/ storage !! "chatHistory" = Some EmptyString
       \/ (exists saved message,
              storage !! "chatHistory" = Some saved
              /\ JSON_parse saved = Throw message)
       \/ (exists saved,
              storage !! "chatHistory" = Some saved
              /\ JSON_parse saved = Ok [])) ->
      initialMessages JSON_parse storage = [greeting]).
Proof.
  unfold initialMessages. split.
  - intros saved parsed -> Hne%String.eqb_neq -> Hparsed.
    rewrite Hne. cbn [mbind Exc_bind mret Exc_ret try_catch].
    destruct parsed; [contradiction | reflexivity].
  - intros [-> | [-> | [(saved & message & -> & ->) | (saved & -> & ->)]]];
      try reflexivity;
      destruct (String.eqb saved EmptyString); reflexivity.
Qed.

(** The assistant's message of an exchange: the answer of the service
    when the request succeeded, the apology when it failed. *)
Lemma assistant_answer (fetched : Exc Response) response text :
  fetched = Ok response -> ok response = true -> json response = Ok text ->
  try_catch
    (response ← fetched;
     if negb (ok response) then Throw "Failed to get response"
     else
       text ← json response;
       mret {| role := "assistant"; content := text |})
    (fun _ => {| role := "assistant"; content := apology |})
  = {| role := "assistant"; content := text |}.
Proof.
  intros -> Hok Hjson. cbn [mbind Exc_bind]. rewrite Hok. cbn [negb].
  rewrite Hjson. reflexivity.
Qed.

Lemma assistant_apology (fetched : Exc Response) :
  failed fetched ->
  try_catch
    (response ← fetched;
     if negb (ok response) then Throw "Failed to get response"
     else
       text ← json response;
       mret {| role := "assistant"; content := text |})
    (fun _ => {| role := "assistant"; content := apology |})
  = {| role := "assistant"; content := apology |}.
Proof.
  intros [(message & ->) | (response & -> & [Hok | (message & Hjson)])];
    cbn [mbind Exc_bind try_catch]; [reflexivity|..].
  - rewrite Hok. reflexivity.
  - destruct (negb (ok response)); [reflexivity|].
    rewrite Hjson. reflexivity.
Qed.

Lemma messages_setMessages update v :
  messages (state (setMessages JSON_stringify update v))
  = update (messages (state v)).
Proof.
  unfold setMessages, persist. cbn [state messages].
  destruct (0 <? length (update (messages (state v))))%nat; reflexivity.
Qed.

Lemma loading_setMessages update v :
  loading (state (setMessages JSON_stringify update v)) = loading (state v).
Proof.
  unfold setMessages, persist. cbn [state messages].
  destruct (0 <? length (update (messages (state v))))%nat; reflexivity.
Qed.

Lemma inputMessage_setMessages update v :
  inputMessage (state (setMessages JSON_stringify update v))
  = inputMessage (state v).
Proof.
  unfold setMessages, persist. cbn [state messages].
  destruct (0 <? length (update (messages (state v))))%nat; reflexivity.
Qed.

(** X14. [handleSend] does nothing while the input is blank or a
    request is under way. Otherwise it appends exactly two messages to
    those shown: the trimmed input as the user's, and then the
    assistant's, which is the text the service answered with when the
    request succeeded, and the fixed apology when the request failed.
    It never drops a message, empties the input and ends with the
    loading flag cleared. *)
Theorem handleSend_exchange fetched w :
  (refused trim (state w) = true ->
   handleSend JSON_stringify trim fetched w = w)
  /\ (refused trim (state w) = false ->
      let w' := handleSend JSON_stringify trim fetched w in
      let asked :=
        {| role := "user"; content := trim (inputMessage (state w)) |} in
      (forall response text,
          fetched = Ok response -> ok response = true ->
          json response = Ok text ->
          messages (state w')
          = messages (state w)
            ++ [asked; {| role := "assistant"; content := text |}])
      /\ (failed fetched ->
          messages (state w')
          = messages (state w)
            ++ [asked; {| role := "assistant"; content := apology |}])
      /\ inputMessage (state w') = EmptyString
      /\ loading (state w') = false).
Proof.
  unfold handleSend. split; intros Href; rewrite Href; [reflexivity|].
  cbn zeta. unfold submit. rewrite Href.
  unfold settle. cbn [setLoading state messages inputMessage loading].
  rewrite !messages_setMessages, !inputMessage_setMessages.
  cbn [setLoading setInputMessage state messages inputMessage].
  rewrite <- app_assoc. cbn [app].
  split; [|split; [|split; reflexivity]].
  - intros response text Hf Hok Hjson.
    rewrite (assistant_answer fetched response text Hf Hok Hjson).
    reflexivity.
  - intros Hfailed. rewrite (assistant_apology fetched Hfailed).
    reflexivity.
Qed.


(** X16. Clearing the chat does not cancel a request under way: when
    the chat is cleared between sending and the arrival of the answer,
    the assistant's message is appended to the fresh chat, right after
    the greeting, and the question it answers is gone. That message is
    the text the service answered with when the request succeeded, and
    the apology when it failed. *)
Theorem answer_lands_after_clear fetched w :
  refused trim (state w) = false ->
  let w' := run JSON_stringify trim [Submitted; Cleared; Settled fetched] w in
  (forall response text,
      fetched = Ok response -> ok response = true ->
      json response = Ok text ->
      messages (state w')
      = [greeting; {| role := "assistant"; content := text |}])
  /\ (failed fetched ->
      messages (state w')
      = [greeting; {| role := "assistant"; content := apology |}])
  /\ loading (state w') = false.
Proof.
  intros Href. cbn [run fold_left step].
  set (w1 := submit JSON_stringify trim w).
  set (w2 := clearChat JSON_stringify w1).
  assert (H1 : loading (state w1) = true).
  { unfold w1, submit. rewrite Href. rewrite loading_setMessages.
    reflexivity. }
  assert (H2 : loading (state w2) = true /\ messages (state w2) = [greeting]).
  { unfold w2, clearChat. cbn [state].
    rewrite loading_setMessages, messages_setMessages. split; [exact H1|].
    reflexivity. }
  destruct H2 as [H2 H2m]. rewrite H2.
  unfold settle. cbn [setLoading state messages loading].
  rewrite messages_setMessages, H2m. cbn [app].
  split; [|split; [|reflexivity]].
  - intros response text Hf Hok Hjson.
    rewrite (assistant_answer fetched response text Hf Hok Hjson).
    reflexivity.
  - intros Hfailed. rewrite (assistant_apology fetched Hfailed).
    reflexivity.
Qed.
End ChatBotProperties.

Lemma chat_initial_messages_witness :
  ChatBot.initialMessages (chat_parse_among [chat_after_answer])
    (<["chatHistory" := "[{role:"]> ∅)
  = [ChatBot.greeting].
Proof.
  destruct (chat_initial_messages (chat_parse_among [chat_after_answer])
              (<["chatHistory" := "[{role:"]> ∅)) as [_ H].
  apply H. right. right. left.
  exists "[{role:", "Unexpected token in JSON".
  split; [apply lookup_insert_eq | vm_compute; reflexivity].
Defined.

Lemma handleSend_exchange_witness :
  ChatBot.messages
    (ChatBot.state
       (ChatBot.handleSend stringify_chat trim chat_answer
          chat_with_question))
  = chat_after_answer
  /\ ChatBot.messages
       (ChatBot.state
          (ChatBot.handleSend stringify_chat trim (Throw "Failed to fetch")
             chat_with_question))
     = [ChatBot.greeting;
        {| ChatBot.role := "user";
           ChatBot.content := "How often should I water?" |};
        {| ChatBot.role := "assistant";
           ChatBot.content := ChatBot.apology |}].
Proof.
  split.
  - destruct (handleSend_exchange stringify_chat trim chat_answer
                chat_with_question) as [_ H].
    destruct (H eq_refl) as (Hm & _).
    rewrite (Hm _ "Every morning." eq_refl eq_refl eq_refl). reflexivity.
  - destruct (handleSend_exchange stringify_chat trim
                (Throw "Failed to fetch") chat_with_question) as [_ H].
    destruct (H eq_refl) as (_ & Hm & _).
    rewrite Hm; [reflexivity|]. left. eexists. reflexivity.
Defined.


Lemma answer_lands_after_clear_witness :
  ChatBot.messages
    (ChatBot.state
       (ChatBot.run stringify_chat trim
          [ChatBot.Submitted; ChatBot.Cleared;
           ChatBot.Settled chat_answer] chat_with_question))
  = [ChatBot.greeting;
     {| ChatBot.role := "assistant"; ChatBot.content := "Every morning." |}].
Proof.
  destruct (answer_lands_after_clear stringify_chat trim chat_answer
              chat_with_question eq_refl) as (Hm & _).
  apply (Hm _ "Every morning." eq_refl eq_refl eq_refl).
Defined.

(** ** CropPlanner *)

Section CropPlannerProperties.
Import CropPlanner.
Context {PlantingPlan LocationAnalysis Growth : Type}.
Variable crop_member : Growth -> option string.
Variable JSON_stringify :
  list (Plan (PlantingPlan:=PlantingPlan)
          (LocationAnalysis:=LocationAnalysis)) -> string.

Lemma savePlan_saved (now : Z) (iso : string)
    (w : @World PlantingPlan LocationAnalysis Growth) s :
  shown (state w) = Some s ->
  city (formData (state w)) <> EmptyString ->
  savePlan JSON_stringify now iso w
  = let updated :=
      slice_last 10
        (savedPlans (state w) ++ [newPlan now iso (formData (state w)) s]) in
    {| state := setSavedPlans updated (state w);
       localStorage :=
         <["savedCropPlans" := JSON_stringify updated]> (localStorage w);
       alerts := alerts w ++ ["Plan saved successfully!"] |}.
Proof.
  intros Hs Hcity%String.eqb_neq. unfold savePlan.
  rewrite Hs, Hcity. reflexivity.
Qed.


(** X18. Saving and loading are inverse on what the planner shows:
    after a plan was saved, loading the newest saved plan puts back the
    city, the area and the sunlight hours of the form and the
    suggestions, planting plan and location analysis that were shown. *)
Theorem save_then_load (now : Z) (iso : string)
    (w : @World PlantingPlan LocationAnalysis Growth) s :
  shown (state w) = Some s ->
  city (formData (state w)) <> EmptyString ->
  let w' := savePlan JSON_stringify now iso w in
  exists plan,
    last (savedPlans (state w')) = Some plan
    /\ let st := loadPlan plan (state w') in
       city (formData st) = city (formData (state w))
       /\ rooftop_area (formData st) = rooftop_area (formData (state w))
       /\ sunlight_hours (formData st) = sunlight_hours (formData (state w))
       /\ (exists s',
              shown st = Some s'
              /\ suggestions s' = suggestions s
              /\ planting_plan s' = planting_plan s
              /\ location_analysis s' = location_analysis s)
       /\ savedPlans st = savedPlans (state w').
Proof.
  intros Hs Hcity w'. unfold w'.
  rewrite (savePlan_saved now iso w s Hs Hcity). cbn zeta.
  cbn [state savedPlans setSavedPlans].
  eexists. split; [apply slice_last_snoc_last; lia|]. cbn.
  repeat split; try reflexivity.
  eexists. repeat split; reflexivity.
Qed.

(** *** Selecting crops *)

Lemma names_filter (P : Crop -> bool) (l : list Crop) n :
  In n (map crop_name (List.filter P l)) -> In n (map crop_name l).
Proof.
  rewrite !in_map_iff. intros (c & Hn & Hc).
  apply filter_In in Hc as [Hc _]. exists c. split; assumption.
Qed.

Lemma NoDup_names_filter (P : Crop -> bool) (l : list Crop) :
  List.NoDup (map crop_name l) ->
  List.NoDup (map crop_name (List.filter P l)).
Proof.
  induction l as [|c l IH]; cbn [map List.filter]; [intros H; exact H|].
  intros [Hc Hl]%NoDup_cons_iff. destruct (P c); cbn [map].
  - apply NoDup_cons_iff. split; [|apply IH, Hl].
    intros Hin. apply Hc, (names_filter P), Hin.
  - apply IH, Hl.
Qed.

Lemma filter_other_names (crop : Crop) (l : list Crop) :
  ~ In (crop_name crop) (map crop_name l) ->
  List.filter (fun c => negb (String.eqb (crop_name c) (crop_name crop))) l
  = l.
Proof.
  induction l as [|c l IH]; cbn [map List.filter In]; [reflexivity|].
  intros Hn. destruct (String.eqb_spec (crop_name c) (crop_name crop))
    as [Heq | Hne]; cbn [negb].
  - exfalso. apply Hn. left. exact Heq.
  - rewrite IH; [reflexivity|]. intros Hin. apply Hn. right. exact Hin.
Qed.

Lemma find_name_spec (crop : Crop) (l : list Crop) :
  match List.find (fun c => String.eqb (crop_name c) (crop_name crop)) l with
  | Some _ => In (crop_name crop) (map crop_name l)
  | None => ~ In (crop_name crop) (map crop_name l)
  end.
Proof.
  destruct (List.find _ l) as [c|] eqn:Hf.
  - apply find_some in Hf as [Hin Heq]. apply String.eqb_eq in Heq.
    apply in_map_iff. exists c. split; assumption.
  - intros (c & Hn & Hc)%in_map_iff.
    pose proof (find_none _ _ Hf c Hc) as Hne. cbn in Hne.
    apply String.eqb_neq in Hne. contradiction.
Qed.

(** X19. Clicking a crop toggles its name in the selection: the name
    is selected afterwards exactly when it was not before, and the
    other names are selected as before. A selection whose names are
    all different keeps that property, and clicking a crop twice, from
    a selection that did not hold its name, gives that selection
    back. *)
Theorem toggleCropSelection_toggles (crop : Crop) (prev : list Crop) :
  let next := toggleCropSelection crop prev in
  (In (crop_name crop) (map crop_name next)
   <-> ~ In (crop_name crop) (map crop_name prev))
  /\ (forall n, n <> crop_name crop ->
                (In n (map crop_name next) <-> In n (map crop_name prev)))
  /\ (List.NoDup (map crop_name prev) -> List.NoDup (map crop_name next))
  /\ (~ In (crop_name crop) (map crop_name prev) ->
      toggleCropSelection crop next = prev).
Proof.
  cbn zeta. unfold toggleCropSelection at 1 2 3 5.
  pose proof (find_name_spec crop prev) as Hfind.
  destruct (List.find _ prev) as [c0|].
  - (* the name was selected: every crop that carries it is removed *)
    assert (Hgone : ~ In (crop_name crop)
                      (map crop_name
                         (List.filter
                            (fun c => negb (String.eqb (crop_name c)
                                              (crop_name crop))) prev))).
    { intros (c & Hn & Hc)%in_map_iff. apply filter_In in Hc as [_ Hc].
      apply negb_true_iff, String.eqb_neq in Hc. contradiction. }
    split; [tauto|]. split; [|split].
    + intros n Hn. rewrite !in_map_iff. split.
      * intros (c & Hc & Hin). apply filter_In in Hin as [Hin _]. eauto.
      * intros (c & Hc & Hin). exists c. split; [exact Hc|].
        apply filter_In. split; [exact Hin|].
        apply negb_true_iff, String.eqb_neq. congruence.
    + apply NoDup_names_filter.
    + intros Habs. contradiction.
  - (* the name was not selected: the crop is appended *)
    split; [|split; [|split]].
    + split; [intros _; exact Hfind|]. intros _.
      rewrite map_app. apply in_or_app. right. left. reflexivity.
    + intros n Hn. rewrite map_app, in_app_iff. cbn [map In].
      split; [|tauto]. intros [H | [H | []]]; [exact H | congruence].
    + intros Hnd. rewrite map_app. apply NoDup_ListNoDup.
      apply NoDup_app. repeat split.
      * apply NoDup_ListNoDup, Hnd.
      * intros n Hn ->%list_elem_of_singleton.
        apply Hfind, list_elem_of_In, Hn.
      * apply NoDup_singleton.
    + intros _. unfold toggleCropSelection.
      pose proof (find_name_spec crop (prev ++ [crop])) as Hfind2.
      destruct (List.find _ (prev ++ [crop])) as [c1|].
      * rewrite List.filter_app, (filter_other_names crop prev Hfind).
        cbn [List.filter]. rewrite String.eqb_refl. cbn [negb].
        apply app_nil_r.
      * exfalso. apply Hfind2. rewrite map_app. apply in_or_app.
        right. left. reflexivity.
Qed.

(** *** Requests *)

(** X20. [handleSubmit] always ends with the loading flag cleared and
    never touches the form, the saved plans or the selection. When the
    request fails, the error message is set and the suggestions shown
    before stay; when it succeeds, the new suggestions are shown and no
    error is set. *)
Theorem handleSubmit_outcome
    (fetched : Exc (Response (@Suggestions PlantingPlan LocationAnalysis)))
    (st : @State PlantingPlan LocationAnalysis Growth) :
  let st' := handleSubmit fetched st in
  loading st' = false
  /\ formData st' = formData st
  /\ savedPlans st' = savedPlans st
  /\ selectedCrops st' = selectedCrops st
  /\ match failure_of "Failed to get crop suggestions" fetched with
     | Some message => error st' = Some message /\ shown st' = shown st
     | None =>
         error st' = None
         /\ exists response data,
              fetched = Ok response /\ json _ response = Ok data
              /\ shown st' = Some data
     end.
Proof.
  cbn zeta. unfold handleSubmit, failure_of.
  destruct fetched as [response|e]; cbn [mbind Exc_bind try_catch].
  - destruct (negb (ok _ response)); [repeat split; reflexivity|].
    destruct (json _ response) as [data|e] eqn:Hj;
      cbn [mbind Exc_bind mret Exc_ret try_catch];
      [|repeat split; reflexivity].
    do 5 (split; [reflexivity|]).
    exists response, data. repeat split; first [exact Hj | reflexivity].
  - repeat split; reflexivity.
Qed.

(** X21. [handlePredictGrowth] never clears an error and never touches
    the loading flag: a prediction that fails sets the error message
    and keeps the prediction shown before; one that succeeds shows the
    body of the response and leaves whatever error message was set.
    The prediction is shown under the crop the response names, when it
    names one, and under the crop asked for otherwise. *)
Theorem handlePredictGrowth_outcome (crop : string)
    (fetched : Exc (Response Growth))
    (st : @State PlantingPlan LocationAnalysis Growth) :
  let st' := handlePredictGrowth crop_member crop fetched st in
  loading st' = loading st
  /\ shown st' = shown st
  /\ match failure_of "Failed to predict growth" fetched with
     | Some message =>
         error st' = Some message
         /\ growthPrediction st' = growthPrediction st
     | None =>
         error st' = error st
         /\ exists response data,
              fetched = Ok response /\ json _ response = Ok data
              /\ match crop_member data with
                 | Some named => growthPrediction st' = Some (named, data)
                 | None => growthPrediction st' = Some (crop, data)
                 end
     end.
Proof.
  cbn zeta. unfold handlePredictGrowth, failure_of.
  destruct fetched as [response|e]; cbn [mbind Exc_bind try_catch].
  - destruct (negb (ok _ response)); [repeat split; reflexivity|].
    destruct (json _ response) as [data|e] eqn:Hj;
      cbn [mbind Exc_bind mret Exc_ret try_catch];
      [|repeat split; reflexivity].
    do 3 (split; [reflexivity|]).
    exists response, data. split; [reflexivity|]. split; [exact Hj|].
    unfold withCrop. cbn [growthPrediction setGrowthPrediction].
    destruct (crop_member data); reflexivity.
  - repeat split; reflexivity.
Qed.
End CropPlannerProperties.

(** A prediction asked for tomatoes whose response names basil is
    shown under basil; one whose response names no crop is shown under
    tomatoes. *)
Example growth_prediction_crop :
  CropPlanner.growthPrediction
    (CropPlanner.handlePredictGrowth body_crop "Tomato"
       (Ok {| CropPlanner.ok := true;
              CropPlanner.json :=
                Ok {| body_crop := Some "Basil"; harvest_days := 60 |} |})
       empty_planner)
  = Some ("Basil", {| body_crop := Some "Basil"; harvest_days := 60 |})
  /\ CropPlanner.growthPrediction
       (CropPlanner.handlePredictGrowth body_crop "Tomato"
          (Ok {| CropPlanner.ok := true;
                 CropPlanner.json :=
                   Ok {| body_crop := None; harvest_days := 75 |} |})
          empty_planner)
     = Some ("Tomato", {| body_crop := None; harvest_days := 75 |}).
Proof. split; reflexivity. Qed.


Lemma save_then_load_witness :
  exists plan,
    last (CropPlanner.savedPlans
            (CropPlanner.state
               (CropPlanner.savePlan stringify_plans 1700000000000
                  "2023-11-14T22:13:20.000Z" planner_with_suggestions)))
    = Some plan
    /\ CropPlanner.city
         (CropPlanner.formData
            (CropPlanner.loadPlan plan
               (CropPlanner.state
                  (CropPlanner.savePlan stringify_plans 1700000000000
                     "2023-11-14T22:13:20.000Z" planner_with_suggestions))))
       = "Pune".
Proof.
  destruct (save_then_load (Growth:=string) stringify_plans 1700000000000
              "2023-11-14T22:13:20.000Z" planner_with_suggestions _ eq_refl)
    as (plan & Hlast & Hcity & _); [discriminate|].
  exists plan. split; [exact Hlast | exact Hcity].
Defined.

Lemma toggleCropSelection_toggles_witness :
  CropPlanner.toggleCropSelection tomato
    (CropPlanner.toggleCropSelection tomato [basil])
  = [basil].
Proof.
  destruct (toggleCropSelection_toggles tomato [basil]) as (_ & _ & _ & H).
  apply H. intros [H0 | []]. discriminate H0.
Defined.
